(** * LE910CX modem driver: AT-command executor, decoders and setting accessors

    Shallow embedding of [src/salt/base/ext/_utils/le910cx_conn.py]
    (class [LE910CXConn]) and the properties of its command executor,
    response decoders and get-or-set accessors.

    Layout:
    - [Py]    : the Python built-ins the driver relies on (slices, [split],
                [strip], [upper], [int], [float], [{:d}] formatting);
    - [Re]    : a backtracking matcher for the [re] patterns of the driver;
    - [Dt]    : [datetime.strptime], [timedelta] arithmetic, [isoformat];
    - [Serial]: the line transport ([SerialConn]) and the effect monad;
    - [LE910CX]: the driver itself, method by method;
    - the theorems. *)

From Stdlib Require Import ZArith List String Ascii Bool Lia DecimalString.
From Stdlib Require Import Floats.SpecFloat.
Import ListNotations.
Local Open Scope string_scope.
Local Open Scope Z_scope.

Set Implicit Arguments.

(* ===================================================================== *)
(** ** Python built-ins *)
(* ===================================================================== *)

Module Py.

(** Exceptions the driver can raise or let through.  The first four are the
    classes the module declares; the others are Python built-ins, and
    [SerialTimeout] is the transport's failure when nothing more arrives. *)
Inductive exn : Type :=
| CommandExecutionException (cmd : string) (etype ereason : string)
| InvalidResponseException (msg : string)
| NoFixException
| ValueError (msg : string)
| TypeError (msg : string)
| AttributeError (msg : string)
| KeyError (key : string)
| IndexError (msg : string)
| OverflowError (msg : string)
| PlainException (msg : string)
| SerialTimeout.

(** Dynamically typed arguments of the public methods ([mode=None],
    [status=None], flags): the types the validation code tells apart. *)
Inductive value : Type :=
| VNone
| VBool (b : bool)
| VInt (n : Z)
| VStr (s : string).

Definition is_none (v : value) : bool :=
  match v with VNone => true | _ => false end.

(** [a == b]: values of different types differ, except that a [bool] is
    the integer 0 or 1. *)
Definition value_eqb (a b : value) : bool :=
  match a, b with
  | VNone, VNone => true
  | VBool x, VBool y => Bool.eqb x y
  | VInt x, VInt y => x =? y
  | VBool x, VInt y | VInt y, VBool x => (if x then 1 else 0) =? y
  | VStr x, VStr y => String.eqb x y
  | _, _ => false
  end.

(** [len(s)] as an integer. *)
Definition len (s : string) : Z := Z.of_nat (String.length s).

(** Index normalisation of a slice bound: negative bounds count from the
    end, and every bound is clamped to [0 .. len]. *)
Definition clamp (n : Z) (i : Z) : Z :=
  let j := if i <? 0 then i + n else i in
  if j <? 0 then 0 else if n <? j then n else j.

(** [s[lo:hi]] with optional bounds ([None] = omitted). *)
Definition slice (lo hi : option Z) (s : string) : string :=
  let n := len s in
  let a := match lo with Some i => clamp n i | None => 0 end in
  let b := match hi with Some i => clamp n i | None => n end in
  if b <=? a then EmptyString else substring (Z.to_nat a) (Z.to_nat (b - a)) s.

(** [s[i]] on a string: the one-character string at [i], or [IndexError]. *)
Definition str_index (s : string) (i : Z) : option string :=
  let n := len s in
  let j := if i <? 0 then i + n else i in
  if (j <? 0) || (n <=? j) then None
  else Some (substring (Z.to_nat j) 1 s).

(** [s.split(sep)] for a one-character separator: never empty, keeps empty
    fields. *)
Fixpoint split_on (sep : ascii) (s : string) : list string :=
  match s with
  | EmptyString => [EmptyString]
  | String c s' =>
      if Ascii.eqb c sep then EmptyString :: split_on sep s'
      else match split_on sep s' with
           | [] => [String c EmptyString]
           | f :: fs => String c f :: fs
           end
  end.

Fixpoint lstrip (c : ascii) (s : string) : string :=
  match s with
  | String c' s' => if Ascii.eqb c c' then lstrip c s' else s
  | EmptyString => EmptyString
  end.

Fixpoint rev_string (s : string) (acc : string) : string :=
  match s with
  | EmptyString => acc
  | String c s' => rev_string s' (String c acc)
  end.

(** [s.strip(c)] for a one-character set: drops every leading and trailing
    occurrence of [c]. *)
Definition strip (c : ascii) (s : string) : string :=
  rev_string (lstrip c (rev_string (lstrip c s) EmptyString)) EmptyString.

Definition upper_ascii (c : ascii) : ascii :=
  let n := nat_of_ascii c in
  if (97 <=? n)%nat && (n <=? 122)%nat then ascii_of_nat (n - 32) else c.

(** [s.upper()] (ASCII letters). *)
Fixpoint upper (s : string) : string :=
  match s with
  | EmptyString => EmptyString
  | String c s' => String (upper_ascii c) (upper s')
  end.

Definition is_digit (c : ascii) : bool :=
  let n := nat_of_ascii c in (48 <=? n)%nat && (n <=? 57)%nat.

Definition digit_val (c : ascii) : Z := Z.of_nat (nat_of_ascii c) - 48.

(** The white space [int] and [float] ignore around a literal.  A
    character is a code point below 256.  Both conversions skip the six
    ASCII blanks (tab to carriage return, and the space) and the white
    space beyond ASCII, which below 256 is NEL (133) and the no-break space
    (160); the separators 28 to 31, white space for [str.strip], are not
    skipped and make the literal invalid. *)
Definition is_space (c : ascii) : bool :=
  let n := nat_of_ascii c in
  ((9 <=? n)%nat && (n <=? 13)%nat) || (n =? 32)%nat
  || (n =? 133)%nat || (n =? 160)%nat.

Fixpoint lstrip_space (s : string) : string :=
  match s with
  | String c s' => if is_space c then lstrip_space s' else s
  | EmptyString => EmptyString
  end.

Definition strip_space (s : string) : string :=
  rev_string (lstrip_space (rev_string (lstrip_space s) EmptyString)) EmptyString.

(** The white space of [str.isspace], which [s.strip()] removes: the one of
    [int], and the separators 28 to 31. *)
Definition is_str_space (c : ascii) : bool :=
  let n := nat_of_ascii c in
  is_space c || ((28 <=? n)%nat && (n <=? 31)%nat).

Fixpoint lstrip_str_space (s : string) : string :=
  match s with
  | String c s' => if is_str_space c then lstrip_str_space s' else s
  | EmptyString => EmptyString
  end.

(** [s.strip()] *)
Definition str_strip (s : string) : string :=
  rev_string (lstrip_str_space (rev_string (lstrip_str_space s) EmptyString))
             EmptyString.

(** Digits of an integer literal: at least one digit, single underscores
    allowed between digits.  [prev_digit] tells whether the previous
    character was a digit. *)
Fixpoint int_digits (s : string) (prev_digit : bool) (acc : Z) : option Z :=
  match s with
  | EmptyString => if prev_digit then Some acc else None
  | String c s' =>
      if is_digit c then int_digits s' true (10 * acc + digit_val c)
      else if Ascii.eqb c "_" && prev_digit
           then match s' with
                | String c' _ => if is_digit c' then int_digits s' false acc else None
                | EmptyString => None
                end
           else None
  end.

(** The number of decimal digits in a literal. *)
Fixpoint count_digits (s : string) : Z :=
  match s with
  | EmptyString => 0
  | String c s' => (if is_digit c then 1 else 0) + count_digits s'
  end.

(** [sys.get_int_max_str_digits()], as the interpreter sets it by default:
    [int] refuses a literal with more digits. *)
Definition int_max_str_digits : Z := 4300.

(** [int(s)] on a string: surrounding white space, an optional sign, decimal
    digits, no more of them than [int_max_str_digits].  [None] is
    [ValueError]. *)
Definition int_of_string (s : string) : option Z :=
  let literal s' :=
    if int_max_str_digits <? count_digits s' then None else int_digits s' false 0 in
  match strip_space s with
  | String "+" s' => literal s'
  | String "-" s' => option_map Z.opp (literal s')
  | s' => literal s'
  end.

(** [int(x)] where [x] may be [None] (an absent regex group): [TypeError]
    on [None], [ValueError] on a malformed literal. *)
Definition int_of (x : option string) : exn + Z :=
  match x with
  | None => inl (TypeError "int() argument must be a string or a number, not 'NoneType'")
  | Some s => match int_of_string s with
              | Some n => inr n
              | None => inl (ValueError "invalid literal for int() with base 10")
              end
  end.

(** [bool(n)] on an integer. *)
Definition bool_of_int (n : Z) : bool := negb (n =? 0).

(** ["{:d}".format(n)]. *)
Definition format_d (n : Z) : string := NilZero.string_of_int (Z.to_int n).

(** ["{:d}".format(b)] on a [bool]: [True] is 1 and [False] is 0. *)
Definition int_of_bool (b : bool) : Z := if b then 1 else 0.

(** *** Floats

    Python's [float] is IEEE-754 binary64; [+] and [/] round to nearest,
    ties to even.  [SpecFloat] gives exactly these operations on
    [spec_float] at precision 53 and maximal exponent 1024. *)

Definition prec : Z := 53.
Definition emax : Z := 1024.
Definition float := spec_float.

Definition fadd : float -> float -> float := SFadd prec emax.
Definition fdiv : float -> float -> float := SFdiv prec emax.

(** A non-negative integer as a [spec_float] before rounding. *)
Definition float_of_Z_exact (sign : bool) (n : Z) : float :=
  match n with
  | Zpos p => S754_finite sign p 0
  | _ => S754_zero sign
  end.

(** The binary64 nearest to [n], for an integer [n]. *)
Definition float_of_Z (n : Z) : float :=
  binary_normalize prec emax (Z.abs n) 0 (n <? 0).

(** Mantissa digits of a decimal literal: [digits[.digits]].  Returns the
    digits read as one integer and the number of digits after the point. *)
Fixpoint dec_digits (s : string) (seen_point : bool) (any_digit : bool)
         (acc : Z) (frac : nat) : option (Z * nat) :=
  match s with
  | EmptyString => if any_digit then Some (acc, frac) else None
  | String c s' =>
      if is_digit c
      then dec_digits s' seen_point true (10 * acc + digit_val c)
                      (if seen_point then S frac else frac)
      else if Ascii.eqb c "." && negb seen_point
           then dec_digits s' true any_digit acc frac
           else None
  end.

(** [float(s)] on the decimal literals the driver converts: surrounding
    white space, an optional sign, digits with an optional point.  The
    result is the correctly rounded quotient of the digits by the power
    of ten.  (Exponents, [inf], [nan] and underscores, which [float] also
    reads, never reach it: every argument is a regex group or a slice of
    one.)  [None] is [ValueError]. *)
Definition float_of_string (s : string) : option float :=
  let body sign s' :=
    match dec_digits s' false false 0 0%nat with
    | Some (m, k) =>
        Some (SFdiv prec emax (float_of_Z_exact sign m)
                    (float_of_Z_exact false (10 ^ Z.of_nat k)))
    | None => None
    end in
  match strip_space s with
  | String "+" s' => body false s'
  | String "-" s' => body true s'
  | s' => body false s'
  end.

Definition float_of (x : option string) : exn + float :=
  match x with
  | None => inl (TypeError "float() argument must be a string or a number, not 'NoneType'")
  | Some s => match float_of_string s with
              | Some f => inr f
              | None => inl (ValueError "could not convert string to float")
              end
  end.

(** Exact comparison of a finite float with a rational [n/d] ([d > 0]):
    [m * 2^e ? n/d].  Used to state bounds on computed floats. *)
Definition float_scaled (f : float) (d : Z) : option (Z * Z) :=
  match f with
  | S754_zero _ => Some (0, 1)
  | S754_finite s m e =>
      let sm := if s then Z.neg m else Z.pos m in
      if 0 <=? e then Some (sm * 2 ^ e * d, 1) else Some (sm * d, 2 ^ (- e))
  | _ => None
  end.

(** [lo/d < f < hi/d]. *)
Definition float_between (lo hi d : Z) (f : float) : bool :=
  match float_scaled f d with
  | Some (num, den) => (lo * den <? num) && (num <? hi * den)
  | None => false
  end.

End Py.

(* ===================================================================== *)
(** ** Regular expressions *)
(* ===================================================================== *)

(** The part of Python's [re] the driver uses: literals, [.], character
    ranges, concatenation, alternation, the greedy quantifiers [?], [*],
    [+] and [{n}], named groups and the anchor [^].  The matcher
    backtracks in the order [re] does (left alternative first, greedy
    repetition first), so the groups it reports are the ones [re]
    reports. *)
Module Re.

Inductive regex : Type :=
| Eps
| Bol                               (* ^ *)
| Chr (c : ascii)                   (* a literal character *)
| Dot                               (* . : anything but a newline *)
| Range (lo hi : ascii)             (* [lo-hi] *)
| Seq (r1 r2 : regex)
| Alt (r1 r2 : regex)               (* r1|r2 *)
| Opt (r : regex)                   (* r? *)
| Star (r : regex)                  (* r* *)
| Rep (n : nat) (r : regex)         (* r{n} *)
| Group (name : string) (r : regex) (* (?P<name>r) *).

(** [r+] is [rr*]. *)
Definition Plus (r : regex) : regex := Seq r (Star r).

(** A literal string. *)
Fixpoint Lit (s : string) : regex :=
  match s with
  | EmptyString => Eps
  | String c EmptyString => Chr c
  | String c s' => Seq (Chr c) (Lit s')
  end.

Fixpoint seqs (rs : list regex) : regex :=
  match rs with
  | [] => Eps
  | [r] => r
  | r :: rs' => Seq r (seqs rs')
  end.

Definition digit : regex := Range "0" "9".

(** Named groups that took part in the match, most recent first. *)
Definition groups := list (string * string).

Definition in_range (lo hi c : ascii) : bool :=
  ((nat_of_ascii lo <=? nat_of_ascii c) && (nat_of_ascii c <=? nat_of_ascii hi))%nat.

(** [run r pos s g k]: match [r] at offset [pos], where [s] is the input
    from [pos] on and [g] the groups so far; [k] continues with the rest.
    [None] makes the caller backtrack. *)
Fixpoint run {R : Type} (r : regex) (pos : nat) (s : string) (g : groups)
         (k : nat -> string -> groups -> option R) {struct r} : option R :=
  match r with
  | Eps => k pos s g
  | Bol => if (pos =? 0)%nat then k pos s g else None
  | Chr c =>
      match s with
      | String c' s' => if Ascii.eqb c c' then k (S pos) s' g else None
      | EmptyString => None
      end
  | Dot =>
      match s with
      | String c' s' => if Ascii.eqb c' "010" then None else k (S pos) s' g
      | EmptyString => None
      end
  | Range lo hi =>
      match s with
      | String c' s' => if in_range lo hi c' then k (S pos) s' g else None
      | EmptyString => None
      end
  | Seq r1 r2 => run r1 pos s g (fun pos' s' g' => run r2 pos' s' g' k)
  | Alt r1 r2 =>
      match run r1 pos s g k with
      | Some x => Some x
      | None => run r2 pos s g k
      end
  | Opt r1 =>
      match run r1 pos s g k with
      | Some x => Some x
      | None => k pos s g
      end
  | Star r1 =>
      (fix star (fuel : nat) (pos : nat) (s : string) (g : groups) : option R :=
         match fuel with
         | O => k pos s g
         | S fuel' =>
             match run r1 pos s g
                       (fun pos' s' g' =>
                          if (pos <? pos')%nat then star fuel' pos' s' g' else None) with
             | Some x => Some x
             | None => k pos s g
             end
         end) (String.length s) pos s g
  | Rep n r1 =>
      (fix rep (n : nat) (pos : nat) (s : string) (g : groups) : option R :=
         match n with
         | O => k pos s g
         | S n' => run r1 pos s g (fun pos' s' g' => rep n' pos' s' g')
         end) n pos s g
  | Group name r1 =>
      run r1 pos s g
          (fun pos' s' g' => k pos' s' ((name, substring 0 (pos' - pos) s) :: g'))
  end.

(** A match object: the named groups and the offset where the match ends. *)
Record match_obj : Type := MatchObj { m_groups : groups; m_end : nat }.

(** [pattern.match(s)]: a match anchored at the start of [s]. *)
Definition rmatch (r : regex) (s : string) : option match_obj :=
  run r 0 s [] (fun pos' _ g' => Some (MatchObj g' pos')).

Fixpoint lookup (name : string) (g : groups) : option string :=
  match g with
  | [] => None
  | (n, v) :: g' => if String.eqb n name then Some v else lookup name g'
  end.

(** [m.group(name)]: [None] when the group took no part in the match. *)
Definition group (m : match_obj) (name : string) : option string :=
  lookup name (m_groups m).

(** Strings made of decimal digits only, and strings whose first character
    is one: what [[0-9]+] takes and where it stops. *)
Fixpoint all_digits (s : string) : bool :=
  match s with
  | EmptyString => true
  | String c s' => in_range "0" "9" c && all_digits s'
  end.

Definition starts_with_digit (s : string) : bool :=
  match s with
  | EmptyString => false
  | String c _ => in_range "0" "9" c
  end.

End Re.

(* ===================================================================== *)
(** ** Dates and times *)
(* ===================================================================== *)

(** [datetime.datetime] as far as [sms_list] needs it: [strptime] with the
    format ["%y/%m/%dT%H:%M:%S"], adding a [timedelta] of whole minutes,
    and [isoformat].  The calendar arithmetic follows the reference
    implementation of the [datetime] module ([_ymd2ord], [_ord2ymd]). *)
Module Dt.

Import Re.

Record datetime : Type := DateTime {
  year : Z; month : Z; day : Z; hour : Z; minute : Z; second : Z
}.

Definition is_leap (y : Z) : bool :=
  (y mod 4 =? 0) && (negb (y mod 100 =? 0) || (y mod 400 =? 0)).

Definition days_before_year (y : Z) : Z :=
  let y' := y - 1 in y' * 365 + y' / 4 - y' / 100 + y' / 400.

(** [_DAYS_IN_MONTH[m]] *)
Definition DAYS_IN_MONTH (m : Z) : Z :=
  nth (Z.to_nat m) [-1; 31; 28; 31; 30; 31; 30; 31; 31; 30; 31; 30; 31] 0.

(** [_DAYS_BEFORE_MONTH[m]] *)
Definition DAYS_BEFORE_MONTH (m : Z) : Z :=
  nth (Z.to_nat m) [-1; 0; 31; 59; 90; 120; 151; 181; 212; 243; 273; 304; 334] 0.

Definition days_in_month (y m : Z) : Z :=
  if (m =? 2) && is_leap y then 29 else DAYS_IN_MONTH m.

Definition days_before_month (y m : Z) : Z :=
  DAYS_BEFORE_MONTH m + (if (2 <? m) && is_leap y then 1 else 0).

(** Day number of a date, 1 for 0001-01-01. *)
Definition ymd2ord (y m d : Z) : Z :=
  days_before_year y + days_before_month y m + d.

Definition DI400Y : Z := 146097.
Definition DI100Y : Z := 36524.
Definition DI4Y : Z := 1461.
Definition MAXORDINAL : Z := 3652059.

(** The date of a day number. *)
Definition ord2ymd (n : Z) : Z * Z * Z :=
  let n := n - 1 in
  let n400 := n / DI400Y in let n := n mod DI400Y in
  let y := n400 * 400 + 1 in
  let n100 := n / DI100Y in let n := n mod DI100Y in
  let n4 := n / DI4Y in let n := n mod DI4Y in
  let n1 := n / 365 in let n := n mod 365 in
  let y := y + n100 * 100 + n4 * 4 + n1 in
  if (n1 =? 4) || (n100 =? 4) then (y - 1, 12, 31)
  else
    let leapyear := (n1 =? 3) && (negb (n4 =? 24) || (n100 =? 3)) in
    let m := Z.shiftr (n + 50) 5 in
    let preceding := DAYS_BEFORE_MONTH m + (if (2 <? m) && leapyear then 1 else 0) in
    if n <? preceding
    then
      let m := m - 1 in
      let preceding :=
        preceding - (DAYS_IN_MONTH m + (if (m =? 2) && leapyear then 1 else 0)) in
      (y, m, n - preceding + 1)
    else (y, m, n - preceding + 1).

(** Whether the date of day [n] has day number [n], and whether this holds
    for [count] days from [n] on. *)
Definition roundtrip_ok (n : Z) : bool :=
  let '(y, m, d) := ord2ymd n in ymd2ord y m d =? n.

Fixpoint roundtrip_from (count : nat) (n : Z) : bool :=
  match count with
  | O => true
  | S k => roundtrip_ok n && roundtrip_from k (n + 1)
  end.

(** Seconds since the start of day number 0. *)
Definition to_seconds (t : datetime) : Z :=
  ymd2ord (year t) (month t) (day t) * 86400
  + hour t * 3600 + minute t * 60 + second t.

(** [t + timedelta(seconds=ds)]: [None] is [OverflowError]. *)
Definition add_seconds (t : datetime) (ds : Z) : option datetime :=
  let total := to_seconds t + ds in
  let days := total / 86400 in
  let secs := total mod 86400 in
  let h := secs / 3600 in
  let rem := secs mod 3600 in
  if (0 <? days) && (days <=? MAXORDINAL)
  then let '(y, m, d) := ord2ymd days in
       Some (DateTime y m d h (rem / 60) (rem mod 60))
  else None.

(** [t + timedelta(minutes=n)] and [t - timedelta(minutes=n)]. *)
Definition add_minutes (t : datetime) (n : Z) : option datetime :=
  add_seconds t (60 * n).
Definition sub_minutes (t : datetime) (n : Z) : option datetime :=
  add_seconds t (- (60 * n)).

(** The regular expression [strptime] builds for ["%y/%m/%dT%H:%M:%S"];
    it is compiled ignoring case, so the literal [T] also matches [t]. *)
Definition strptime_regex : regex :=
  seqs [ Group "y" (Seq digit digit); Chr "/";
         Group "m" (Alt (Seq (Chr "1") (Range "0" "2"))
                   (Alt (Seq (Chr "0") (Range "1" "9")) (Range "1" "9")));
         Chr "/";
         Group "d" (Alt (Seq (Chr "3") (Range "0" "1"))
                   (Alt (Seq (Range "1" "2") digit)
                   (Alt (Seq (Chr "0") (Range "1" "9"))
                   (Alt (Range "1" "9") (Seq (Chr " ") (Range "1" "9"))))));
         Alt (Chr "T") (Chr "t");
         Group "H" (Alt (Seq (Chr "2") (Range "0" "3"))
                   (Alt (Seq (Range "0" "1") digit) digit));
         Chr ":";
         Group "M" (Alt (Seq (Range "0" "5") digit) digit);
         Chr ":";
         Group "S" (Alt (Seq (Chr "6") (Range "0" "1"))
                   (Alt (Seq (Range "0" "5") digit) digit)) ].

Definition field (m : match_obj) (name : string) : Z :=
  match group m name with
  | Some s => match Py.int_of_string s with Some n => n | None => 0 end
  | None => 0
  end.

(** [datetime.strptime(s, "%y/%m/%dT%H:%M:%S")]; [None] is [ValueError]
    (no match, unconverted data, a day the month does not have, or a
    seconds field of 60 or 61, which [datetime] refuses). *)
Definition strptime (s : string) : option datetime :=
  match rmatch strptime_regex s with
  | None => None
  | Some m =>
      if negb (m_end m =? String.length s)%nat then None
      else
        let yy := field m "y" in
        let y := if yy <=? 68 then yy + 2000 else yy + 1900 in
        let mo := field m "m" in
        let d := field m "d" in
        let S := field m "S" in
        if (days_in_month y mo <? d) || (59 <? S) then None
        else Some (DateTime y mo d (field m "H") (field m "M") S)
  end.

Definition pad (width : nat) (n : Z) : string :=
  let s := Py.format_d n in
  (fix zeros (k : nat) : string :=
     match k with O => s | S k' => String "0" (zeros k') end)
    (width - String.length s)%nat.

(** [t.isoformat()] for a [datetime] without microseconds. *)
Definition isoformat (t : datetime) : string :=
  pad 4 (year t) ++ "-" ++ pad 2 (month t) ++ "-" ++ pad 2 (day t) ++ "T"
  ++ pad 2 (hour t) ++ ":" ++ pad 2 (minute t) ++ ":" ++ pad 2 (second t).

End Dt.

(* ===================================================================== *)
(** ** The line transport and the effect monad *)
(* ===================================================================== *)

Module Serial.

Import Re.

(** The [error] entry of a command outcome. *)
Record error_info : Type := ErrorInfo {
  e_type : string;
  e_reason : option string
}.

(** The [data] entry: one line as a string, several lines as a list. *)
Inductive data : Type :=
| Line (s : string)
| Lines (l : list string).

(** The dictionary [read_until] returns: both entries are optional. *)
Record outcome : Type := Outcome {
  o_error : option error_info;
  o_data : option data
}.

Inductive level : Type := INFO | ERROR | EXCEPTION.

(** The connection: the lines the modem will deliver, what was written to
    it, whether the port is open, the pauses taken, and the log (level and
    message template; the formatted arguments are left out). *)
Record conn : Type := Conn {
  rx : list string;
  tx : list string;
  opened : bool;
  slept : list Z;
  logged : list (level * string)
}.

Inductive result (A : Type) : Type :=
| Ok (a : A)
| Raise (e : Py.exn).
Arguments Ok {A} a.
Arguments Raise {A} e.

(** Computations on the connection that may raise.  The connection is
    threaded through failures too: what was read and written before an
    exception stays read and written. *)
Definition M (A : Type) : Type := conn -> result A * conn.

Definition ret {A} (a : A) : M A := fun c => (Ok a, c).
Definition raise {A} (e : Py.exn) : M A := fun c => (Raise e, c).
Definition bind {A B} (m : M A) (k : A -> M B) : M B :=
  fun c => match m c with
           | (Ok a, c') => k a c'
           | (Raise e, c') => (Raise e, c')
           end.

(** [try: body finally: cleanup] *)
Definition try_finally {A} (body : M A) (cleanup : M unit) : M A :=
  fun c => match body c with
           | (r, c') => match cleanup c' with
                        | (Ok _, c'') => (r, c'')
                        | (Raise e, c'') => (Raise e, c'')
                        end
           end.

(** [try: body except: handler] with a bare [except]. *)
Definition try_except {A} (body : M A) (handler : M A) : M A :=
  fun c => match body c with
           | (Ok a, c') => (Ok a, c')
           | (Raise _, c') => handler c'
           end.

(** Lifting of a pure step that may fail. *)
Definition lift {A} (x : Py.exn + A) : M A :=
  match x with inl e => raise e | inr a => ret a end.

Definition from_option {A} (e : Py.exn) (x : option A) : M A :=
  match x with Some a => ret a | None => raise e end.

(** Steps that leave the connection as it is. *)
Definition pure {A} (m : M A) : Prop := forall c, snd (m c) = c.

(** The updates of the connection. *)
Definition set_rx (lines : list string) (c : conn) : conn :=
  Conn lines (tx c) (opened c) (slept c) (logged c).
Definition add_tx (line : string) (c : conn) : conn :=
  Conn (rx c) (tx c ++ [line]) (opened c) (slept c) (logged c).
Definition set_closed (c : conn) : conn :=
  Conn (rx c) (tx c) false (slept c) (logged c).
Definition add_sleep (d : Z) (c : conn) : conn :=
  Conn (rx c) (tx c) (opened c) (slept c ++ [d]) (logged c).
Definition add_log (l : level) (msg : string) (c : conn) : conn :=
  Conn (rx c) (tx c) (opened c) (slept c) (logged c ++ [(l, msg)]).

(** Steps that only add to what has been written, and steps whose first
    written line is [q]. *)
Definition only_appends {A} (m : M A) : Prop :=
  forall c, exists rest, tx (snd (m c)) = (tx c ++ rest)%list.
Definition writes_first (q : string) {A} (m : M A) : Prop :=
  forall c, exists rest, tx (snd (m c)) = (tx c ++ q :: rest)%list.

Definition log (l : level) (msg : string) : M unit :=
  fun c => (Ok tt, add_log l msg c).

(** [time.sleep(d)] for a delay of [d] seconds, [d] not negative: the
    pause is taken and recorded.  ([time.sleep] refuses a negative delay
    with [ValueError]; a cooldown delay is a time to wait, and what is
    stated about the pause itself is stated for [0 <= d].) *)
Definition sleep (d : Z) : M unit :=
  fun c => (Ok tt, add_sleep d c).

End Serial.

Declare Scope py_scope.
Delimit Scope py_scope with py.
Notation "x <- m ;; k" := (Serial.bind m (fun x => k))
  (at level 61, m at next level, right associativity) : py_scope.
Notation "m ;; k" := (Serial.bind m (fun _ => k))
  (at level 61, right associativity) : py_scope.

(** *** [SerialConn] *)

Module SerialConn.

Import Re Serial.
Local Open Scope py_scope.

(** Modelled from the spec: [SerialConn.write_line] of the [serial_conn]
    module, which is not part of the sources.  It sends one line to the
    modem. *)
Definition write_line (line : string) : M unit :=
  fun c => (Ok tt, add_tx line c).

(** Modelled from the spec: [SerialConn.write], the raw write used for the
    escape sequence. *)
Definition write (raw : string) : M unit :=
  fun c => (Ok tt, add_tx raw c).

(** Modelled from the spec: [SerialConn.close]. *)
Definition close : M unit :=
  fun c => (Ok tt, set_closed c).

(** Modelled from the spec: the [data] entry [read_until] builds from the
    lines read before the ready word: absent when
    there is none, the line itself when there is one, the list otherwise.
    ([error_config] and its siblings match a pattern against [data], which
    needs a string; [sms_list] indexes it line by line, which needs a
    list.) *)
Definition data_of (lines : list string) : option data :=
  match lines with
  | [] => None
  | [l] => Some (Line l)
  | _ => Some (Lines lines)
  end.

(** Modelled from the spec: the [error] entry [read_until] builds for a
    line the error pattern matched: the vendor type, or [generic] for a
    bare [ERROR], and the reason. *)
Definition error_of (m : match_obj) : error_info :=
  ErrorInfo (match group m "type" with Some t => t | None => "generic" end)
            (group m "reason").

(** How one read ends. *)
Inductive scan_end : Type :=
| ReadyWord (o : outcome) (rest : list string)
| ErrorLine (o : outcome) (rest : list string)
| TimedOut.

(** Modelled from the spec: the loop of [read_until].  Lines are taken one
    by one until one is the ready word or matches the error pattern,
    whichever comes first; [seen] are the lines passed over.  Running out
    of lines is the timeout. *)
Fixpoint scan (ready_word : string) (error_regex : regex)
         (lines : list string) (seen : list string) : scan_end :=
  match lines with
  | [] => TimedOut
  | l :: rest =>
      if String.eqb l ready_word
      then ReadyWord (Outcome None (data_of seen)) rest
      else match rmatch error_regex l with
           | Some m => ErrorLine (Outcome (Some (error_of m)) None) rest
           | None => scan ready_word error_regex rest (seen ++ [l])
           end
  end.

(** Modelled from the spec: [SerialConn.read_until(ready_word, error_regex,
    timeout)], which is not part of the sources.  It reads lines until the
    ready word or the error pattern appears and returns the outcome; a read
    that finds neither fails with the timeout condition.  The modem's side
    is the queue [rx], so the bound [timeout] itself plays no part. *)
Definition read_until (ready_word : string) (error_regex : regex)
           (timeout : option Z) : M outcome :=
  fun c =>
    match scan ready_word error_regex (rx c) [] with
    | ReadyWord o rest | ErrorLine o rest => (Ok o, set_rx rest c)
    | TimedOut => (Raise Py.SerialTimeout, set_rx [] c)
    end.

(** Modelled from the spec: [SerialConn.read_lines(timeout)], every line
    that is waiting. *)
Definition read_lines (timeout : Z) : M (list string) :=
  fun c => (Ok (rx c), set_rx [] c).

End SerialConn.

(* ===================================================================== *)
(** ** The driver: [LE910CXConn] *)
(* ===================================================================== *)

Module LE910CX.

Import Re Serial SerialConn.
Local Open Scope py_scope.

(** [error_regex = re.compile("ERROR|\+(?P<type>.+) ERROR: (?P<reason>.+)")] *)
Definition error_regex : regex :=
  Alt (Lit "ERROR")
      (seqs [Chr "+"; Group "type" (Plus Dot); Lit " ERROR: ";
             Group "reason" (Plus Dot)]).

Definition SMS_FORMAT_MODE_PUD : Z := 0.
Definition SMS_FORMAT_MODE_TEXT : Z := 1.

Definition SMS_FORMAT_MODES : list (Z * string) :=
  [(SMS_FORMAT_MODE_PUD, "PUD"); (SMS_FORMAT_MODE_TEXT, "TXT")].

Definition GNSS_LOCATION_FIX_INVALID_FIX : Z := 0.
Definition GNSS_LOCATION_FIX_NO_FIX : Z := 1.
Definition GNSS_LOCATION_FIX_2D_FIX : Z := 2.
Definition GNSS_LOCATION_FIX_3D_FIX : Z := 3.

Definition GNSS_LOCATION_FIX_MAP : list (Z * string) :=
  [(GNSS_LOCATION_FIX_INVALID_FIX, "invalid_fix");
   (GNSS_LOCATION_FIX_NO_FIX, "no_fix");
   (GNSS_LOCATION_FIX_2D_FIX, "2D");
   (GNSS_LOCATION_FIX_3D_FIX, "3D")].

Definition NMEA_MODE_DISABLED : Z := 0.
Definition NMEA_MODE_FIRST_FMT : Z := 1.
Definition NMEA_MODE_SECOND_FMT : Z := 2.
Definition NMEA_MODE_PORT_LOCK : Z := 3.

Definition NMEA_MODE_MAP : list (Z * string) :=
  [(NMEA_MODE_DISABLED, "disabled");
   (NMEA_MODE_FIRST_FMT, "first_format");
   (NMEA_MODE_SECOND_FMT, "second_format");
   (NMEA_MODE_PORT_LOCK, "port_lock")].

Definition ME_ERROR_MODE_DISABLED : Z := 0.
Definition ME_ERROR_MODE_NUMERIC : Z := 1.
Definition ME_ERROR_MODE_VERBOSE : Z := 2.

Definition ME_ERROR_MODE_MAP : list (Z * string) :=
  [(ME_ERROR_MODE_DISABLED, "disabled");
   (ME_ERROR_MODE_NUMERIC, "numeric");
   (ME_ERROR_MODE_VERBOSE, "verbose")].

(** *** Dictionaries with integer keys *)

(** [d.get(k, None)] *)
Fixpoint dict_get (d : list (Z * string)) (k : Z) : option string :=
  match d with
  | [] => None
  | (k', v) :: d' => if k' =? k then Some v else dict_get d' k
  end.

(** [d[k]], which raises [KeyError] on a missing key. *)
Definition dict_item (d : list (Z * string)) (k : Z) : M string :=
  from_option (Py.KeyError (Py.format_d k)) (dict_get d k).

(** [d.values()] *)
Definition values (d : list (Z * string)) : list string := map snd d.

(** [x in xs] on strings. *)
Definition str_in (x : string) (xs : list string) : bool :=
  existsb (String.eqb x) xs.

(** Modelled from the spec: [dict_key_by_value] of the [common_util]
    module, which is not part of the sources: the key under which a value
    is stored.  The driver calls it only on values it has just found among
    [values]. *)
Fixpoint dict_key_by_value (d : list (Z * string)) (v : string) : M Z :=
  match d with
  | [] => raise (Py.ValueError "value is not in the dictionary")
  | (k, v') :: d' => if String.eqb v' v then ret k else dict_key_by_value d' v
  end.

(** *** [execute] *)

Definition has_error (res : outcome) : bool :=
  match o_error res with Some _ => true | None => false end.

(** The [for ready_word in ready_words] loop; [res] is the variable of the
    same name, [None] until the first read. *)
Fixpoint scan_ready_words (ready_words : list string) (timeout : option Z)
         (res : option outcome) : M (option outcome) :=
  match ready_words with
  | [] => ret res
  | ready_word :: rest =>
      r <- read_until ready_word error_regex timeout ;;
      if has_error r
      then log ERROR "Command {} returned error {}" ;; ret (Some r)
      else scan_ready_words rest timeout (Some r)
  end.

Definition execute (cmd : string) (ready_words : list string) (keep_conn : bool)
           (cooldown_delay : option Z) (timeout : option Z)
           (raise_on_error : bool) : M (option outcome) :=
  log INFO "Executing AT command: %s" ;;
  res <- try_finally
           (write_line cmd ;;
            res <- scan_ready_words ready_words timeout None ;;
            log INFO "Got result: %s" ;;
            ret res)
           (if negb keep_conn
            then log INFO "Closing serial connection" ;; close
            else ret tt) ;;
  match cooldown_delay with
  | Some d =>
      log INFO "Sleeps for {:f} seconds according to specified cooldown delay" ;;
      sleep d
  | None => ret tt
  end ;;
  if raise_on_error
  then match res with
       | None => raise (Py.TypeError "argument of type 'NoneType' is not iterable")
       | Some r =>
           match o_error r with
           | Some e =>
               raise (Py.CommandExecutionException cmd (e_type e)
                        (match e_reason e with Some x => x | None => EmptyString end))
           | None => ret res
           end
       end
  else ret res.

(** [self.execute(cmd)] with every default: [ready_words=["OK"]],
    [keep_conn=True], no cooldown, no timeout, [raise_on_error=True]. *)
Definition execute_cmd (cmd : string) : M (option outcome) :=
  execute cmd ["OK"] true None None true.

(** [pattern.match(data)] where [data] is [res.get("data", empty)], the
    empty string standing in for a missing entry. *)
Definition match_data (r : regex) (res : option outcome) : M (option match_obj) :=
  match res with
  | None => raise (Py.AttributeError "'NoneType' object has no attribute 'get'")
  | Some o =>
      match o_data o with
      | None => ret (rmatch r EmptyString)
      | Some (Line s) => ret (rmatch r s)
      | Some (Lines _) => raise (Py.TypeError "expected string or bytes-like object")
      end
  end.

(** [m.group(name)] on the result of [match], which is [None] when the
    pattern did not match. *)
Definition group_of (m : option match_obj) (name : string) : M (option string) :=
  match m with
  | None => raise (Py.AttributeError "'NoneType' object has no attribute 'group'")
  | Some m => ret (group m name)
  end.

(** *** [error_config] *)

(** ["\+CMEE: (?P<mode>[0-2])"] *)
Definition CMEE_regex : regex := Seq (Lit "+CMEE: ") (Group "mode" (Range "0" "2")).

Definition error_config (mode : Py.value) (force : bool) : M string :=
  res <- execute_cmd "AT+CMEE?" ;;
  match_ <- match_data CMEE_regex res ;;
  match match_ with
  | None =>
      log ERROR "Didn't receive expected response from modem: {}" ;;
      raise (Py.InvalidResponseException "Didn't receive expected response")
  | Some m =>
      n <- lift (Py.int_of (group m "mode")) ;;
      ret_mode <- dict_item ME_ERROR_MODE_MAP n ;;
      match mode with
      | Py.VNone => ret ret_mode
      | Py.VStr mode =>
          if negb (str_in mode (values ME_ERROR_MODE_MAP))
          then raise (Py.ValueError "'mode' argument needs to be one of {}")
          else if negb (String.eqb ret_mode mode) || force
               then mode_val <- dict_key_by_value ME_ERROR_MODE_MAP mode ;;
                    execute_cmd ("AT+CMEE=" ++ Py.format_d mode_val) ;;
                    ret mode
               else ret ret_mode
      | _ => raise (Py.ValueError "'mode' argument needs to be one of {}")
      end
  end.

(** *** Identity *)

(** ["\\+GSN: (?P<value>[0-9]+)"] *)
Definition GSN_regex : regex := Seq (Lit "+GSN: ") (Group "value" (Plus digit)).

(** [imei] returns the [groupdict()] of the match. *)
Definition imei : M groups :=
  res <- execute_cmd "AT+GSN=1" ;;
  match_ <- match_data GSN_regex res ;;
  match match_ with
  | None => raise (Py.AttributeError "'NoneType' object has no attribute 'groupdict'")
  | Some m => ret (m_groups m)
  end.

(** [res.get("data", None)] *)
Definition get_data (res : option outcome) : M (option data) :=
  match res with
  | None => raise (Py.AttributeError "'NoneType' object has no attribute 'get'")
  | Some o => ret (o_data o)
  end.

Definition manufacturer_id : M (option data) :=
  res <- execute_cmd "AT+GMI" ;; get_data res.

Definition model_id : M (option data) :=
  res <- execute_cmd "AT+GMM" ;; get_data res.

Definition soft_reset : M unit :=
  execute_cmd "ATZ" ;; ret tt.

Definition reset (mode : option Z) (delay : Z) : M (option outcome) :=
  match mode with
  | None => execute_cmd "AT#ENHRST?"
  | Some mode => execute_cmd ("AT#ENHRST=" ++ Py.format_d mode ++ "," ++ Py.format_d delay)
  end.

Definition time : M (option outcome) := execute_cmd "AT+CCLK?".

Definition cell_location : M (option outcome) := execute_cmd "AT#GTP".

(** *** SMS *)

(** ["\\+CMGF: (?P<mode>[0-1])"] *)
Definition CMGF_regex : regex := Seq (Lit "+CMGF: ") (Group "mode" (Range "0" "1")).

(** The pattern for [+CPMS: ] followed by [(?P<read_mem>[0-1])] between
    double quotes. *)
Definition CPMS_regex : regex :=
  seqs [Lit "+CPMS: "; Chr "034"; Group "read_mem" (Range "0" "1"); Chr "034"].

(** An optional string as a Python value: [None] or a [str]. *)
Definition value_of (x : option string) : Py.value :=
  match x with Some s => Py.VStr s | None => Py.VNone end.

(** [SMS_FORMAT_MODES.get(int(pattern.match(data).group("mode")), None)] *)
Definition read_sms_format_mode (res : option outcome) : M Py.value :=
  match_ <- match_data CMGF_regex res ;;
  g <- group_of match_ "mode" ;;
  n <- lift (Py.int_of g) ;;
  ret (value_of (dict_get SMS_FORMAT_MODES n)).

(** [sms_storage] has no [return]: it yields [None] when it does not
    raise. *)
Definition sms_storage : M unit :=
  res <- execute_cmd "AT+CPMS?" ;;
  match_data CPMS_regex res ;;
  read_sms_format_mode res ;;
  ret tt.

(** [sms_format] returns [ret["mode"]]. *)
Definition sms_format (mode : Py.value) (force : bool) : M Py.value :=
  ret_mode <-
    (if negb force
     then res <- execute_cmd "AT+CMGF?" ;; read_sms_format_mode res
     else if Py.is_none mode
          then raise (Py.ValueError "Mode must be specified")
          else ret Py.VNone) ;;
  match mode with
  | Py.VNone => ret ret_mode
  | Py.VStr mode =>
      let mode := Py.upper mode in
      if negb (str_in mode (values SMS_FORMAT_MODES))
      then raise (Py.ValueError "Unsupported mode")
      else if force || negb (Py.value_eqb (Py.VStr mode) ret_mode)
           then n <- dict_key_by_value SMS_FORMAT_MODES mode ;;
                execute_cmd ("AT+CMGF=" ++ Py.format_d n) ;;
                ret (Py.VStr mode)
           else ret ret_mode
  | _ => raise (Py.AttributeError "object has no attribute 'upper'")
  end.

(** One entry of [ret["values"]]. *)
Record sms_message : Type := SmsMessage {
  sms_index : Z;
  sms_status : string;
  sms_sender : string;
  sms_timestamp : string;
  sms_data : string
}.

(** The body of the [for] loop of [sms_list] for one message: [meta] is the
    metadata line and [body] the line after it.  [sms_fields] is the list
    the six variables are unpacked from: the fields of [meta[7:]] between
    commas, each stripped of its double quotes. *)
Definition sms_fields (meta : string) : list string :=
  map (Py.strip "034") (Py.split_on "," (Py.slice (Some 7) None meta)).

Definition decode_sms (meta body : string) : Py.exn + sms_message :=
  match sms_fields meta with
  | [index; msg_status; sender; _; date; time] =>
      let time_offset_sign := Py.slice (Some (-3)) (Some (-2)) time in
      match Py.int_of (Some (Py.slice (Some (-2)) None time)) with
      | inl e => inl e
      | inr time_offset =>
          let offset_minutes := 15 * time_offset in
          match Dt.strptime (date ++ "T" ++ Py.slice None (Some (-3)) time) with
          | None => inl (Py.ValueError "time data does not match format")
          | Some local =>
              let shifted :=
                if String.eqb time_offset_sign "+"
                then inr (Dt.sub_minutes local offset_minutes)
                else if String.eqb time_offset_sign "-"
                     then inr (Dt.add_minutes local offset_minutes)
                     else inl (Py.PlainException
                                 "Received an unexpected time offset sign: {}") in
              match shifted with
              | inl e => inl e
              | inr None => inl (Py.OverflowError "date value out of range")
              | inr (Some msg_timestamp) =>
                  match Py.int_of (Some index) with
                  | inl e => inl e
                  | inr i =>
                      inr (SmsMessage i msg_status sender
                                      (Dt.isoformat msg_timestamp) body)
                  end
              end
          end
      end
  | l =>
      inl (Py.ValueError
             (if (List.length l <? 6)%nat then "not enough values to unpack"
              else "too many values to unpack"))
  end.

(** What [res["data"][i]] ranges over: the lines of a list, the characters
    of a single line. *)
Fixpoint chars (s : string) : list string :=
  match s with
  | EmptyString => []
  | String c s' => String c EmptyString :: chars s'
  end.

Definition items (d : data) : list string :=
  match d with
  | Line s => chars s
  | Lines l => l
  end.

(** [for i in range(0, len(data), 2)]: entries are taken two at a time, and
    a last entry without a partner is an [IndexError]. *)
Fixpoint decode_sms_entries (entries : list string) : Py.exn + list sms_message :=
  match entries with
  | [] => inr []
  | [ _ ] => inl (Py.IndexError "index out of range")
  | meta :: body :: rest =>
      match decode_sms meta body with
      | inl e => inl e
      | inr msg =>
          match decode_sms_entries rest with
          | inl e => inl e
          | inr msgs => inr (msg :: msgs)
          end
      end
  end.

(** [res["data"]] *)
Definition data_item (res : option outcome) : M data :=
  match res with
  | None => raise (Py.TypeError "'NoneType' object is not subscriptable")
  | Some o => from_option (Py.KeyError "data") (o_data o)
  end.

(** The [try] block of [sms_list]. *)
Definition sms_list_body (status : string) : M (list sms_message) :=
  res <- execute_cmd ("AT+CMGL=" ++ String "034" (status ++ String "034" EmptyString)) ;;
  d <- data_item res ;;
  lift (decode_sms_entries (items d)).

(** The [finally] block of [sms_list]. *)
Definition sms_list_restore (prev_format_mode : Py.value) : M unit :=
  try_except (sms_format prev_format_mode false ;; ret tt)
             (log EXCEPTION "Failed to restore SMS format mode").

(** [sms_list] returns [ret["values"]]. *)
Definition sms_list (status : string) (clear : bool) (format_mode : Py.value)
  : M (list sms_message) :=
  prev_format_mode <- sms_format Py.VNone false ;;
  (if negb (Py.value_eqb prev_format_mode format_mode)
   then sms_format format_mode false ;; ret tt
   else ret tt) ;;
  try_finally (sms_list_body status) (sms_list_restore prev_format_mode).

(** *** GNSS location *)

(** The pattern of [gnss_location]: [^\$GPSACP: ] and twelve fields
    separated by commas, all optional but [fix]. *)
Definition GPSACP_regex : regex :=
  let number := seqs [Plus digit; Chr "."; Plus digit] in
  seqs [ Bol; Lit "$GPSACP: ";
         Opt (Group "utc" (seqs [Rep 6 digit; Chr "."; Rep 3 digit])); Chr ",";
         Opt (Group "lat" (seqs [Rep 4 digit; Chr "."; Rep 4 digit;
                                 Alt (Chr "N") (Chr "S")])); Chr ",";
         Opt (Group "lon" (seqs [Rep 5 digit; Chr "."; Rep 4 digit;
                                 Alt (Chr "W") (Chr "E")])); Chr ",";
         Opt (Group "hdop" (seqs [Plus digit; Opt (Chr "."); Star digit])); Chr ",";
         Opt (Group "altitude" (seqs [Opt (Chr "-"); Plus digit; Opt (Chr ".");
                                      Star digit])); Chr ",";
         Group "fix" (Range "0" "3"); Chr ",";
         Opt (Group "cog" number); Chr ",";
         Opt (Group "spkm" number); Chr ",";
         Opt (Group "spkn" number); Chr ",";
         Opt (Group "date" (Rep 6 digit)); Chr ",";
         Opt (Group "nsat_gps" (Rep 2 digit)); Chr ",";
         Opt (Group "nsat_glonass" (Rep 2 digit)) ].

(** [ret["lat"]] and [ret["lon"]]: a float in decimal degrees, or the
    matched text as it came (which is [None] for an empty field). *)
Inductive coordinate : Type :=
| Decimal (f : Py.float)
| Encoded (s : option string).

(** The dictionary [gnss_location] returns ([fix_] is its entry [fix]). *)
Record gnss_fix : Type := GnssFix {
  time_utc : string;
  date_utc : string;
  hdop : Py.float;
  alt : Py.float;
  fix_ : string;
  cog : Py.float;
  sog_km : Py.float;
  sog_kn : Py.float;
  nsat_gps : Z;
  nsat_glonass : Z;
  lat : coordinate;
  lon : coordinate
}.

(** Slicing a group: [TypeError] when the group is [None]. *)
Definition subscriptable (x : option string) : M string :=
  from_option (Py.TypeError "'NoneType' object is not subscriptable") x.

Definition z_in (n : Z) (l : list Z) : bool := existsb (Z.eqb n) l.

(** The decoding that follows the fix test, in the order the dictionary
    literal evaluates its entries. *)
Definition gnss_location_parse (m : match_obj) (decimal_degrees : bool) : M gnss_fix :=
  t <- subscriptable (group m "utc") ;;
  d <- subscriptable (group m "date") ;;
  let time_utc := Py.slice (Some 0) (Some 2) t ++ ":" ++ Py.slice (Some 2) (Some 4) t
                  ++ ":" ++ Py.slice (Some 4) (Some 6) t in
  let date_utc := "20" ++ Py.slice (Some 4) (Some 6) d ++ "-"
                  ++ Py.slice (Some 2) (Some 4) d ++ "-" ++ Py.slice (Some 0) (Some 2) d in
  hdop <- lift (Py.float_of (group m "hdop")) ;;
  alt <- lift (Py.float_of (group m "altitude")) ;;
  fix_n <- lift (Py.int_of (group m "fix")) ;;
  fix_ <- dict_item GNSS_LOCATION_FIX_MAP fix_n ;;
  cog <- lift (Py.float_of (group m "cog")) ;;
  sog_km <- lift (Py.float_of (group m "spkm")) ;;
  sog_kn <- lift (Py.float_of (group m "spkn")) ;;
  nsat_gps <- lift (Py.int_of (group m "nsat_gps")) ;;
  nsat_glonass <- lift (Py.int_of (group m "nsat_glonass")) ;;
  if decimal_degrees
  then
    lat <- subscriptable (group m "lat") ;;
    lat_deg <- lift (Py.float_of (Some (Py.slice None (Some 2) lat))) ;;
    lat_min <- lift (Py.float_of (Some (Py.slice (Some 2) (Some (-1)) lat))) ;;
    lon <- subscriptable (group m "lon") ;;
    lon_deg <- lift (Py.float_of (Some (Py.slice None (Some 3) lon))) ;;
    lon_min <- lift (Py.float_of (Some (Py.slice (Some 3) (Some (-1)) lon))) ;;
    ret (GnssFix time_utc date_utc hdop alt fix_ cog sog_km sog_kn nsat_gps nsat_glonass
           (Decimal (Py.fadd lat_deg (Py.fdiv lat_min (Py.float_of_Z 60))))
           (Decimal (Py.fadd lon_deg (Py.fdiv lon_min (Py.float_of_Z 60)))))
  else
    ret (GnssFix time_utc date_utc hdop alt fix_ cog sog_km sog_kn nsat_gps nsat_glonass
           (Encoded (group m "lat")) (Encoded (group m "lon"))).

Definition gnss_location (decimal_degrees : bool) : M gnss_fix :=
  res <- execute_cmd "AT$GPSACP" ;;
  match_ <- match_data GPSACP_regex res ;;
  match match_ with
  | None =>
      log ERROR "Didn't receive expected response from modem: {}" ;;
      raise (Py.InvalidResponseException "Didn't receive expected response")
  | Some m =>
      fix_n <- lift (Py.int_of (group m "fix")) ;;
      if z_in fix_n [GNSS_LOCATION_FIX_INVALID_FIX; GNSS_LOCATION_FIX_NO_FIX]
      then raise Py.NoFixException
      else gnss_location_parse m decimal_degrees
  end.

(** *** GNSS session *)

(** ["\\$GPSP: (?P<status>[0-1])"] *)
Definition GPSP_regex : regex := Seq (Lit "$GPSP: ") (Group "status" (Range "0" "1")).

(** [bool(int(m.group(name)))] *)
Definition flag_of (m : match_obj) (name : string) : M bool :=
  n <- lift (Py.int_of (group m name)) ;;
  ret (Py.bool_of_int n).

(** [gnss_session] returns [ret["status"]]. *)
Definition gnss_session (status : Py.value) (force : bool) : M bool :=
  res <- execute_cmd "AT$GPSP?" ;;
  match_ <- match_data GPSP_regex res ;;
  match match_ with
  | None =>
      log ERROR "Didn't receive expected response from modem: {}" ;;
      raise (Py.InvalidResponseException "Didn't receive expected response")
  | Some m =>
      ret_status <- flag_of m "status" ;;
      match status with
      | Py.VNone => ret ret_status
      | Py.VBool status =>
          if negb (Bool.eqb status ret_status) || force
          then execute_cmd ("AT$GPSP=" ++ Py.format_d (Py.int_of_bool status)) ;;
               ret status
          else ret ret_status
      | _ => raise (Py.TypeError "'status' parameter needs to be of type 'bool'")
      end
  end.

(** *** NMEA stream configuration *)

(** The pattern of [gnss_nmea_data_config]: [^\$GPSNMUN: ], the mode and six
    flags. *)
Definition GPSNMUN_regex : regex :=
  let flag name := Group name (Range "0" "1") in
  seqs [ Bol; Lit "$GPSNMUN: ";
         Group "mode" (Range "0" "3"); Chr ",";
         flag "gga"; Chr ","; flag "gll"; Chr ","; flag "gsa"; Chr ",";
         flag "gsv"; Chr ","; flag "rmc"; Chr ","; flag "vtg" ].

(** The dictionary [gnss_nmea_data_config] returns. *)
Record nmea_config : Type := NmeaConfig {
  nmea_mode : string;
  gga : bool; gll : bool; gsa : bool; gsv : bool; rmc : bool; vtg : bool
}.

Definition as_bool (v : Py.value) : option bool :=
  match v with Py.VBool b => Some b | _ => None end.

(** The construction of the return value from the match. *)
Definition nmea_decode (m : match_obj) : M nmea_config :=
  n <- lift (Py.int_of (group m "mode")) ;;
  mode <- dict_item NMEA_MODE_MAP n ;;
  gga <- flag_of m "gga" ;;
  gll <- flag_of m "gll" ;;
  gsa <- flag_of m "gsa" ;;
  gsv <- flag_of m "gsv" ;;
  rmc <- flag_of m "rmc" ;;
  vtg <- flag_of m "vtg" ;;
  ret (NmeaConfig mode gga gll gsa gsv rmc vtg).

Definition nmea_write_command (mode_val : Z) (c : nmea_config) : string :=
  let d b := Py.format_d (Py.int_of_bool b) in
  "AT$GPSNMUN=" ++ Py.format_d mode_val ++ "," ++ d (gga c) ++ "," ++ d (gll c)
  ++ "," ++ d (gsa c) ++ "," ++ d (gsv c) ++ "," ++ d (rmc c) ++ "," ++ d (vtg c).

Definition nmea_differs (a b : nmea_config) : bool :=
  negb (String.eqb (nmea_mode a) (nmea_mode b))
  || negb (Bool.eqb (gga a) (gga b)) || negb (Bool.eqb (gll a) (gll b))
  || negb (Bool.eqb (gsa a) (gsa b)) || negb (Bool.eqb (gsv a) (gsv b))
  || negb (Bool.eqb (rmc a) (rmc b)) || negb (Bool.eqb (vtg a) (vtg b)).

Definition gnss_nmea_data_config (mode gga gll gsa gsv rmc vtg : Py.value)
           (force : bool) : M nmea_config :=
  res <- execute_cmd "AT$GPSNMUN?" ;;
  match_ <- match_data GPSNMUN_regex res ;;
  match match_ with
  | None =>
      log ERROR "Didn't receive expected response from mode: {}" ;;
      raise (Py.InvalidResponseException "Didn't receive expected response")
  | Some m =>
      current <- nmea_decode m ;;
      match mode with
      | Py.VNone => ret current
      | Py.VStr mode =>
          if negb (str_in mode (values NMEA_MODE_MAP))
          then raise (Py.ValueError "'mode' argument needs to be one of {}")
          else
            match as_bool gga, as_bool gll, as_bool gsa,
                  as_bool gsv, as_bool rmc, as_bool vtg with
            | Some gga, Some gll, Some gsa, Some gsv, Some rmc, Some vtg =>
                let wanted := NmeaConfig mode gga gll gsa gsv rmc vtg in
                if nmea_differs current wanted || force
                then
                  mode_val <- dict_key_by_value NMEA_MODE_MAP mode ;;
                  mode_val' <- dict_key_by_value NMEA_MODE_MAP mode ;;
                  let cmd := nmea_write_command mode_val' wanted in
                  (if mode_val =? NMEA_MODE_PORT_LOCK
                   then execute cmd ["CONNECT"] true None None true
                   else execute_cmd cmd) ;;
                  ret wanted
                else ret current
            | _, _, _, _, _, _ =>
                raise (Py.ValueError
                  "'gga', 'gll', 'gsa', 'gsv', 'rmc' and 'vtg' parameters all need to be of type 'bool'")
            end
      | _ => raise (Py.ValueError "'mode' argument needs to be one of {}")
      end
  end.

(** *** NMEA stream *)

Definition nmea_messages (timeout : Z) : M (list string) :=
  raw_lines <- read_lines timeout ;;
  match raw_lines with
  | [] => ret []
  | _ => ret (map Py.str_strip raw_lines)
  end.

(** Returns the outcome of the read when [wait] is set, [None] otherwise. *)
Definition send_nmea_escape_sequence (wait : bool) (timeout : Z) : M (option outcome) :=
  write "+++" ;;
  if wait
  then res <- read_until "NO CARRIER" error_regex (Some timeout) ;; ret (Some res)
  else ret None.

(** *** Configuration at connection open *)

(** The settings [config] looks at; an absent key is [None]. *)
Record settings : Type := Settings {
  perform_initial_nmea_escape : bool;
  setting_error_config : option Py.value;
  setting_gnss_session : option Py.value
}.

Definition config (s : settings) : M unit :=
  (if perform_initial_nmea_escape s
   then send_nmea_escape_sequence true 3 ;; ret tt
   else ret tt) ;;
  match setting_error_config s with
  | Some mode => error_config mode false ;; ret tt
  | None => ret tt
  end ;;
  match setting_gnss_session s with
  | Some status => gnss_session status false ;; ret tt
  | None => ret tt
  end.

(** *** The course of one [execute] call

    The connection at the points of [execute] the statements below refer
    to, and the reads its loop performs. *)

(** After the first log entry and [write_line(cmd)]. *)
Definition after_write (cmd : string) (c : conn) : conn :=
  add_tx cmd (add_log INFO "Executing AT command: %s" c).

(** After the [finally] block. *)
Definition after_exchange (keep_conn : bool) (c : conn) : conn :=
  if negb keep_conn
  then set_closed (add_log INFO "Closing serial connection" c)
  else c.

(** After the cooldown. *)
Definition after_cooldown (cooldown_delay : option Z) (c : conn) : conn :=
  match cooldown_delay with
  | Some d =>
      add_sleep d
        (add_log INFO "Sleeps for {:f} seconds according to specified cooldown delay" c)
  | None => c
  end.

(** The check after the exchange: [raise_on_error and "error" in res]. *)
Definition error_check (cmd : string) (raise_on_error : bool)
           (res : option outcome) : result (option outcome) :=
  if raise_on_error
  then match res with
       | None => Raise (Py.TypeError "argument of type 'NoneType' is not iterable")
       | Some r =>
           match o_error r with
           | Some e =>
               Raise (Py.CommandExecutionException cmd (e_type e)
                        (match e_reason e with Some x => x | None => EmptyString end))
           | None => Ok res
           end
       end
  else Ok res.

(** The outcomes of the reads the loop performs, in order: one read for
    each ready word, until a read times out or reports an error. *)
Fixpoint reads_performed (ready_words : list string) (timeout : option Z)
         (c : conn) : list outcome :=
  match ready_words with
  | [] => []
  | ready_word :: rest =>
      match read_until ready_word error_regex timeout c with
      | (Ok r, c') =>
          r :: (if has_error r then [] else reads_performed rest timeout c')
      | (Raise _, _) => []
      end
  end.

(** The flag [b] is what [bool(int(text))] gives on the text of the group
    [name] of [m], and that text is [0] or [1]. *)
Definition flag_decoded (m : match_obj) (name : string) (b : bool) : Prop :=
  exists text n,
    group m name = Some text
    /\ Py.int_of_string text = Some n
    /\ b = Py.bool_of_int n
    /\ ((text = "0" /\ b = false) \/ (text = "1" /\ b = true)).

(** The double quote, and a metadata line as the modem sends it: index 1,
    status [REC READ], a sender, an empty name, and the date and time
    [21/11/16,14:10:00+04], every field but the index between double
    quotes. *)
Definition dq : string := String "034" EmptyString.
Definition example_meta : string :=
  "+CMGL: 1," ++ dq ++ "REC READ" ++ dq ++ "," ++ dq ++ "+4512345678" ++ dq ++ ","
  ++ dq ++ dq ++ "," ++ dq ++ "21/11/16,14:10:00+04" ++ dq.

(** The lines of a listing at the odd places, where [sms_list] takes the
    text of a message from, and those at the even places, its metadata
    lines. *)
Fixpoint bodies (entries : list string) : list string :=
  match entries with
  | _ :: body :: rest => body :: bodies rest
  | _ => []
  end.

Fixpoint metas (entries : list string) : list string :=
  match entries with
  | meta :: _ :: rest => meta :: metas rest
  | _ => []
  end.

(** A connection that has just been opened, with [lines] waiting. *)
Definition fresh (lines : list string) : conn := Conn lines [] true [] [].

End LE910CX.

(* ===================================================================== *)
(** ** Properties *)
(* ===================================================================== *)

Import Re Serial SerialConn LE910CX.
Local Open Scope py_scope.

(** *** The built-ins on the driver's own examples *)

Example slice_time_fields :
  Py.slice (Some (-3)) (Some (-2)) "14:10:00+04" = "+"
  /\ Py.slice (Some (-2)) None "14:10:00+04" = "04"
  /\ Py.slice None (Some (-3)) "14:10:00+04" = "14:10:00"
  /\ Py.slice (Some 2) (Some (-1)) "5702.1608N" = "02.1608"
  /\ Py.slice (Some (-3)) (Some (-2)) "ab" = EmptyString.
Proof. repeat split. Qed.

Example split_keeps_empty_fields :
  Py.split_on "," "a,,b," = ["a"; EmptyString; "b"; EmptyString].
Proof. reflexivity. Qed.

Example int_of_string_examples :
  Py.int_of_string "04" = Some 4
  /\ Py.int_of_string " +7 " = Some 7
  /\ Py.int_of_string "-3" = Some (-3)
  /\ Py.int_of_string "0x" = None
  /\ Py.int_of_string EmptyString = None.
Proof. repeat split. Qed.

(** White space for [int]: the no-break space is skipped, the unit
    separator (31) is not, although [str.strip] removes both. *)
Example int_of_string_white_space :
  Py.int_of_string (String "160" "4") = Some 4
  /\ Py.int_of_string (String "031" "4") = None
  /\ Py.str_strip (String "031" (String "160" "4")) = "4".
Proof. repeat split. Qed.

(** [0.1] is the binary64 number [0x3FB999999999999A]. *)
Example float_of_string_tenth :
  Py.float_of_string "0.1" = Some (S754_finite false 7205759403792794 (-56)).
Proof. vm_compute. reflexivity. Qed.

Example error_regex_examples :
  rmatch error_regex "ERROR" = Some (MatchObj [] 5)
  /\ rmatch error_regex "+CME ERROR: unknown"
     = Some (MatchObj [("reason", "unknown"); ("type", "CME")] 19)
  /\ rmatch error_regex "OK" = None.
Proof. repeat split. Qed.

Example strptime_examples :
  Dt.strptime "21/11/16T14:10:00" = Some (Dt.DateTime 2021 11 16 14 10 0)
  /\ Dt.strptime "69/1/1T0:0:0" = Some (Dt.DateTime 1969 1 1 0 0 0)
  /\ Dt.strptime "23/02/29T00:00:00" = None
  /\ Dt.strptime "21/11/16T14:10:00 " = None.
Proof. repeat split. Qed.

Example ymd2ord_example : Dt.ymd2ord 2021 11 16 = 738110.
Proof. reflexivity. Qed.

(** *** The calendar *)

Lemma roundtrip_from_spec count :
  forall n, Dt.roundtrip_from count n = true ->
            forall k, n <= k < n + Z.of_nat count -> Dt.roundtrip_ok k = true.
Proof.
  induction count as [|count IH]; intros n H k Hk.
  - lia.
  - simpl in H. apply andb_true_iff in H. destruct H as [H0 H1].
    destruct (Z.eq_dec k n) as [->|Hne]; [assumption|].
    apply (IH (n + 1) H1). lia.
Qed.

(** One cycle of 400 years, day by day. *)
Lemma roundtrip_cycle : Dt.roundtrip_from (Z.to_nat Dt.DI400Y) 1 = true.
Proof. vm_compute. reflexivity. Qed.

(** Moving a day number by [q] cycles of 400 years moves the year of its
    date by [400 * q]. *)
Lemma ord2ymd_shift r q :
  0 <= r < Dt.DI400Y ->
  Dt.ord2ymd (r + 1 + Dt.DI400Y * q)
  = let '(y, m, d) := Dt.ord2ymd (r + 1) in (y + 400 * q, m, d).
Proof.
  intros Hr. unfold Dt.ord2ymd.
  replace (r + 1 + Dt.DI400Y * q - 1) with (r + q * Dt.DI400Y) by lia.
  replace (r + 1 - 1) with r by lia.
  assert (HD : Dt.DI400Y <> 0) by (unfold Dt.DI400Y; lia).
  rewrite (Z.div_add r q _ HD), (Z.mod_add r q _ HD).
  rewrite (Z.div_small r _ Hr), (Z.mod_small r _ Hr).
  cbv zeta.
  repeat match goal with
         | |- context [if ?b then _ else _] => destruct b
         end; f_equal; try f_equal; lia.
Qed.

Lemma ymd2ord_shift y m d q :
  Dt.ymd2ord (y + 400 * q) m d = Dt.ymd2ord y m d + Dt.DI400Y * q.
Proof.
  unfold Dt.ymd2ord, Dt.days_before_year, Dt.days_before_month, Dt.is_leap, Dt.DI400Y.
  cbv zeta.
  replace ((y + 400 * q) mod 4) with (y mod 4)
    by (Z.to_euclidean_division_equations; lia).
  replace ((y + 400 * q) mod 100) with (y mod 100)
    by (Z.to_euclidean_division_equations; lia).
  replace ((y + 400 * q) mod 400) with (y mod 400)
    by (Z.to_euclidean_division_equations; lia).
  replace ((y + 400 * q - 1) / 4) with ((y - 1) / 4 + 100 * q)
    by (Z.to_euclidean_division_equations; lia).
  replace ((y + 400 * q - 1) / 100) with ((y - 1) / 100 + 4 * q)
    by (Z.to_euclidean_division_equations; lia).
  replace ((y + 400 * q - 1) / 400) with ((y - 1) / 400 + q)
    by (Z.to_euclidean_division_equations; lia).
  lia.
Qed.

(** The date of a day has that day's number, for every day. *)
Lemma ymd2ord_ord2ymd n :
  let '(y, m, d) := Dt.ord2ymd n in Dt.ymd2ord y m d = n.
Proof.
  assert (HD : 0 < Dt.DI400Y) by (unfold Dt.DI400Y; lia).
  pose proof (Z.mod_pos_bound (n - 1) _ HD) as Hr.
  pose proof (Z.div_mod (n - 1) Dt.DI400Y ltac:(lia)) as Hn.
  set (r := (n - 1) mod Dt.DI400Y) in *.
  set (q := (n - 1) / Dt.DI400Y) in *.
  replace n with (r + 1 + Dt.DI400Y * q) by lia.
  rewrite (@ord2ymd_shift r q Hr).
  pose proof (@roundtrip_from_spec _ _ roundtrip_cycle (r + 1)) as Hc.
  rewrite Z2Nat.id in Hc by lia. specialize (Hc ltac:(lia)).
  unfold Dt.roundtrip_ok in Hc.
  destruct (Dt.ord2ymd (r + 1)) as [[y m] d].
  apply Z.eqb_eq in Hc. rewrite ymd2ord_shift. lia.
Qed.

(** Adding seconds to a date and time moves it by that many seconds. *)
Lemma add_seconds_spec t ds t' :
  Dt.add_seconds t ds = Some t' ->
  Dt.to_seconds t' = Dt.to_seconds t + ds.
Proof.
  unfold Dt.add_seconds. intros H.
  set (total := Dt.to_seconds t + ds) in *.
  destruct ((0 <? total / 86400) && (total / 86400 <=? Dt.MAXORDINAL));
    [|discriminate H].
  pose proof (ymd2ord_ord2ymd (total / 86400)) as Hd.
  destruct (Dt.ord2ymd (total / 86400)) as [[y m] d].
  inversion H; subst t'. unfold Dt.to_seconds at 1. simpl. rewrite Hd.
  Z.to_euclidean_division_equations. lia.
Qed.

(** *** The transport *)

Section Scan.

Variables (ready_word : string) (err : regex).

Lemma scan_error_line lines seen o rest :
  scan ready_word err lines seen = ErrorLine o rest ->
  o_data o = None /\ exists e, o_error o = Some e.
Proof.
  revert seen. induction lines as [|l lines IH]; intros seen H; simpl in H.
  - discriminate.
  - destruct (String.eqb l ready_word); [discriminate|].
    destruct (rmatch err l) as [m|].
    + inversion H; subst; simpl. split; [reflexivity|eauto].
    + eapply IH; eassumption.
Qed.

Lemma scan_ready_word lines seen o rest :
  scan ready_word err lines seen = ReadyWord o rest ->
  o_error o = None.
Proof.
  revert seen. induction lines as [|l lines IH]; intros seen H; simpl in H.
  - discriminate.
  - destruct (String.eqb l ready_word).
    + inversion H; subst; reflexivity.
    + destruct (rmatch err l); [discriminate|]. eapply IH; eassumption.
Qed.

(** An outcome of [read_until] never carries both an error and data. *)
Lemma read_until_exclusive timeout c o c' :
  read_until ready_word err timeout c = (Ok o, c') ->
  o_error o = None \/ o_data o = None.
Proof.
  unfold read_until.
  destruct (scan ready_word err (rx c) []) as [o1 rest|o1 rest|] eqn:E;
    intros H; inversion H; subst.
  - left. eapply scan_ready_word; eassumption.
  - right. eapply scan_error_line; eassumption.
Qed.

Lemma read_until_tx timeout c x c' :
  read_until ready_word err timeout c = (x, c') -> tx c' = tx c.
Proof.
  unfold read_until.
  destruct (scan ready_word err (rx c) []); intros H; inversion H; reflexivity.
Qed.

End Scan.

(** *** [execute] *)

Lemma has_error_iff (o : outcome) :
  has_error o = true <-> exists e, o_error o = Some e.
Proof.
  unfold has_error. destruct (o_error o) as [e|]; split; intros H.
  - eauto.
  - reflexivity.
  - discriminate.
  - destruct H as [e H]. discriminate.
Qed.

(** One turn of the loop when the read ends on the error pattern: the loop
    is left with that outcome, whatever ready words remain. *)
Lemma scan_ready_words_error w post timeout res c o rest :
  scan w error_regex (rx c) [] = ErrorLine o rest ->
  scan_ready_words (w :: post) timeout res c
  = (Ok (Some o), add_log ERROR "Command {} returned error {}" (set_rx rest c)).
Proof.
  intros H. destruct (scan_error_line _ _ _ _ H) as [_ [e He]].
  simpl. unfold bind, read_until. rewrite H.
  unfold has_error. rewrite He. reflexivity.
Qed.

(** One turn of the loop when the read ends on its ready word: the loop
    goes on with the next ready word, and the earlier outcome is dropped. *)
Lemma scan_ready_words_ready w post timeout res c o rest :
  scan w error_regex (rx c) [] = ReadyWord o rest ->
  scan_ready_words (w :: post) timeout res c
  = scan_ready_words post timeout (Some o) (set_rx rest c).
Proof.
  intros H. pose proof (scan_ready_word _ _ _ _ H) as He.
  simpl. unfold bind, read_until. rewrite H.
  unfold has_error. rewrite He. reflexivity.
Qed.

(** The same on the outcome of the read alone, however the transport came
    by it: once the reads for [pre] have gone through without error and the
    read for [w] returns an outcome with an error entry, the loop returns
    that outcome and performs no further read. *)
Lemma scan_ready_words_stops_on_error pre :
  forall w post timeout res c res1 c1 o c2,
    scan_ready_words pre timeout res c = (Ok res1, c1) ->
    (forall r, res1 = Some r -> has_error r = false) ->
    read_until w error_regex timeout c1 = (Ok o, c2) ->
    has_error o = true ->
    scan_ready_words (pre ++ w :: post) timeout res c
    = (Ok (Some o), add_log ERROR "Command {} returned error {}" c2).
Proof.
  induction pre as [|w0 pre IH]; intros w post timeout res c res1 c1 o c2 H1 H2 H3 H4.
  - simpl in H1. inversion H1; subst. simpl. unfold bind. rewrite H3, H4.
    reflexivity.
  - simpl in H1 |- *. unfold bind in H1 |- *.
    destruct (read_until w0 error_regex timeout c) as [[r|e] c'] eqn:E.
    + destruct (has_error r) eqn:Hr.
      * unfold log, ret in H1. inversion H1; subst.
        rewrite (H2 r eq_refl) in Hr. discriminate.
      * eapply IH; eassumption.
    + discriminate.
Qed.

Lemma scan_ready_words_app_error pre :
  forall w post timeout res c res1 c1 o rest,
    scan_ready_words pre timeout res c = (Ok res1, c1) ->
    (forall r, res1 = Some r -> has_error r = false) ->
    scan w error_regex (rx c1) [] = ErrorLine o rest ->
    scan_ready_words (pre ++ w :: post) timeout res c
    = (Ok (Some o), add_log ERROR "Command {} returned error {}" (set_rx rest c1)).
Proof.
  intros w post timeout res c res1 c1 o rest H1 H2 H3.
  eapply scan_ready_words_stops_on_error; try eassumption.
  - unfold read_until. rewrite H3. reflexivity.
  - apply has_error_iff. eapply scan_error_line. eassumption.
Qed.

Lemma scan_ready_words_tx ws :
  forall timeout res c x c',
    scan_ready_words ws timeout res c = (x, c') -> tx c' = tx c.
Proof.
  induction ws as [|w ws IH]; intros timeout res c x c' H; simpl in H.
  - inversion H; reflexivity.
  - unfold bind in H.
    destruct (read_until w error_regex timeout c) as [[r|e] c1] eqn:E.
    + apply read_until_tx in E. destruct (has_error r).
      * inversion H; subst. simpl. assumption.
      * apply IH in H. congruence.
    + apply read_until_tx in E. inversion H; subst. assumption.
Qed.

(** [execute], step by step. *)
Lemma execute_eq cmd ws keep_conn cooldown timeout raise_on_error c :
  execute cmd ws keep_conn cooldown timeout raise_on_error c =
  match scan_ready_words ws timeout None (after_write cmd c) with
  | (Ok res, c1) =>
      (error_check cmd raise_on_error res,
       after_cooldown cooldown (after_exchange keep_conn (add_log INFO "Got result: %s" c1)))
  | (Raise e, c1) => (Raise e, after_exchange keep_conn c1)
  end.
Proof.
  unfold execute, bind, try_finally, log, write_line, after_write. 
  destruct (scan_ready_words ws timeout None
              (add_tx cmd (add_log INFO "Executing AT command: %s" c)))
    as [[res|e] c1] eqn:E.
  - unfold ret, after_exchange, after_cooldown, error_check, close, sleep, bind, log.
    destruct keep_conn; simpl; destruct cooldown; simpl;
      destruct raise_on_error; simpl; try reflexivity;
      destruct res as [r|]; try reflexivity;
      destruct (o_error r); reflexivity.
  - unfold after_exchange, bind, log, close, ret. destruct keep_conn; reflexivity.
Qed.

Lemma scan_ready_words_exclusive ws :
  forall timeout res c r c',
    scan_ready_words ws timeout res c = (Ok (Some r), c') ->
    (forall r0, res = Some r0 -> o_error r0 = None \/ o_data r0 = None) ->
    o_error r = None \/ o_data r = None.
Proof.
  induction ws as [|w ws IH]; intros timeout res c r c' H Hres; simpl in H.
  - inversion H; subst. apply Hres. reflexivity.
  - unfold bind in H.
    destruct (read_until w error_regex timeout c) as [[r1|e] c1] eqn:E;
      [|discriminate].
    pose proof (read_until_exclusive _ _ _ _ E) as Hx.
    destruct (has_error r1).
    + inversion H; subst. assumption.
    + eapply IH; [eassumption|].
      intros r0 Hr0. inversion Hr0; subst. assumption.
Qed.

(** C1.  Whenever, in an [execute] call, the reads for the ready words
    [pre] have each ended on their ready word and the read for the next
    ready word [w] ends on a line matching the error pattern, the loop
    stops there whatever ready words [post] remain: the input after the
    error line is left unread, the outcome is the one of that read with
    its error entry set and no data (the outcomes of the earlier reads are
    gone), and with [raise_on_error] the call fails with that error.  No
    outcome [execute] returns carries both an error and data. *)
Theorem execute_error_stops_scan cmd keep_conn cooldown timeout c :
  (forall pre w post res1 c1 o rest,
      scan_ready_words pre timeout None (after_write cmd c) = (Ok res1, c1) ->
      (forall r, res1 = Some r -> has_error r = false) ->
      scan w error_regex (rx c1) [] = ErrorLine o rest ->
      let c2 :=
        after_cooldown cooldown
          (after_exchange keep_conn
             (add_log INFO "Got result: %s"
                (add_log ERROR "Command {} returned error {}" (set_rx rest c1)))) in
      execute cmd (pre ++ w :: post) keep_conn cooldown timeout false c
      = (Ok (Some o), c2)
      /\ rx c2 = rest
      /\ o_data o = None
      /\ exists e,
          o_error o = Some e
          /\ execute cmd (pre ++ w :: post) keep_conn cooldown timeout true c
             = (Raise (Py.CommandExecutionException cmd (e_type e)
                         (match e_reason e with Some x => x | None => EmptyString end)),
                c2))
  /\ (forall ws raise_on_error r c',
         execute cmd ws keep_conn cooldown timeout raise_on_error c = (Ok (Some r), c') ->
         o_error r = None \/ o_data r = None).
Proof.
  split.
  - intros pre w post res1 c1 o rest H1 H2 H3 c2.
    pose proof (scan_ready_words_app_error pre w post timeout None _ H1 H2 H3) as Hs.
    destruct (scan_error_line _ _ _ _ H3) as [Hd [e He]].
    repeat split.
    + rewrite execute_eq, Hs. reflexivity.
    + unfold c2, after_cooldown, after_exchange.
      destruct cooldown, keep_conn; reflexivity.
    + assumption.
    + exists e. split; [assumption|].
      rewrite execute_eq, Hs. unfold error_check. rewrite He. reflexivity.
  - intros ws raise_on_error r c' H. rewrite execute_eq in H.
    destruct (scan_ready_words ws timeout None (after_write cmd c))
      as [[res|e] c1] eqn:E; [|discriminate].
    assert (Hres : res = Some r).
    { unfold error_check in H. destruct raise_on_error.
      - destruct res as [r0|]; [|discriminate].
        destruct (o_error r0); [discriminate|]. congruence.
      - congruence. }
    subst res. eapply scan_ready_words_exclusive; [eassumption|].
    intros r0 Hr0. discriminate.
Qed.

(** A run of C1: the error line stops the exchange for [OK], [GO], [MORE]
    at the second ready word, and the line [MORE] stays unread. *)
Lemma execute_error_stops_scan_witness :
  let c := fresh ["a"; "OK"; "+CME ERROR: x"; "MORE"] in
  let o := Outcome (Some (ErrorInfo "CME" (Some "x"))) None in
  scan_ready_words ["OK"] None None (after_write "AT" c)
  = (Ok (Some (Outcome None (Some (Line "a")))),
     set_rx ["+CME ERROR: x"; "MORE"] (after_write "AT" c))
  /\ scan "GO" error_regex ["+CME ERROR: x"; "MORE"] [] = ErrorLine o ["MORE"]
  /\ fst (execute "AT" (["OK"] ++ "GO" :: ["MORE"]) true None None false c) = Ok (Some o)
  /\ rx (snd (execute "AT" (["OK"] ++ "GO" :: ["MORE"]) true None None false c)) = ["MORE"].
Proof.
  intros c o.
  assert (H1 : scan_ready_words ["OK"] None None (after_write "AT" c)
               = (Ok (Some (Outcome None (Some (Line "a")))),
                  set_rx ["+CME ERROR: x"; "MORE"] (after_write "AT" c)))
    by reflexivity.
  assert (H3 : scan "GO" error_regex ["+CME ERROR: x"; "MORE"] [] = ErrorLine o ["MORE"])
    by reflexivity.
  split; [exact H1|]. split; [exact H3|].
  destruct (proj1 (execute_error_stops_scan "AT" true None None c)
                  ["OK"] "GO" ["MORE"] _ _ o ["MORE"] H1
                  (fun r H => match H in (_ = y) return
                                    (match y with Some r' => has_error r' = false | None => True end)
                              with eq_refl => eq_refl end)
                  H3) as [He [Hr _]].
  split.
  - rewrite He. reflexivity.
  - rewrite He. exact Hr.
Defined.

Lemma last_cons {A} (a : A) (l : list A) (d : A) : last (a :: l) d = last l a.
Proof.
  revert a d. induction l as [|b l IH]; intros a d.
  - reflexivity.
  - change (last (a :: b :: l) d) with (last (b :: l) d).
    rewrite !IH. reflexivity.
Qed.

(** The loop returns the outcome of the last read it performed, or the
    initial [res] when it performed none. *)
Lemma scan_ready_words_last ws :
  forall timeout res c x c',
    scan_ready_words ws timeout res c = (Ok x, c') ->
    x = last (map Some (reads_performed ws timeout c)) res.
Proof.
  induction ws as [|w ws IH]; intros timeout res c x c' H; simpl in H |- *.
  - inversion H; reflexivity.
  - unfold bind in H.
    destruct (read_until w error_regex timeout c) as [[r|e] c1] eqn:E;
      [|discriminate].
    destruct (has_error r).
    + inversion H; subst. reflexivity.
    + apply IH in H. rewrite map_cons, last_cons. exact H.
Qed.

Lemma scan_ready_words_some ws :
  forall timeout res c x c',
    scan_ready_words ws timeout res c = (Ok x, c') ->
    ws <> [] \/ res <> None -> exists r, x = Some r.
Proof.
  induction ws as [|w ws IH]; intros timeout res c x c' H Hne; simpl in H.
  - inversion H; subst. destruct Hne as [Hne|Hne]; [congruence|].
    destruct x as [r|]; [eauto|congruence].
  - unfold bind in H.
    destruct (read_until w error_regex timeout c) as [[r|e] c1] eqn:E;
      [|discriminate].
    destruct (has_error r).
    + inversion H; subst. eauto.
    + eapply IH; [eassumption|]. right. discriminate.
Qed.

(** C10, as the code has it.  When [execute] returns, the value returned is
    the outcome of the last read the loop performed, and for a non-empty
    list of ready words it is an outcome.  For the empty list nothing is
    read and there is no outcome: with [raise_on_error] the check after the
    exchange fails with a [TypeError]; without it the check is skipped and
    the call returns [None]. *)
Theorem execute_returns_last_read cmd keep_conn cooldown timeout c :
  (forall ws raise_on_error res c',
      execute cmd ws keep_conn cooldown timeout raise_on_error c = (Ok res, c') ->
      res = last (map Some (reads_performed ws timeout (after_write cmd c))) None
      /\ (ws <> [] -> exists r, res = Some r))
  /\ (let c' := after_cooldown cooldown
                  (after_exchange keep_conn
                     (add_log INFO "Got result: %s" (after_write cmd c))) in
      reads_performed [] timeout (after_write cmd c) = []
      /\ rx c' = rx c
      /\ execute cmd [] keep_conn cooldown timeout true c
         = (Raise (Py.TypeError "argument of type 'NoneType' is not iterable"), c')
      /\ execute cmd [] keep_conn cooldown timeout false c = (Ok None, c')).
Proof.
  split.
  - intros ws raise_on_error res c' H. rewrite execute_eq in H.
    destruct (scan_ready_words ws timeout None (after_write cmd c))
      as [[res0|e] c1] eqn:E; [|discriminate].
    assert (Hres : res = res0).
    { unfold error_check in H. destruct raise_on_error.
      - destruct res0 as [r0|]; [|discriminate].
        destruct (o_error r0); [discriminate|]. congruence.
      - congruence. }
    subst res0. split.
    + eapply scan_ready_words_last; eassumption.
    + intros Hne. eapply scan_ready_words_some; [eassumption|]. left; assumption.
  - intros c'. repeat split.
    + unfold c', after_cooldown, after_exchange.
      destruct cooldown, keep_conn; reflexivity.
    + rewrite execute_eq. reflexivity.
    + rewrite execute_eq. reflexivity.
Qed.

(** A run of C10: two ready words, two reads, and the second outcome is the
    one returned. *)
Lemma execute_returns_last_read_witness :
  let c := fresh ["a"; "OK"; "b"; "c"; "GO"] in
  execute "AT" ["OK"; "GO"] true None None true c
  = (Ok (Some (Outcome None (Some (Lines ["b"; "c"])))),
     add_log INFO "Got result: %s" (set_rx [] (after_write "AT" c)))
  /\ Some (Outcome None (Some (Lines ["b"; "c"])))
     = last (map Some (reads_performed ["OK"; "GO"] None (after_write "AT" c))) None.
Proof.
  intros c.
  assert (H : execute "AT" ["OK"; "GO"] true None None true c
              = (Ok (Some (Outcome None (Some (Lines ["b"; "c"])))),
                 add_log INFO "Got result: %s" (set_rx [] (after_write "AT" c))))
    by reflexivity.
  split; [exact H|].
  exact (proj1 (proj1 (execute_returns_last_read "AT" true None None c) _ _ _ _ H)).
Defined.

(** C10 as stated fails: with an empty list of ready words and
    [raise_on_error=False] the check after the exchange does not fail; the
    call returns [None]. *)
Lemma execute_empty_ready_words_no_raise :
  fst (execute "AT" [] true None None false (fresh ["OK"])) = Ok None
  /\ ~ (exists e, fst (execute "AT" [] true None None false (fresh ["OK"])) = Raise e).
Proof.
  split; [reflexivity|]. intros [e H]. discriminate.
Qed.

(** *** What the accessors write *)

Lemma after_stages_tx keep_conn cooldown c :
  tx (after_cooldown cooldown (after_exchange keep_conn c)) = tx c.
Proof.
  unfold after_cooldown, after_exchange. destruct cooldown, keep_conn; reflexivity.
Qed.

(** Whatever its result, [execute] writes its command and nothing else. *)
Lemma execute_tx cmd ws keep_conn cooldown timeout raise_on_error c x c' :
  execute cmd ws keep_conn cooldown timeout raise_on_error c = (x, c') ->
  tx c' = (tx c ++ [cmd])%list.
Proof.
  rewrite execute_eq.
  destruct (scan_ready_words ws timeout None (after_write cmd c))
    as [[res|e] c1] eqn:E; intros H; inversion H; subst;
    apply scan_ready_words_tx in E.
  - rewrite after_stages_tx. simpl. rewrite E. reflexivity.
  - pose proof (after_stages_tx keep_conn None c1) as Ht. simpl in Ht.
    rewrite Ht, E. reflexivity.
Qed.

Lemma pure_ret {A} (a : A) : pure (ret a).
Proof. intros c; reflexivity. Qed.

Lemma pure_raise {A} e : pure (@raise A e).
Proof. intros c; reflexivity. Qed.

Lemma pure_lift {A} (x : Py.exn + A) : pure (lift x).
Proof. destruct x; intros c; reflexivity. Qed.

Lemma pure_from_option {A} e (x : option A) : pure (from_option e x).
Proof. destruct x; intros c; reflexivity. Qed.

Lemma pure_match_data r res : pure (match_data r res).
Proof.
  intros c. unfold match_data. destruct res as [o|]; [|reflexivity].
  destruct (o_data o) as [[s|l]|]; reflexivity.
Qed.

Lemma pure_dict_item d k : pure (dict_item d k).
Proof. apply pure_from_option. Qed.

Lemma pure_dict_key_by_value d v : pure (dict_key_by_value d v).
Proof.
  induction d as [|[k v'] d IH]; intros c; simpl.
  - reflexivity.
  - destruct (String.eqb v' v); [reflexivity|apply IH].
Qed.

Lemma pure_eq {A} (m : M A) c x c' : pure m -> m c = (x, c') -> c' = c.
Proof. intros Hp H. specialize (Hp c). rewrite H in Hp. exact Hp. Qed.

(** A value read through [d[k]] is one of [d.values()]. *)
Lemma dict_get_in_values d k v :
  dict_get d k = Some v -> str_in v (values d) = true.
Proof.
  induction d as [|[k' v'] d IH]; simpl; intros H.
  - discriminate.
  - destruct (k' =? k).
    + inversion H; subst. rewrite String.eqb_refl. reflexivity.
    + rewrite (IH H). apply orb_true_r.
Qed.

Lemma dict_item_ok d k c v c' :
  dict_item d k c = (Ok v, c') -> dict_get d k = Some v /\ c' = c.
Proof.
  unfold dict_item, from_option. destruct (dict_get d k) as [v0|]; intros H;
    inversion H; subst; auto.
Qed.

Lemma execute_cmd_tx cmd c x c' :
  execute_cmd cmd c = (x, c') -> tx c' = (tx c ++ [cmd])%list.
Proof. apply execute_tx. Qed.

Lemma error_config_noop c v c' :
  error_config Py.VNone false c = (Ok v, c') ->
  error_config (Py.VStr v) false c = (Ok v, c')
  /\ tx c' = (tx c ++ ["AT+CMEE?"])%list.
Proof.
  unfold error_config, bind.
  destruct (execute_cmd "AT+CMEE?" c) as [[res|e] c1] eqn:E; [|discriminate].
  destruct (match_data CMEE_regex res c1) as [[[m|]|e] c2] eqn:Em;
    try discriminate.
  destruct (lift (Py.int_of (group m "mode")) c2) as [[n|e] c3] eqn:En;
    [|discriminate].
  destruct (dict_item ME_ERROR_MODE_MAP n c3) as [[rm|e] c4] eqn:Ed;
    [|discriminate].
  intros H. inversion H; subst.
  apply dict_item_ok in Ed. destruct Ed as [Hg ->].
  rewrite (dict_get_in_values _ _ Hg), String.eqb_refl. simpl.
  split; [reflexivity|].
  apply pure_eq in En; [|apply pure_lift].
  apply pure_eq in Em; [|apply pure_match_data].
  subst. eapply execute_cmd_tx; eassumption.
Qed.

Lemma pure_bind {A B} (m : M A) (k : A -> M B) :
  pure m -> (forall a, pure (k a)) -> pure (bind m k).
Proof.
  intros Hm Hk c. unfold bind. specialize (Hm c).
  destruct (m c) as [[a|e] c1]; simpl in Hm; subst.
  - apply Hk.
  - reflexivity.
Qed.

Lemma pure_group_of m name : pure (group_of m name).
Proof. destruct m; intros c; reflexivity. Qed.

Lemma pure_flag_of m name : pure (flag_of m name).
Proof.
  unfold flag_of. apply pure_bind; [apply pure_lift|]. intros n. apply pure_ret.
Qed.

Lemma pure_read_sms_format_mode res : pure (read_sms_format_mode res).
Proof.
  unfold read_sms_format_mode.
  apply pure_bind; [apply pure_match_data|]. intros m.
  apply pure_bind; [apply pure_group_of|]. intros g.
  apply pure_bind; [apply pure_lift|]. intros n. apply pure_ret.
Qed.

Lemma pure_nmea_decode m : pure (nmea_decode m).
Proof.
  unfold nmea_decode.
  apply pure_bind; [apply pure_lift|]. intros n.
  apply pure_bind; [apply pure_dict_item|]. intros mode.
  repeat (apply pure_bind; [apply pure_flag_of|]; intros ?).
  apply pure_ret.
Qed.

Lemma read_sms_format_mode_str res c v c' :
  read_sms_format_mode res c = (Ok (Py.VStr v), c') ->
  str_in v (values SMS_FORMAT_MODES) = true.
Proof.
  unfold read_sms_format_mode, bind.
  destruct (match_data CMGF_regex res c) as [[m|e] c1]; [|discriminate].
  destruct (group_of m "mode" c1) as [[g|e] c2]; [|discriminate].
  destruct (lift (Py.int_of g) c2) as [[n|e] c3]; [|discriminate].
  unfold ret. intros H.
  destruct (dict_get SMS_FORMAT_MODES n) as [v0|] eqn:Hg; simpl in H;
    [|discriminate].
  inversion H; subst. eapply dict_get_in_values; eassumption.
Qed.

Lemma sms_format_noop c s v c' :
  sms_format Py.VNone false c = (Ok (Py.VStr v), c') ->
  Py.upper s = v ->
  sms_format (Py.VStr s) false c = (Ok (Py.VStr v), c')
  /\ tx c' = (tx c ++ ["AT+CMGF?"])%list.
Proof.
  unfold sms_format. simpl negb. cbv iota. unfold bind at 1 3.
  destruct ((res <- execute_cmd "AT+CMGF?";; read_sms_format_mode res) c)
    as [[rm|e] c1] eqn:E; [|discriminate].
  unfold ret. intros H Hu. inversion H; subst.
  unfold bind in E.
  destruct (execute_cmd "AT+CMGF?" c) as [[res|e] c0] eqn:Ex; [|discriminate].
  pose proof (read_sms_format_mode_str _ _ E) as Hin.
  unfold str_in, values in Hin. simpl in Hin |- *. rewrite Hin.
  rewrite String.eqb_refl. simpl. split; [reflexivity|].
  apply pure_eq in E; [|apply pure_read_sms_format_mode]. subst.
  eapply execute_cmd_tx; eassumption.
Qed.

Lemma gnss_session_noop c b c' :
  gnss_session Py.VNone false c = (Ok b, c') ->
  gnss_session (Py.VBool b) false c = (Ok b, c')
  /\ tx c' = (tx c ++ ["AT$GPSP?"])%list.
Proof.
  unfold gnss_session, bind.
  destruct (execute_cmd "AT$GPSP?" c) as [[res|e] c1] eqn:E; [|discriminate].
  destruct (match_data GPSP_regex res c1) as [[[m|]|e] c2] eqn:Em;
    try discriminate.
  destruct (flag_of m "status" c2) as [[st|e] c3] eqn:Ef; [|discriminate].
  unfold ret. intros H. inversion H; subst.
  rewrite Bool.eqb_reflx. simpl. split; [reflexivity|].
  apply pure_eq in Ef; [|apply pure_flag_of].
  apply pure_eq in Em; [|apply pure_match_data].
  subst. eapply execute_cmd_tx; eassumption.
Qed.

Lemma nmea_differs_same cfg : nmea_differs cfg cfg = false.
Proof.
  unfold nmea_differs. rewrite String.eqb_refl, !Bool.eqb_reflx. reflexivity.
Qed.

Lemma nmea_decode_mode m c cfg c' :
  nmea_decode m c = (Ok cfg, c') ->
  str_in (nmea_mode cfg) (values NMEA_MODE_MAP) = true.
Proof.
  unfold nmea_decode, bind.
  destruct (lift (Py.int_of (group m "mode")) c) as [[n|e] c1]; [|discriminate].
  destruct (dict_item NMEA_MODE_MAP n c1) as [[mode|e] c2] eqn:Ed; [|discriminate].
  repeat match goal with
         | |- context [flag_of ?m ?name ?c] =>
             destruct (flag_of m name c) as [[?|?] ?]; [|discriminate]
         end.
  unfold ret. intros H. inversion H; subst. simpl.
  apply dict_item_ok in Ed. destruct Ed as [Hg _].
  exact (dict_get_in_values _ _ Hg).
Qed.

Lemma gnss_nmea_data_config_noop c a1 a2 a3 a4 a5 a6 cfg c' :
  gnss_nmea_data_config Py.VNone a1 a2 a3 a4 a5 a6 false c = (Ok cfg, c') ->
  gnss_nmea_data_config (Py.VStr (nmea_mode cfg)) (Py.VBool (gga cfg))
    (Py.VBool (gll cfg)) (Py.VBool (gsa cfg)) (Py.VBool (gsv cfg))
    (Py.VBool (rmc cfg)) (Py.VBool (vtg cfg)) false c = (Ok cfg, c')
  /\ tx c' = (tx c ++ ["AT$GPSNMUN?"])%list.
Proof.
  unfold gnss_nmea_data_config, bind.
  destruct (execute_cmd "AT$GPSNMUN?" c) as [[res|e] c1] eqn:E; [|discriminate].
  destruct (match_data GPSNMUN_regex res c1) as [[[m|]|e] c2] eqn:Em;
    try discriminate.
  destruct (nmea_decode m c2) as [[cur|e] c3] eqn:Ed; [|discriminate].
  unfold ret. intros H. inversion H; subst.
  rewrite (nmea_decode_mode _ _ Ed). simpl.
  assert (Hsame : {| nmea_mode := nmea_mode cfg; gga := gga cfg; gll := gll cfg;
                     gsa := gsa cfg; gsv := gsv cfg; rmc := rmc cfg; vtg := vtg cfg |}
                  = cfg) by (destruct cfg; reflexivity).
  rewrite Hsame, nmea_differs_same. simpl. split; [reflexivity|].
  apply pure_eq in Ed; [|apply pure_nmea_decode].
  apply pure_eq in Em; [|apply pure_match_data].
  subst. eapply execute_cmd_tx; eassumption.
Qed.

(** C2.  For each of the four get-or-set accessors: when the read of the
    current value succeeds with some value, a call from the same connection
    that asks for that very value with [force=False] returns the value read
    and leaves the connection exactly as the plain read leaves it; the only
    line written is the read query. *)
Theorem accessors_idempotent (c : conn) :
  (forall v c',
      error_config Py.VNone false c = (Ok v, c') ->
      error_config (Py.VStr v) false c = (Ok v, c')
      /\ tx c' = (tx c ++ ["AT+CMEE?"])%list)
  /\ (forall s v c',
         sms_format Py.VNone false c = (Ok (Py.VStr v), c') ->
         Py.upper s = v ->
         sms_format (Py.VStr s) false c = (Ok (Py.VStr v), c')
         /\ tx c' = (tx c ++ ["AT+CMGF?"])%list)
  /\ (forall b c',
         gnss_session Py.VNone false c = (Ok b, c') ->
         gnss_session (Py.VBool b) false c = (Ok b, c')
         /\ tx c' = (tx c ++ ["AT$GPSP?"])%list)
  /\ (forall a1 a2 a3 a4 a5 a6 cfg c',
         gnss_nmea_data_config Py.VNone a1 a2 a3 a4 a5 a6 false c = (Ok cfg, c') ->
         gnss_nmea_data_config (Py.VStr (nmea_mode cfg)) (Py.VBool (gga cfg))
           (Py.VBool (gll cfg)) (Py.VBool (gsa cfg)) (Py.VBool (gsv cfg))
           (Py.VBool (rmc cfg)) (Py.VBool (vtg cfg)) false c = (Ok cfg, c')
         /\ tx c' = (tx c ++ ["AT$GPSNMUN?"])%list).
Proof.
  repeat split.
  - eapply error_config_noop; eassumption.
  - eapply error_config_noop; eassumption.
  - eapply sms_format_noop; eassumption.
  - eapply sms_format_noop; eassumption.
  - eapply gnss_session_noop; eassumption.
  - eapply gnss_session_noop; eassumption.
  - eapply gnss_nmea_data_config_noop; eassumption.
  - eapply gnss_nmea_data_config_noop; eassumption.
Qed.

(** Runs of C2, one for each accessor. *)
Lemma accessors_idempotent_witness :
  (error_config Py.VNone false (fresh ["+CMEE: 2"; "OK"])
   = (Ok "verbose", snd (error_config Py.VNone false (fresh ["+CMEE: 2"; "OK"])))
   /\ fst (error_config (Py.VStr "verbose") false (fresh ["+CMEE: 2"; "OK"]))
      = Ok "verbose"
   /\ tx (snd (error_config (Py.VStr "verbose") false (fresh ["+CMEE: 2"; "OK"])))
      = ["AT+CMEE?"])
  /\ (fst (sms_format (Py.VStr "txt") false (fresh ["+CMGF: 1"; "OK"]))
      = Ok (Py.VStr "TXT")
      /\ tx (snd (sms_format (Py.VStr "txt") false (fresh ["+CMGF: 1"; "OK"])))
         = ["AT+CMGF?"])
  /\ (fst (gnss_session (Py.VBool true) false (fresh ["$GPSP: 1"; "OK"])) = Ok true
      /\ tx (snd (gnss_session (Py.VBool true) false (fresh ["$GPSP: 1"; "OK"])))
         = ["AT$GPSP?"])
  /\ (tx (snd (gnss_nmea_data_config (Py.VStr "second_format") (Py.VBool false)
                 (Py.VBool true) (Py.VBool false) (Py.VBool true) (Py.VBool false)
                 (Py.VBool true) false (fresh ["$GPSNMUN: 2,0,1,0,1,0,1"; "OK"])))
      = ["AT$GPSNMUN?"]).
Proof.
  split; [|split; [|split]].
  - pose proof (proj1 (accessors_idempotent (fresh ["+CMEE: 2"; "OK"]))
                  "verbose" _ eq_refl) as [H1 H2].
    split; [reflexivity|]. rewrite H1. split; [reflexivity| exact H2].
  - pose proof (proj1 (proj2 (accessors_idempotent (fresh ["+CMGF: 1"; "OK"])))
                  "txt" "TXT" _ eq_refl eq_refl) as [H1 H2].
    rewrite H1. split; [reflexivity| exact H2].
  - pose proof (proj1 (proj2 (proj2 (accessors_idempotent (fresh ["$GPSP: 1"; "OK"]))))
                  true _ eq_refl) as [H1 H2].
    rewrite H1. split; [reflexivity| exact H2].
  - pose proof (proj2 (proj2 (proj2
                  (accessors_idempotent (fresh ["$GPSNMUN: 2,0,1,0,1,0,1"; "OK"]))))
                  Py.VNone Py.VNone Py.VNone Py.VNone Py.VNone Py.VNone
                  (NmeaConfig "second_format" false true false true false true)
                  _ eq_refl) as [H1 H2].
    simpl nmea_mode in H1. simpl gga in H1. simpl gll in H1. simpl gsa in H1.
    simpl gsv in H1. simpl rmc in H1. simpl vtg in H1.
    rewrite H1. exact H2.
Defined.

(** *** Which line an accessor writes first *)

Lemma pure_only_appends {A} (m : M A) : pure m -> only_appends m.
Proof.
  intros Hp c. exists []. rewrite Hp, app_nil_r. reflexivity.
Qed.

Lemma only_appends_bind {A B} (m : M A) (k : A -> M B) :
  only_appends m -> (forall a, only_appends (k a)) -> only_appends (bind m k).
Proof.
  intros Hm Hk c. unfold bind. destruct (Hm c) as [r1 H1].
  destruct (m c) as [[a|e] c1]; simpl in H1.
  - destruct (Hk a c1) as [r2 H2]. exists (r1 ++ r2)%list.
    rewrite H2, H1, app_assoc. reflexivity.
  - exists r1. exact H1.
Qed.

Lemma only_appends_log l msg : only_appends (log l msg).
Proof. intros c. exists []. simpl. rewrite app_nil_r. reflexivity. Qed.

Lemma only_appends_execute cmd ws keep_conn cooldown timeout raise_on_error :
  only_appends (execute cmd ws keep_conn cooldown timeout raise_on_error).
Proof.
  intros c. exists [cmd].
  destruct (execute cmd ws keep_conn cooldown timeout raise_on_error c) as [x c'] eqn:E.
  simpl. eapply execute_tx; eassumption.
Qed.

Lemma writes_first_bind {A B} q (m : M A) (k : A -> M B) :
  (forall c, tx (snd (m c)) = (tx c ++ [q])%list) ->
  (forall a, only_appends (k a)) ->
  writes_first q (bind m k).
Proof.
  intros Hm Hk c. unfold bind. specialize (Hm c).
  destruct (m c) as [[a|e] c1]; simpl in Hm.
  - destruct (Hk a c1) as [r2 H2]. exists r2.
    rewrite H2, Hm, <- app_assoc. reflexivity.
  - exists []. exact Hm.
Qed.

Lemma execute_cmd_writes cmd c :
  tx (snd (execute_cmd cmd c)) = (tx c ++ [cmd])%list.
Proof.
  destruct (execute_cmd cmd c) as [x c'] eqn:E. simpl.
  eapply execute_cmd_tx; eassumption.
Qed.

(** Discharges [only_appends] goals on the bodies of the accessors. *)
Ltac appends :=
  repeat first
    [ apply only_appends_log
    | apply only_appends_execute
    | apply pure_only_appends;
      first [ apply pure_ret | apply pure_raise | apply pure_lift
            | apply pure_from_option | apply pure_match_data
            | apply pure_dict_item | apply pure_dict_key_by_value
            | apply pure_group_of | apply pure_flag_of
            | apply pure_read_sms_format_mode | apply pure_nmea_decode ]
    | apply only_appends_bind; [|intros ?]
    | match goal with
      | |- only_appends (match ?x with _ => _ end) => destruct x
      | |- only_appends (if ?x then _ else _) => destruct x
      end ].

Lemma error_config_reads_first mode force :
  writes_first "AT+CMEE?" (error_config mode force).
Proof.
  unfold error_config. apply writes_first_bind.
  - apply execute_cmd_writes.
  - intros res. appends.
Qed.

Lemma gnss_session_reads_first status force :
  writes_first "AT$GPSP?" (gnss_session status force).
Proof.
  unfold gnss_session. apply writes_first_bind.
  - apply execute_cmd_writes.
  - intros res. appends.
Qed.

Lemma gnss_nmea_data_config_reads_first mode a1 a2 a3 a4 a5 a6 force :
  writes_first "AT$GPSNMUN?" (gnss_nmea_data_config mode a1 a2 a3 a4 a5 a6 force).
Proof.
  unfold gnss_nmea_data_config. apply writes_first_bind.
  - apply execute_cmd_writes.
  - intros res. appends.
Qed.

Lemma sms_format_reads_first mode :
  writes_first "AT+CMGF?" (sms_format mode false).
Proof.
  unfold sms_format. simpl negb. cbv iota.
  intros c. unfold bind at 1. unfold bind at 1.
  pose proof (execute_cmd_writes "AT+CMGF?" c) as Hw.
  destruct (execute_cmd "AT+CMGF?" c) as [[res|e] c1]; simpl in Hw.
  - pose proof (pure_read_sms_format_mode res c1) as Hp.
    destruct (read_sms_format_mode res c1) as [[rm|e] c2]; simpl in Hp; subst c2.
    + assert (Hk : only_appends
                (match mode with
                 | Py.VNone => ret rm
                 | Py.VStr mode0 =>
                     let mode1 := Py.upper mode0 in
                     if negb (str_in mode1 (values SMS_FORMAT_MODES))
                     then raise (Py.ValueError "Unsupported mode")
                     else if false || negb (Py.value_eqb (Py.VStr mode1) rm)
                          then n <- dict_key_by_value SMS_FORMAT_MODES mode1 ;;
                               execute_cmd ("AT+CMGF=" ++ Py.format_d n) ;;
                               ret (Py.VStr mode1)
                          else ret rm
                 | _ => raise (Py.AttributeError "object has no attribute 'upper'")
                 end)) by (cbv zeta; appends).
      destruct (Hk c1) as [rest Hr]. exists rest.
      replace (tx c ++ "AT+CMGF?" :: rest)%list with (tx c1 ++ rest)%list
        by (rewrite Hw, <- app_assoc; reflexivity).
      exact Hr.
    + exists []. exact Hw.
  - exists []. exact Hw.
Qed.

Lemma str_in_sms_modes u :
  str_in u (values SMS_FORMAT_MODES) = true -> u = "PUD" \/ u = "TXT".
Proof.
  unfold str_in, values, SMS_FORMAT_MODES. cbn [map snd existsb].
  rewrite !orb_true_iff, !String.eqb_eq. intros [H|[H|H]]; auto. discriminate.
Qed.

(** With [force=True], [sms_format] writes nothing or the one write command;
    the read query is not sent. *)
Lemma sms_format_force_writes mode c :
  exists rest,
    tx (snd (sms_format mode true c)) = (tx c ++ rest)%list
    /\ (rest = [] \/ rest = ["AT+CMGF=0"] \/ rest = ["AT+CMGF=1"]).
Proof.
  unfold sms_format. cbn [negb].
  destruct mode as [|b|n|s]; cbn [Py.is_none];
    try (exists []; rewrite app_nil_r; auto; fail).
  unfold bind at 1. unfold ret at 1. cbv zeta.
  destruct (str_in (Py.upper s) (values SMS_FORMAT_MODES)) eqn:E; cbn [negb orb].
  - destruct (str_in_sms_modes _ E) as [Hu|Hu]; rewrite Hu.
    + exists ["AT+CMGF=0"]. split; [|auto].
      change (dict_key_by_value SMS_FORMAT_MODES "PUD") with (@ret Z 0).
      unfold bind at 1. unfold ret at 1.
      change ("AT+CMGF=" ++ Py.format_d 0) with "AT+CMGF=0".
      unfold bind. pose proof (execute_cmd_writes "AT+CMGF=0" c) as Hw.
      destruct (execute_cmd "AT+CMGF=0" c) as [[x|e] c1]; exact Hw.
    + exists ["AT+CMGF=1"]. split; [|auto].
      change (dict_key_by_value SMS_FORMAT_MODES "TXT") with (@ret Z 1).
      unfold bind at 1. unfold ret at 1.
      change ("AT+CMGF=" ++ Py.format_d 1) with "AT+CMGF=1".
      unfold bind. pose proof (execute_cmd_writes "AT+CMGF=1" c) as Hw.
      destruct (execute_cmd "AT+CMGF=1" c) as [[x|e] c1]; exact Hw.
  - exists []. rewrite app_nil_r. auto.
Qed.

(** C3, as the code has it.  [error_config], [gnss_session] and
    [gnss_nmea_data_config] write their read query before anything else,
    for every desired value and every [force]; [sms_format] does so when
    [force] is false.  With [force=True], [sms_format] sends no read query:
    it writes nothing, or the write command alone. *)
Theorem accessors_read_first :
  (forall mode force, writes_first "AT+CMEE?" (error_config mode force))
  /\ (forall status force, writes_first "AT$GPSP?" (gnss_session status force))
  /\ (forall mode a1 a2 a3 a4 a5 a6 force,
         writes_first "AT$GPSNMUN?"
           (gnss_nmea_data_config mode a1 a2 a3 a4 a5 a6 force))
  /\ (forall mode, writes_first "AT+CMGF?" (sms_format mode false))
  /\ (forall mode c,
         exists rest,
           tx (snd (sms_format mode true c)) = (tx c ++ rest)%list
           /\ (rest = [] \/ rest = ["AT+CMGF=0"] \/ rest = ["AT+CMGF=1"])).
Proof.
  split; [exact error_config_reads_first|].
  split; [exact gnss_session_reads_first|].
  split; [exact gnss_nmea_data_config_reads_first|].
  split; [exact sms_format_reads_first|].
  exact sms_format_force_writes.
Qed.

(** C3 as stated fails for [sms_format]: with [force=True] the first and
    only line written is the write command; no read query is sent. *)
Lemma sms_format_force_skips_read :
  fst (sms_format (Py.VStr "TXT") true (fresh ["OK"])) = Ok (Py.VStr "TXT")
  /\ tx (snd (sms_format (Py.VStr "TXT") true (fresh ["OK"]))) = ["AT+CMGF=1"]
  /\ ~ writes_first "AT+CMGF?" (sms_format (Py.VStr "TXT") true).
Proof.
  split; [reflexivity|]. split; [reflexivity|].
  intros H. destruct (H (fresh ["OK"])) as [rest Hr].
  change (tx (snd (sms_format (Py.VStr "TXT") true (fresh ["OK"]))))
    with ["AT+CMGF=1"] in Hr.
  simpl in Hr. inversion Hr.
Qed.

(** *** Decoders on a response of the wrong shape *)

(** A response that does not match makes the four decoders that test the
    match fail with [InvalidResponseException]. *)
Lemma checked_decoders_mismatch c o c1 s :
  o_data o = Some (Line s) ->
  (execute_cmd "AT+CMEE?" c = (Ok (Some o), c1) ->
   rmatch CMEE_regex s = None ->
   forall mode force,
     fst (error_config mode force c)
     = Raise (Py.InvalidResponseException "Didn't receive expected response"))
  /\ (execute_cmd "AT$GPSP?" c = (Ok (Some o), c1) ->
      rmatch GPSP_regex s = None ->
      forall status force,
        fst (gnss_session status force c)
        = Raise (Py.InvalidResponseException "Didn't receive expected response"))
  /\ (execute_cmd "AT$GPSNMUN?" c = (Ok (Some o), c1) ->
      rmatch GPSNMUN_regex s = None ->
      forall mode a1 a2 a3 a4 a5 a6 force,
        fst (gnss_nmea_data_config mode a1 a2 a3 a4 a5 a6 force c)
        = Raise (Py.InvalidResponseException "Didn't receive expected response"))
  /\ (execute_cmd "AT$GPSACP" c = (Ok (Some o), c1) ->
      rmatch GPSACP_regex s = None ->
      forall decimal_degrees,
        fst (gnss_location decimal_degrees c)
        = Raise (Py.InvalidResponseException "Didn't receive expected response")).
Proof.
  intros Hd. repeat split; intros E Hm; intros;
    [ unfold error_config | unfold gnss_session
    | unfold gnss_nmea_data_config | unfold gnss_location ];
    unfold bind at 1; rewrite E; unfold bind at 1;
    unfold match_data; rewrite Hd, Hm; reflexivity.
Qed.

(** The same for [imei] and [sms_format], which use the match without
    testing it: the failure is an [AttributeError]. *)
Lemma unchecked_decoders_mismatch c o c1 s :
  o_data o = Some (Line s) ->
  (execute_cmd "AT+GSN=1" c = (Ok (Some o), c1) ->
   rmatch GSN_regex s = None ->
   imei c
   = (Raise (Py.AttributeError "'NoneType' object has no attribute 'groupdict'"), c1))
  /\ (execute_cmd "AT+CMGF?" c = (Ok (Some o), c1) ->
      rmatch CMGF_regex s = None ->
      forall mode,
        sms_format mode false c
        = (Raise (Py.AttributeError "'NoneType' object has no attribute 'group'"), c1)).
Proof.
  intros Hd. split; intros E Hm; intros.
  - unfold imei. unfold bind at 1. rewrite E. unfold bind at 1.
    unfold match_data. rewrite Hd, Hm. reflexivity.
  - unfold sms_format. cbn [negb]. unfold bind at 1. unfold bind at 1.
    rewrite E. unfold read_sms_format_mode. unfold bind at 1.
    unfold match_data. rewrite Hd, Hm. reflexivity.
Qed.

(** C4 on the code: a response line of the wrong shape makes [imei] and
    [sms_format] fail with an [AttributeError], where [error_config] (and
    the other decoders that test the match) fail with
    [InvalidResponseException].  No decoder returns a value. *)
Theorem mismatch_exception_by_decoder :
  fst (imei (fresh ["garbage"; "OK"]))
  = Raise (Py.AttributeError "'NoneType' object has no attribute 'groupdict'")
  /\ fst (sms_format Py.VNone false (fresh ["garbage"; "OK"]))
     = Raise (Py.AttributeError "'NoneType' object has no attribute 'group'")
  /\ fst (error_config Py.VNone false (fresh ["garbage"; "OK"]))
     = Raise (Py.InvalidResponseException "Didn't receive expected response")
  /\ fst (gnss_session Py.VNone false (fresh ["garbage"; "OK"]))
     = Raise (Py.InvalidResponseException "Didn't receive expected response")
  /\ fst (gnss_location false (fresh ["garbage"; "OK"]))
     = Raise (Py.InvalidResponseException "Didn't receive expected response")
  /\ fst (gnss_nmea_data_config Py.VNone Py.VNone Py.VNone Py.VNone Py.VNone
            Py.VNone Py.VNone false (fresh ["garbage"; "OK"]))
     = Raise (Py.InvalidResponseException "Didn't receive expected response").
Proof.
  repeat split; reflexivity.
Qed.

(** *** GNSS location *)

Lemma lift_ok {A} (x : Py.exn + A) c a c' :
  lift x c = (Ok a, c') -> x = inr a /\ c' = c.
Proof.
  destruct x as [e|a0]; unfold lift, raise, ret; intros H; inversion H; auto.
Qed.

(** Takes the first step of a sequence in [H] and keeps the successful
    case. *)
Ltac step H :=
  unfold bind at 1 in H;
  match type of H with
  | (let (_, _) := ?X in _) = _ =>
      let E := fresh "E" in
      destruct X as [[?|?] ?] eqn:E; [|discriminate H]
  end.

Lemma gnss_location_parse_fix m decimal_degrees c loc c' :
  gnss_location_parse m decimal_degrees c = (Ok loc, c') ->
  exists n, Py.int_of (group m "fix") = inr n
            /\ dict_get GNSS_LOCATION_FIX_MAP n = Some (fix_ loc).
Proof.
  unfold gnss_location_parse. intros H.
  do 4 step H.
  step H. rename E3 into Efix.
  step H. rename E3 into Emap.
  do 5 step H.
  apply lift_ok in Efix. destruct Efix as [Efix _].
  apply dict_item_ok in Emap. destruct Emap as [Emap _].
  destruct decimal_degrees.
  - do 6 step H. unfold ret in H. inversion H; subst. simpl. eauto.
  - unfold ret in H. inversion H; subst. simpl. eauto.
Qed.

(** C5.  When the response of [gnss_location] matches with a fix field of
    [0] (invalid fix) or [1] (no fix), the call fails with [NoFixException]
    whatever the other fields hold, none of which is looked at; and a call
    that returns a location returns one whose fix is [2D] or [3D]. *)
Theorem gnss_location_no_fix decimal_degrees c :
  (forall o c1 s m f,
      execute_cmd "AT$GPSACP" c = (Ok (Some o), c1) ->
      o_data o = Some (Line s) ->
      rmatch GPSACP_regex s = Some m ->
      group m "fix" = Some f ->
      f = "0" \/ f = "1" ->
      gnss_location decimal_degrees c = (Raise Py.NoFixException, c1))
  /\ (forall loc c',
         gnss_location decimal_degrees c = (Ok loc, c') ->
         fix_ loc = "2D" \/ fix_ loc = "3D").
Proof.
  split.
  - intros o c1 s m f E Hd Hm Hf Hfix.
    unfold gnss_location. unfold bind at 1. rewrite E.
    unfold bind at 1. unfold match_data. rewrite Hd, Hm. unfold ret at 1.
    unfold bind at 1. rewrite Hf.
    destruct Hfix; subst f; reflexivity.
  - intros loc c' H. unfold gnss_location in H.
    step H. step H. destruct a0 as [m|].
    + step H. apply lift_ok in E1. destruct E1 as [Efix _].
      destruct (z_in a0 [GNSS_LOCATION_FIX_INVALID_FIX; GNSS_LOCATION_FIX_NO_FIX])
        eqn:Hz; [discriminate H|].
      apply gnss_location_parse_fix in H. destruct H as [n [Hn Hg]].
      rewrite Efix in Hn. inversion Hn; subst n.
      unfold z_in in Hz. cbn [existsb] in Hz.
      unfold GNSS_LOCATION_FIX_INVALID_FIX, GNSS_LOCATION_FIX_NO_FIX in Hz.
      unfold GNSS_LOCATION_FIX_MAP, GNSS_LOCATION_FIX_INVALID_FIX,
        GNSS_LOCATION_FIX_NO_FIX, GNSS_LOCATION_FIX_2D_FIX,
        GNSS_LOCATION_FIX_3D_FIX in Hg.
      cbn [dict_get] in Hg.
      rewrite !orb_false_iff in Hz. destruct Hz as [H0 [H1 _]].
      rewrite (Z.eqb_sym 0 a0), H0, (Z.eqb_sym 1 a0), H1 in Hg.
      destruct (2 =? a0); [inversion Hg; auto|].
      destruct (3 =? a0); [inversion Hg; auto|discriminate].
    + unfold bind, log, raise in H. discriminate H.
Qed.

(** A run of C5: the no-fix response, whose other fields are all empty. *)
Lemma gnss_location_no_fix_witness :
  execute_cmd "AT$GPSACP" (fresh ["$GPSACP: ,,,,,1,,,,,,"; "OK"])
  = (Ok (Some (Outcome None (Some (Line "$GPSACP: ,,,,,1,,,,,,")))),
     snd (execute_cmd "AT$GPSACP" (fresh ["$GPSACP: ,,,,,1,,,,,,"; "OK"])))
  /\ rmatch GPSACP_regex "$GPSACP: ,,,,,1,,,,,," = Some (MatchObj [("fix", "1")] 21)
  /\ fst (gnss_location true (fresh ["$GPSACP: ,,,,,1,,,,,,"; "OK"]))
     = Raise Py.NoFixException.
Proof.
  assert (E : execute_cmd "AT$GPSACP" (fresh ["$GPSACP: ,,,,,1,,,,,,"; "OK"])
              = (Ok (Some (Outcome None (Some (Line "$GPSACP: ,,,,,1,,,,,,")))),
                 snd (execute_cmd "AT$GPSACP" (fresh ["$GPSACP: ,,,,,1,,,,,,"; "OK"]))))
    by reflexivity.
  assert (Hm : rmatch GPSACP_regex "$GPSACP: ,,,,,1,,,,,,"
               = Some (MatchObj [("fix", "1")] 21)) by reflexivity.
  split; [exact E|]. split; [exact Hm|].
  rewrite (proj1 (gnss_location_no_fix true _) _ _ _ _ "1" E eq_refl Hm eq_refl
             (or_intror eq_refl)).
  reflexivity.
Defined.

(** C6, as the code has it.  On the response line
    [$GPSACP: 093446.000,5702.1608N,00956.1064E,1.4,-30.6,3,0.0,0.0,0.0,140622,04,04]
    [gnss_location] returns the fix [3D], the date [2022-06-14], the time
    [09:34:46] and four satellites of each kind.  Without decimal degrees
    the latitude and longitude are the matched texts; with decimal degrees
    the latitude is the binary64 sum of 57 and 2.1608/60, which lies
    between 57.036013 and 57.036014. *)
Theorem gnss_location_example :
  let line :=
    "$GPSACP: 093446.000,5702.1608N,00956.1064E,1.4,-30.6,3,0.0,0.0,0.0,140622,04,04" in
  (exists loc,
      fst (gnss_location false (fresh [line; "OK"])) = Ok loc
      /\ fix_ loc = "3D" /\ date_utc loc = "2022-06-14" /\ time_utc loc = "09:34:46"
      /\ nsat_gps loc = 4 /\ nsat_glonass loc = 4
      /\ lat loc = Encoded (Some "5702.1608N")
      /\ lon loc = Encoded (Some "00956.1064E"))
  /\ (exists loc deg mins,
         fst (gnss_location true (fresh [line; "OK"])) = Ok loc
         /\ fix_ loc = "3D" /\ date_utc loc = "2022-06-14" /\ time_utc loc = "09:34:46"
         /\ nsat_gps loc = 4 /\ nsat_glonass loc = 4
         /\ Py.float_of_string "57" = Some deg
         /\ Py.float_of_string "02.1608" = Some mins
         /\ lat loc = Decimal (Py.fadd deg (Py.fdiv mins (Py.float_of_Z 60)))
         /\ Py.float_between 57036013 57036014 1000000
              (Py.fadd deg (Py.fdiv mins (Py.float_of_Z 60))) = true).
Proof.
  intros line. split.
  - eexists. split; [vm_compute; reflexivity|].
    repeat split.
  - do 3 eexists. split; [vm_compute; reflexivity|].
    split; [reflexivity|]. split; [reflexivity|]. split; [reflexivity|].
    split; [reflexivity|]. split; [reflexivity|].
    split; [vm_compute; reflexivity|]. split; [vm_compute; reflexivity|].
    split; vm_compute; reflexivity.
Qed.

(** C6 as stated fails: the data quoted in the claim lacks the [$GPSACP: ]
    the pattern starts with, so the call fails and nothing is decoded. *)
Lemma gnss_location_needs_prefix :
  let data :=
    "093446.000,5702.1608N,00956.1064E,1.4,-30.6,3,0.0,0.0,0.0,140622,04,04" in
  rmatch GPSACP_regex data = None
  /\ fst (gnss_location true (fresh [data; "OK"]))
     = Raise (Py.InvalidResponseException "Didn't receive expected response")
  /\ fst (gnss_location false (fresh [data; "OK"]))
     = Raise (Py.InvalidResponseException "Didn't receive expected response")
  /\ ~ (exists loc, fst (gnss_location true (fresh [data; "OK"])) = Ok loc).
Proof.
  intros data. split; [reflexivity|]. split; [reflexivity|]. split; [reflexivity|].
  intros [loc H]. vm_compute in H. discriminate H.
Qed.

(** *** Boolean flags *)

Lemma in_range_01 c : in_range "0" "1" c = true -> c = "0"%char \/ c = "1"%char.
Proof.
  destruct c as [[] [] [] [] [] [] [] []]; vm_compute; intros H;
    try discriminate H; auto.
Qed.

Lemma substring_0_0 s : substring 0 0 s = EmptyString.
Proof. destruct s; reflexivity. Qed.

(** Runs a pattern without repetition on an unknown input, one character at
    a time: the hypothesis [H] says the match succeeded. *)
Ltac chew H :=
  repeat (cbn -[Ascii.eqb in_range] in H;
          match type of H with
          | context [match ?s with EmptyString => _ | String _ _ => _ end] =>
              is_var s; destruct s as [|? s]; [discriminate H|]
          | context [if Ascii.eqb ?a ?b then _ else _] =>
              destruct (Ascii.eqb_spec a b); [subst|discriminate H]
          | context [if in_range ?lo ?hi ?c then _ else _] =>
              let E := fresh "Hr" in
              destruct (in_range lo hi c) eqn:E; [|discriminate H]
          end).

Lemma GPSP_match s m :
  rmatch GPSP_regex s = Some m ->
  exists c, in_range "0" "1" c = true
            /\ group m "status" = Some (String c EmptyString).
Proof.
  unfold rmatch, GPSP_regex. intros H. chew H.
  rewrite substring_0_0 in H. inversion H; subst. eexists. split; [eassumption|].
  reflexivity.
Qed.

Lemma GPSNMUN_match s m :
  rmatch GPSNMUN_regex s = Some m ->
  forall name, In name ["gga"; "gll"; "gsa"; "gsv"; "rmc"; "vtg"] ->
  exists c, in_range "0" "1" c = true
            /\ group m name = Some (String c EmptyString).
Proof.
  unfold rmatch, GPSNMUN_regex. intros H. chew H.
  rewrite !substring_0_0 in H. inversion H; subst.
  intros name Hin. simpl in Hin.
  repeat (destruct Hin as [Hin|Hin];
          [subst name; eexists; split; cycle 1; [reflexivity|assumption]|]).
  contradiction.
Qed.

Lemma flag_of_ok m name c b c' :
  flag_of m name c = (Ok b, c') ->
  exists text n, group m name = Some text
                 /\ Py.int_of_string text = Some n /\ b = Py.bool_of_int n.
Proof.
  unfold flag_of, bind. intros H.
  destruct (lift (Py.int_of (group m name)) c) as [[n|e] c1] eqn:E;
    [|discriminate H].
  apply lift_ok in E. destruct E as [E _]. unfold ret in H. inversion H; subst.
  unfold Py.int_of in E. destruct (group m name) as [text|]; [|discriminate E].
  destruct (Py.int_of_string text) as [n0|] eqn:En; [|discriminate E].
  inversion E; subst. eauto.
Qed.

Lemma flag_of_decoded m name c b c' :
  (exists ch, in_range "0" "1" ch = true
              /\ group m name = Some (String ch EmptyString)) ->
  flag_of m name c = (Ok b, c') ->
  flag_decoded m name b.
Proof.
  intros [ch [Hr Hg]] H. apply flag_of_ok in H.
  destruct H as [text [n [Hg' [Hn Hb]]]].
  rewrite Hg in Hg'. inversion Hg'; subst text.
  exists (String ch EmptyString), n. repeat split; try assumption.
  destruct (in_range_01 _ Hr) as [-> | ->]; vm_compute in Hn; inversion Hn;
    subst n b; [left|right]; split; reflexivity.
Qed.

Lemma match_data_some r res c m c' :
  match_data r res c = (Ok (Some m), c') ->
  rmatch r EmptyString = None ->
  exists o s, res = Some o /\ o_data o = Some (Line s) /\ rmatch r s = Some m.
Proof.
  unfold match_data. intros H Hempty.
  destruct res as [o|]; [|discriminate H].
  destruct (o_data o) as [[s|l]|] eqn:Hd; unfold ret, raise in H.
  - inversion H. eauto.
  - discriminate H.
  - inversion H. congruence.
Qed.

Lemma nmea_decode_flags s m c cfg c' :
  rmatch GPSNMUN_regex s = Some m ->
  nmea_decode m c = (Ok cfg, c') ->
  flag_decoded m "gga" (gga cfg) /\ flag_decoded m "gll" (gll cfg)
  /\ flag_decoded m "gsa" (gsa cfg) /\ flag_decoded m "gsv" (gsv cfg)
  /\ flag_decoded m "rmc" (rmc cfg) /\ flag_decoded m "vtg" (vtg cfg).
Proof.
  intros Hm H. pose proof (GPSNMUN_match _ Hm) as Hg.
  unfold nmea_decode in H. do 8 step H.
  unfold ret in H. inversion H; subst; simpl.
  repeat split;
    (eapply flag_of_decoded; [apply Hg; simpl; tauto|eassumption]).
Qed.

(** C9.  The session status returned by the getter [gnss_session] and each
    of the six flags returned by the getter [gnss_nmea_data_config] is
    [bool(int(text))] for the text of its field in the response, and that
    text is [0], giving false, or [1], giving true. *)
Theorem flags_decoded_through_int (c : conn) :
  (forall a1 a2 a3 a4 a5 a6 force cfg c',
      gnss_nmea_data_config Py.VNone a1 a2 a3 a4 a5 a6 force c = (Ok cfg, c') ->
      exists o c1 s m,
        execute_cmd "AT$GPSNMUN?" c = (Ok (Some o), c1)
        /\ o_data o = Some (Line s)
        /\ rmatch GPSNMUN_regex s = Some m
        /\ flag_decoded m "gga" (gga cfg) /\ flag_decoded m "gll" (gll cfg)
        /\ flag_decoded m "gsa" (gsa cfg) /\ flag_decoded m "gsv" (gsv cfg)
        /\ flag_decoded m "rmc" (rmc cfg) /\ flag_decoded m "vtg" (vtg cfg))
  /\ (forall force status c',
         gnss_session Py.VNone force c = (Ok status, c') ->
         exists o c1 s m,
           execute_cmd "AT$GPSP?" c = (Ok (Some o), c1)
           /\ o_data o = Some (Line s)
           /\ rmatch GPSP_regex s = Some m
           /\ flag_decoded m "status" status).
Proof.
  split.
  - intros a1 a2 a3 a4 a5 a6 force cfg c' H.
    unfold gnss_nmea_data_config in H. step H. step H.
    destruct a0 as [m|]; [|unfold bind, log, raise in H; discriminate H].
    step H. unfold ret in H. inversion H; subst.
    apply match_data_some in E0; [|reflexivity].
    destruct E0 as [o [s [-> [Hd Hm]]]].
    exists o, c0, s, m. split; [reflexivity|]. split; [assumption|].
    split; [assumption|]. eapply nmea_decode_flags; eassumption.
  - intros force status c' H.
    unfold gnss_session in H. step H. step H.
    destruct a0 as [m|]; [|unfold bind, log, raise in H; discriminate H].
    step H. unfold ret in H. inversion H; subst.
    apply match_data_some in E0; [|reflexivity].
    destruct E0 as [o [s [-> [Hd Hm]]]].
    exists o, c0, s, m. split; [reflexivity|]. split; [assumption|].
    split; [assumption|].
    eapply flag_of_decoded; [exact (GPSP_match _ Hm)|eassumption].
Qed.

(** A run of C9: flags [0] and [1] in one response, and a session status
    of [0]. *)
Lemma flags_decoded_through_int_witness :
  gnss_nmea_data_config Py.VNone Py.VNone Py.VNone Py.VNone Py.VNone Py.VNone
    Py.VNone false (fresh ["$GPSNMUN: 2,0,1,0,1,0,1"; "OK"])
  = (Ok (NmeaConfig "second_format" false true false true false true),
     snd (execute_cmd "AT$GPSNMUN?" (fresh ["$GPSNMUN: 2,0,1,0,1,0,1"; "OK"])))
  /\ gnss_session Py.VNone false (fresh ["$GPSP: 0"; "OK"])
     = (Ok false, snd (execute_cmd "AT$GPSP?" (fresh ["$GPSP: 0"; "OK"])))
  /\ (exists m, flag_decoded m "gga" false /\ flag_decoded m "gll" true)
  /\ (exists m, flag_decoded m "status" false).
Proof.
  assert (H1 : gnss_nmea_data_config Py.VNone Py.VNone Py.VNone Py.VNone Py.VNone
                 Py.VNone Py.VNone false (fresh ["$GPSNMUN: 2,0,1,0,1,0,1"; "OK"])
               = (Ok (NmeaConfig "second_format" false true false true false true),
                  snd (execute_cmd "AT$GPSNMUN?"
                         (fresh ["$GPSNMUN: 2,0,1,0,1,0,1"; "OK"]))))
    by reflexivity.
  assert (H2 : gnss_session Py.VNone false (fresh ["$GPSP: 0"; "OK"])
               = (Ok false, snd (execute_cmd "AT$GPSP?" (fresh ["$GPSP: 0"; "OK"]))))
    by reflexivity.
  split; [exact H1|]. split; [exact H2|]. split.
  - destruct (proj1 (flags_decoded_through_int _) _ _ _ _ _ _ _ _ _ H1)
      as [o [c1 [s [m [_ [_ [_ [Ha [Hb _]]]]]]]]].
    exists m. split; assumption.
  - destruct (proj2 (flags_decoded_through_int _) _ _ _ H2)
      as [o [c1 [s [m [_ [_ [_ Ha]]]]]]].
    exists m. exact Ha.
Defined.

(** *** SMS listing *)

Lemma decode_sms_entries_in entries :
  forall msgs msg,
    decode_sms_entries entries = inr msgs ->
    In msg msgs ->
    exists meta body, In meta entries /\ decode_sms meta body = inr msg.
Proof.
  assert (Hn : forall n es, (List.length es <= n)%nat ->
               forall msgs msg,
                 decode_sms_entries es = inr msgs ->
                 In msg msgs ->
                 exists meta body,
                   In meta es /\ decode_sms meta body = inr msg).
  { induction n as [|n IH]; intros es Hlen msgs msg H Hin;
      destruct es as [|meta [|body rest]]; simpl in H, Hlen;
      try (inversion H; subst; contradiction); try discriminate H; try lia.
    destruct (decode_sms meta body) as [e|m1] eqn:E; [discriminate H|].
    destruct (decode_sms_entries rest) as [e|ms] eqn:Er; [discriminate H|].
    inversion H; subst. destruct Hin as [Hin|Hin].
    - subst. exists meta, body. split; [left; reflexivity|assumption].
    - destruct (IH rest) with (msgs := ms) (msg := msg) as [meta' [body' [Hi Hd]]];
        [lia|assumption|assumption|].
      exists meta', body'. split; [right; right; assumption|assumption]. }
  intros msgs msg. eapply Hn. apply le_n.
Qed.

(** The restoration never fails: a failure of [sms_format] is logged. *)
Lemma sms_list_restore_eq prev c :
  sms_list_restore prev c
  = match sms_format prev false c with
    | (Ok _, c') => (Ok tt, c')
    | (Raise _, c') =>
        (Ok tt, add_log EXCEPTION "Failed to restore SMS format mode" c')
    end.
Proof.
  unfold sms_list_restore, try_except, bind.
  destruct (sms_format prev false c) as [[v|e] c']; reflexivity.
Qed.

(** A pair that fails to decode makes the whole list fail. *)
Lemma decode_sms_entries_cons meta body rest :
  decode_sms_entries (meta :: body :: rest)
  = match decode_sms meta body with
    | inl e => inl e
    | inr msg =>
        match decode_sms_entries rest with
        | inl e => inl e
        | inr msgs => inr (msg :: msgs)
        end
    end.
Proof. reflexivity. Qed.

(** Every message [sms_list] returns was decoded from a metadata line of
    the listing. *)
Lemma sms_list_messages_decoded status clear format_mode c msgs c' msg :
  sms_list status clear format_mode c = (Ok msgs, c') ->
  In msg msgs ->
  exists meta body, decode_sms meta body = inr msg.
Proof.
  unfold sms_list. intros H Hin. step H. step H.
  unfold try_finally in H.
  destruct (sms_list_body status c1) as [[ms|e] c2] eqn:Eb.
  - rewrite sms_list_restore_eq in H.
    assert (ms = msgs)
      by (destruct (sms_format a false c2) as [[?|?] ?]; inversion H; reflexivity).
    subst ms. unfold sms_list_body in Eb. step Eb. step Eb.
    apply lift_ok in Eb. destruct Eb as [Eb _].
    destruct (decode_sms_entries_in _ _ Eb Hin) as [meta [body [_ Hd]]].
    eauto.
  - rewrite sms_list_restore_eq in H.
    destruct (sms_format a false c2) as [[?|?] ?]; discriminate H.
Qed.

(** C7.  For a metadata line whose fields unpack into [index], [status],
    [sender], one more, [date] and [time]: a message is decoded only when
    the last two characters of [time] read as an integer offset and [date]
    and the rest of [time] parse as a local date and time, and its
    timestamp is that local time minus 15 x offset minutes when the
    character before the offset is [+], plus 15 x offset minutes when it is
    [-] (the instant moves by exactly that many seconds); any other sign
    makes the decoding fail.  The date [21/11/16] with
    the time [14:10:00+04] gives [2021-11-16T13:10:00]. *)
Theorem sms_timestamp_utc meta body index status sender other date time :
  sms_fields meta = [index; status; sender; other; date; time] ->
  let sign := Py.slice (Some (-3)) (Some (-2)) time in
  (forall msg,
      decode_sms meta body = inr msg ->
      exists offset local utc,
        Py.int_of_string (Py.slice (Some (-2)) None time) = Some offset
        /\ Dt.strptime (date ++ "T" ++ Py.slice None (Some (-3)) time) = Some local
        /\ ((sign = "+" /\ Dt.sub_minutes local (15 * offset) = Some utc
             /\ Dt.to_seconds utc = Dt.to_seconds local - 60 * (15 * offset))
            \/ (sign = "-" /\ Dt.add_minutes local (15 * offset) = Some utc
                /\ Dt.to_seconds utc = Dt.to_seconds local + 60 * (15 * offset)))
        /\ sms_timestamp msg = Dt.isoformat utc)
  /\ (sign <> "+" -> sign <> "-" -> exists e, decode_sms meta body = inl e)
  /\ (date = "21/11/16" -> time = "14:10:00+04" ->
      forall msg, decode_sms meta body = inr msg ->
                  sms_timestamp msg = "2021-11-16T13:10:00").
Proof.
  intros Hf sign.
  assert (Hgen : forall msg,
      decode_sms meta body = inr msg ->
      exists offset local utc,
        Py.int_of_string (Py.slice (Some (-2)) None time) = Some offset
        /\ Dt.strptime (date ++ "T" ++ Py.slice None (Some (-3)) time) = Some local
        /\ ((sign = "+" /\ Dt.sub_minutes local (15 * offset) = Some utc
             /\ Dt.to_seconds utc = Dt.to_seconds local - 60 * (15 * offset))
            \/ (sign = "-" /\ Dt.add_minutes local (15 * offset) = Some utc
                /\ Dt.to_seconds utc = Dt.to_seconds local + 60 * (15 * offset)))
        /\ sms_timestamp msg = Dt.isoformat utc).
  { intros msg H. unfold decode_sms in H. rewrite Hf in H.
    unfold Py.int_of at 1 in H.
    destruct (Py.int_of_string (Py.slice (Some (-2)) None time)) as [offset|];
      [|discriminate H].
    destruct (Dt.strptime (date ++ "T" ++ Py.slice None (Some (-3)) time))
      as [local|]; [|discriminate H].
    fold sign in H.
    destruct (String.eqb_spec sign "+") as [Hp|Hp].
    - destruct (Dt.sub_minutes local (15 * offset)) as [utc|] eqn:Eu;
        [|discriminate H].
      destruct (Py.int_of (Some index)) as [e|i]; [discriminate H|].
      inversion H; subst msg. exists offset, local, utc. cbn [sms_timestamp].
      pose proof (add_seconds_spec _ _ Eu) as Hs.
      split; [reflexivity|]. split; [reflexivity|]. split; [|reflexivity].
      left. split; [assumption|]. split; [exact Eu|lia].
    - destruct (String.eqb_spec sign "-") as [Hm|Hm]; [|discriminate H].
      destruct (Dt.add_minutes local (15 * offset)) as [utc|] eqn:Eu;
        [|discriminate H].
      destruct (Py.int_of (Some index)) as [e|i]; [discriminate H|].
      inversion H; subst msg. exists offset, local, utc. cbn [sms_timestamp].
      pose proof (add_seconds_spec _ _ Eu) as Hs.
      split; [reflexivity|]. split; [reflexivity|]. split; [|reflexivity].
      right. split; [assumption|]. split; [exact Eu|lia]. }
  split; [exact Hgen|]. split.
  - intros Hp Hm. unfold decode_sms. rewrite Hf.
    destruct (Py.int_of (Some (Py.slice (Some (-2)) None time))) as [e|offset];
      [eauto|].
    destruct (Dt.strptime (date ++ "T" ++ Py.slice None (Some (-3)) time))
      as [local|]; [|eauto].
    fold sign.
    destruct (String.eqb_spec sign "+") as [Hp'|_]; [contradiction|].
    destruct (String.eqb_spec sign "-") as [Hm'|_]; [contradiction|].
    eauto.
  - intros Hd Ht msg H. destruct (Hgen msg H) as [offset [local [utc [Ho [Hl [Hs Hts]]]]]].
    subst date time. vm_compute in Ho. inversion Ho; subst offset.
    vm_compute in Hl. inversion Hl; subst local.
    rewrite Hts. destruct Hs as [[_ [Hs _]]|[Hs _]].
    + vm_compute in Hs. inversion Hs; subst utc. reflexivity.
    + vm_compute in Hs. discriminate Hs.
Qed.

(** A run of C7 on a metadata line as the modem sends it. *)
Lemma sms_timestamp_utc_witness :
  sms_fields example_meta
  = ["1"; "REC READ"; "+4512345678"; EmptyString; "21/11/16"; "14:10:00+04"]
  /\ decode_sms example_meta "hello"
     = inr (SmsMessage 1 "REC READ" "+4512345678" "2021-11-16T13:10:00" "hello")
  /\ sms_timestamp (SmsMessage 1 "REC READ" "+4512345678" "2021-11-16T13:10:00" "hello")
     = "2021-11-16T13:10:00".
Proof.
  assert (Hf : sms_fields example_meta
               = ["1"; "REC READ"; "+4512345678"; EmptyString; "21/11/16";
                  "14:10:00+04"]) by reflexivity.
  assert (Hd : decode_sms example_meta "hello"
               = inr (SmsMessage 1 "REC READ" "+4512345678" "2021-11-16T13:10:00"
                                 "hello")) by (vm_compute; reflexivity).
  split; [exact Hf|]. split; [exact Hd|].
  exact (proj2 (proj2 (sms_timestamp_utc example_meta "hello" Hf))
               eq_refl eq_refl _ Hd).
Defined.

Lemma CMGF_match s m :
  rmatch CMGF_regex s = Some m ->
  exists ch, in_range "0" "1" ch = true
             /\ group m "mode" = Some (String ch EmptyString).
Proof.
  unfold rmatch, CMGF_regex. intros H. chew H.
  rewrite substring_0_0 in H. inversion H; subst. eexists. split; [eassumption|].
  reflexivity.
Qed.

Lemma read_sms_format_mode_domain res c v c' :
  read_sms_format_mode res c = (Ok v, c') ->
  v = Py.VStr "PUD" \/ v = Py.VStr "TXT".
Proof.
  unfold read_sms_format_mode. intros H. step H. step H. step H.
  unfold ret in H. inversion H; subst.
  destruct a as [m|]; [|discriminate E0].
  apply match_data_some in E; [|reflexivity].
  destruct E as [o [s [_ [_ Hm]]]].
  destruct (CMGF_match _ Hm) as [ch [Hr Hg]].
  unfold group_of, ret in E0. inversion E0; subst a0.
  rewrite Hg in E1. apply lift_ok in E1. destruct E1 as [E1 _].
  destruct (in_range_01 _ Hr) as [-> | ->]; vm_compute in E1; inversion E1; subst;
    [left|right]; reflexivity.
Qed.

(** What [sms_format()] reads is [PUD] or [TXT]. *)
Lemma sms_format_read_domain c v c1 :
  sms_format Py.VNone false c = (Ok v, c1) ->
  exists p, v = Py.VStr p /\ str_in p (values SMS_FORMAT_MODES) = true
            /\ Py.upper p = p.
Proof.
  unfold sms_format. cbn [negb]. intros H. step H.
  unfold ret in H. inversion H; subst a c0.
  unfold bind in E.
  destruct (execute_cmd "AT+CMGF?" c) as [[res|e] c0]; [|discriminate E].
  destruct (read_sms_format_mode_domain _ _ E) as [-> | ->];
    [exists "PUD"|exists "TXT"]; repeat split; reflexivity.
Qed.

(** The write of [sms_format]: a mode of the table that is not the one
    read is written with its code. *)
Lemma sms_format_switch c v c1 p :
  sms_format Py.VNone false c = (Ok v, c1) ->
  str_in p (values SMS_FORMAT_MODES) = true ->
  v <> Py.VStr p ->
  exists n,
    dict_get SMS_FORMAT_MODES n = Some p
    /\ sms_format (Py.VStr p) false c
       = (match fst (execute_cmd ("AT+CMGF=" ++ Py.format_d n) c1) with
          | Ok _ => Ok (Py.VStr p)
          | Raise e => Raise e
          end,
          snd (execute_cmd ("AT+CMGF=" ++ Py.format_d n) c1))
    /\ tx (snd (sms_format (Py.VStr p) false c))
       = (tx c ++ ["AT+CMGF?"; ("AT+CMGF=" ++ Py.format_d n)%string])%list.
Proof.
  intros H Hin Hne.
  assert (Hc : negb (Py.value_eqb (Py.VStr p) v) = true).
  { destruct v as [|x|x|x]; try reflexivity. simpl.
    destruct (String.eqb_spec p x); [subst; contradiction|reflexivity]. }
  assert (Hk : exists n, dict_get SMS_FORMAT_MODES n = Some p
                         /\ dict_key_by_value SMS_FORMAT_MODES p = ret n
                         /\ Py.upper p = p).
  { destruct (str_in_sms_modes _ Hin) as [Hm|Hm]; rewrite Hm;
      [exists 0|exists 1]; repeat split; reflexivity. }
  destruct Hk as [n [Hg [Hk Hu]]]. exists n. split; [exact Hg|].
  assert (Hboth : sms_format (Py.VStr p) false c
                  = (match fst (execute_cmd ("AT+CMGF=" ++ Py.format_d n) c1) with
                     | Ok _ => Ok (Py.VStr p)
                     | Raise e => Raise e
                     end,
                     snd (execute_cmd ("AT+CMGF=" ++ Py.format_d n) c1))
                  /\ tx c1 = (tx c ++ ["AT+CMGF?"])%list).
  { unfold sms_format in H |- *. cbn [negb] in *.
    step H. unfold bind at 1. rewrite E.
    unfold ret in H. inversion H; subst a c0. cbv zeta. rewrite Hu, Hin.
    cbn [negb orb]. rewrite Hc, Hk.
    unfold bind at 1. unfold ret at 1. split.
    - unfold bind.
      destruct (execute_cmd ("AT+CMGF=" ++ Py.format_d n) c1) as [[x|e] cw];
        reflexivity.
    - unfold bind in E.
      destruct (execute_cmd "AT+CMGF?" c) as [[res|e] c0] eqn:Ex;
        [|discriminate E].
      apply pure_eq in E; [|apply pure_read_sms_format_mode]. subst.
      eapply execute_cmd_tx; eassumption. }
  destruct Hboth as [Heq Htx].
  split; [exact Heq|]. rewrite Heq. cbn [snd].
  rewrite execute_cmd_writes, Htx, <- app_assoc. reflexivity.
Qed.

(** C8.  An [sms_list] call that has read the format mode [prev] and got
    past the switch to the mode asked for restores [prev] on the way out,
    whether the listing returned or raised: [sms_format(mode=prev)] is run
    from the connection the listing leaves, and what the listing gave - a
    list of messages or an exception - is what the call gives.  The
    restoration reads the mode again; when the modem then reports another
    mode than [prev], it writes [prev] back with [AT+CMGF=] and the code
    of [prev], and when the modem reports [prev] it writes nothing more.
    When the restoration fails, the failure is logged and goes no
    further.  The switch itself stands before the [try] block: when it
    fails, the call fails with it and nothing is restored. *)
Theorem sms_list_restores status clear format_mode c prev c1 :
  sms_format Py.VNone false c = (Ok prev, c1) ->
  (forall c2 r c3,
      (if negb (Py.value_eqb prev format_mode)
       then sms_format format_mode false ;; ret tt
       else ret tt) c1 = (Ok tt, c2) ->
      sms_list_body status c2 = (r, c3) ->
      exists rr c4,
        sms_format prev false c3 = (rr, c4)
        /\ sms_list status clear format_mode c
           = (r, match rr with
                 | Ok _ => c4
                 | Raise _ => add_log EXCEPTION "Failed to restore SMS format mode" c4
                 end)
        /\ (forall cur c5,
               sms_format Py.VNone false c3 = (Ok cur, c5) ->
               cur <> prev ->
               exists p n,
                 prev = Py.VStr p
                 /\ dict_get SMS_FORMAT_MODES n = Some p
                 /\ tx c4 = (tx c3 ++ ["AT+CMGF?";
                                       ("AT+CMGF=" ++ Py.format_d n)%string])%list)
        /\ (forall c5,
               sms_format Py.VNone false c3 = (Ok prev, c5) ->
               rr = Ok prev /\ tx c4 = (tx c3 ++ ["AT+CMGF?"])%list))
  /\ (forall e c2,
         (if negb (Py.value_eqb prev format_mode)
          then sms_format format_mode false ;; ret tt
          else ret tt) c1 = (Raise e, c2) ->
         sms_list status clear format_mode c = (Raise e, c2)).
Proof.
  intros H1.
  destruct (sms_format_read_domain _ H1) as [p [Hp [Hin Hup]]].
  split.
  - intros c2 r c3 H2 H3.
    destruct (sms_format prev false c3) as [rr c4] eqn:E4.
    exists rr, c4. split; [reflexivity|]. split.
    { unfold sms_list. unfold bind at 1. rewrite H1.
      unfold bind at 1. rewrite H2.
      unfold try_finally. rewrite H3, sms_list_restore_eq, E4.
      destruct rr; reflexivity. }
    split.
    + intros cur c5 H5 Hne. exists p.
      subst prev.
      destruct (@sms_format_switch _ _ _ p H5 Hin Hne) as [n [Hg [_ Ht]]].
      exists n. split; [reflexivity|]. split; [exact Hg|].
      rewrite E4 in Ht. exact Ht.
    + intros c5 H5. subst prev.
      destruct (@sms_format_noop _ p _ _ H5 Hup) as [Hn Ht].
      rewrite Hn in E4. inversion E4; subst rr c4. split; [reflexivity|exact Ht].
  - intros e c2 H2.
    unfold sms_list. unfold bind at 1. rewrite H1.
    unfold bind at 1. rewrite H2. reflexivity.
Qed.

(** A run of C8.  The modem is in [PUD] and the listing is asked in [TXT]:
    the mode is switched, the listing fails (the modem lists no message,
    so there is no data), and on the way out the mode is read, found to be
    [TXT], and [PUD] is written back; the caller sees the failure of the
    listing. *)
Lemma sms_list_restores_witness :
  let c := fresh ["+CMGF: 0"; "OK"; "+CMGF: 0"; "OK"; "OK"; "OK";
                  "+CMGF: 1"; "OK"; "OK"] in
  fst (sms_list "ALL" false (Py.VStr "TXT") c) = Raise (Py.KeyError "data")
  /\ tx (snd (sms_list "ALL" false (Py.VStr "TXT") c))
     = ["AT+CMGF?"; "AT+CMGF?"; "AT+CMGF=1";
        ("AT+CMGL=" ++ String "034" ("ALL" ++ String "034" EmptyString))%string;
        "AT+CMGF?"; "AT+CMGF=0"].
Proof.
  intros c.
  set (c1 := snd (sms_format Py.VNone false c)).
  set (c2 := snd (sms_format (Py.VStr "TXT") false c1)).
  set (c3 := snd (sms_list_body "ALL" c2)).
  assert (H1 : sms_format Py.VNone false c = (Ok (Py.VStr "PUD"), c1)) by reflexivity.
  assert (H2 : (if negb (Py.value_eqb (Py.VStr "PUD") (Py.VStr "TXT"))
                then sms_format (Py.VStr "TXT") false ;; ret tt
                else ret tt) c1 = (Ok tt, c2)) by reflexivity.
  assert (H3 : sms_list_body "ALL" c2 = (Raise (Py.KeyError "data"), c3))
    by reflexivity.
  assert (H5 : sms_format Py.VNone false c3
               = (Ok (Py.VStr "TXT"), snd (sms_format Py.VNone false c3)))
    by reflexivity.
  assert (Hne : Py.VStr "TXT" <> Py.VStr "PUD") by discriminate.
  destruct (proj1 (@sms_list_restores "ALL" false (Py.VStr "TXT") c _ _ H1)
                  c2 _ c3 H2 H3) as [rr [c4 [_ [Hl [Hw _]]]]].
  destruct (Hw _ _ H5 Hne) as [p [n [Hp [Hg Ht]]]].
  rewrite Hl. split; [reflexivity|].
  assert (Hn : n = 0).
  { inversion Hp; subst p.
    unfold SMS_FORMAT_MODES, SMS_FORMAT_MODE_PUD, SMS_FORMAT_MODE_TEXT in Hg.
    cbn [dict_get] in Hg.
    destruct (Z.eqb_spec 0 n) as [E0|E0]; [symmetry; exact E0|].
    destruct (Z.eqb_spec 1 n); discriminate Hg. }
  subst n. cbn [snd].
  replace (tx match rr with
              | Ok _ => c4
              | Raise _ => add_log EXCEPTION "Failed to restore SMS format mode" c4
              end) with (tx c4) by (destruct rr; reflexivity).
  rewrite Ht. reflexivity.
Defined.

(** C8 as stated fails for a call whose switch fails.  The modem is in
    [PUD]; [sms_list] sends [AT+CMGF=1] and the modem does not answer.  The
    call fails with the timeout, the switching command is the last line
    written, and no restoration was tried: nothing about one is in the
    log. *)
Lemma sms_list_switch_failure_no_restore :
  let c := fresh ["+CMGF: 0"; "OK"; "+CMGF: 0"; "OK"] in
  fst (sms_format Py.VNone false c) = Ok (Py.VStr "PUD")
  /\ fst (sms_list "ALL" false (Py.VStr "TXT") c) = Raise Py.SerialTimeout
  /\ tx (snd (sms_list "ALL" false (Py.VStr "TXT") c))
     = ["AT+CMGF?"; "AT+CMGF?"; "AT+CMGF=1"]
  /\ ~ In (EXCEPTION, "Failed to restore SMS format mode")
          (logged (snd (sms_list "ALL" false (Py.VStr "TXT") c))).
Proof.
  intros c. split; [reflexivity|]. split; [reflexivity|]. split; [reflexivity|].
  vm_compute. intros H.
  repeat (destruct H as [H|H]; [discriminate H|]). exact H.
Qed.

(* ===================================================================== *)
(** ** Further properties of the driver *)
(* ===================================================================== *)

(** *** [execute]: closing, cooldown, and the two error modes *)

(** The loop touches neither the port state nor the pauses. *)
Lemma scan_ready_words_frame ws :
  forall timeout res c x c',
    scan_ready_words ws timeout res c = (x, c') ->
    opened c' = opened c /\ slept c' = slept c.
Proof.
  induction ws as [|w ws IH]; intros timeout res c x c' H; simpl in H.
  - inversion H; auto.
  - unfold bind, read_until in H.
    destruct (scan w error_regex (rx c) []) as [o rest|o rest|].
    + destruct (has_error o).
      * inversion H; subst; auto.
      * apply IH in H. exact H.
    + destruct (has_error o).
      * inversion H; subst; auto.
      * apply IH in H. exact H.
    + inversion H; subst; auto.
Qed.

(** X1.  With [keep_conn=False], [execute] leaves the connection closed on
    every path - a returned outcome, a [CommandExecutionException], a
    failed read; with [keep_conn=True] it leaves the port as it found it. *)
Theorem execute_closes_connection cmd ws cooldown timeout raise_on_error c :
  opened (snd (execute cmd ws false cooldown timeout raise_on_error c)) = false
  /\ opened (snd (execute cmd ws true cooldown timeout raise_on_error c)) = opened c.
Proof.
  rewrite !execute_eq.
  destruct (scan_ready_words ws timeout None (after_write cmd c))
    as [[res|e] c1] eqn:E;
    apply scan_ready_words_frame in E; destruct E as [Ho _];
    unfold after_cooldown, after_exchange; destruct cooldown; simpl; auto.
Qed.

(** X2.  When the exchange itself goes through (the call without
    [raise_on_error] returns), [execute] pauses once for the cooldown
    delay, whether it then returns or raises for the error it read; when a
    read fails, it does not pause.  Without a delay it never pauses.  The
    delay is a number of seconds that is not negative, the only kind
    [time.sleep] accepts. *)
Theorem execute_cooldown cmd ws keep_conn timeout raise_on_error c d :
  (0 <= d ->
   forall res c1,
     execute cmd ws keep_conn (Some d) timeout false c = (Ok res, c1) ->
     slept (snd (execute cmd ws keep_conn (Some d) timeout raise_on_error c))
     = (slept c ++ [d])%list)
  /\ (0 <= d ->
      forall e c1,
        execute cmd ws keep_conn (Some d) timeout false c = (Raise e, c1) ->
        slept (snd (execute cmd ws keep_conn (Some d) timeout raise_on_error c))
        = slept c)
  /\ slept (snd (execute cmd ws keep_conn None timeout raise_on_error c)) = slept c.
Proof.
  rewrite !execute_eq.
  destruct (scan_ready_words ws timeout None (after_write cmd c))
    as [[res|e] c1] eqn:E;
    apply scan_ready_words_frame in E; destruct E as [_ Hs];
    (split; [|split]); try (intros _ ? ? H; simpl in H; try discriminate H);
    unfold after_cooldown, after_exchange; destruct keep_conn; simpl;
    rewrite ?Hs; reflexivity.
Qed.

(** A run of X2: the modem reports an error, the call raises, and the pause
    of five seconds has been taken. *)
Lemma execute_cooldown_witness :
  fst (execute "AT" ["OK"] true (Some 5) None false (fresh ["ERROR"]))
  = Ok (Some (Outcome (Some (ErrorInfo "generic" None)) None))
  /\ fst (execute "AT" ["OK"] true (Some 5) None true (fresh ["ERROR"]))
     = Raise (Py.CommandExecutionException "AT" "generic" EmptyString)
  /\ slept (snd (execute "AT" ["OK"] true (Some 5) None true (fresh ["ERROR"]))) = [5]
  /\ fst (execute "AT" ["OK"] true (Some 5) None false (fresh ["x"]))
     = Raise Py.SerialTimeout
  /\ slept (snd (execute "AT" ["OK"] true (Some 5) None true (fresh ["x"]))) = [].
Proof.
  assert (H5 : 0 <= 5) by lia.
  split; [reflexivity|]. split; [reflexivity|]. split.
  - exact (proj1 (execute_cooldown "AT" ["OK"] true None true (fresh ["ERROR"]) 5)
                 H5 _ _ eq_refl).
  - split; [reflexivity|].
    exact (proj1 (proj2 (execute_cooldown "AT" ["OK"] true None true (fresh ["x"]) 5))
                 H5 _ _ eq_refl).
Defined.

(** X3.  The two error modes of [execute] differ in the result alone.  From
    the same connection both leave the same connection; where the call
    without [raise_on_error] returns an outcome with an error, the call
    with it raises [CommandExecutionException] for that command, error
    type and reason; where it returns an outcome without error, so does
    the other; and an exception of the exchange is the same in both. *)
Theorem execute_raise_on_error cmd ws keep_conn cooldown timeout c :
  snd (execute cmd ws keep_conn cooldown timeout true c)
  = snd (execute cmd ws keep_conn cooldown timeout false c)
  /\ (forall o e,
         fst (execute cmd ws keep_conn cooldown timeout false c) = Ok (Some o) ->
         o_error o = Some e ->
         fst (execute cmd ws keep_conn cooldown timeout true c)
         = Raise (Py.CommandExecutionException cmd (e_type e)
                    (match e_reason e with Some x => x | None => EmptyString end)))
  /\ (forall o,
         fst (execute cmd ws keep_conn cooldown timeout false c) = Ok (Some o) ->
         o_error o = None ->
         fst (execute cmd ws keep_conn cooldown timeout true c) = Ok (Some o))
  /\ (forall e,
         fst (execute cmd ws keep_conn cooldown timeout false c) = Raise e ->
         fst (execute cmd ws keep_conn cooldown timeout true c) = Raise e)
  /\ (forall res,
         fst (execute cmd ws keep_conn cooldown timeout true c) = Ok res ->
         exists o, res = Some o /\ o_error o = None).
Proof.
  rewrite !execute_eq.
  destruct (scan_ready_words ws timeout None (after_write cmd c))
    as [[res|e] c1] eqn:E; simpl.
  - split; [reflexivity|]. split; [|split; [|split]].
    + intros o e H He. inversion H; subst. rewrite He. reflexivity.
    + intros o H He. inversion H; subst. rewrite He. reflexivity.
    + intros e H. discriminate H.
    + intros res0 H. destruct res as [o|]; [|discriminate H].
      destruct (o_error o) eqn:He; [discriminate H|].
      inversion H; subst. eauto.
  - split; [reflexivity|]. split; [|split; [|split]];
      intros; try discriminate; assumption.
Qed.

(** A run of X3 on a vendor error. *)
Lemma execute_raise_on_error_witness :
  fst (execute "AT+X" ["OK"] true None None false (fresh ["+CME ERROR: 3"]))
  = Ok (Some (Outcome (Some (ErrorInfo "CME" (Some "3"))) None))
  /\ fst (execute "AT+X" ["OK"] true None None true (fresh ["+CME ERROR: 3"]))
     = Raise (Py.CommandExecutionException "AT+X" "CME" "3").
Proof.
  split; [reflexivity|].
  exact (proj1 (proj2 (execute_raise_on_error "AT+X" ["OK"] true None None
                         (fresh ["+CME ERROR: 3"])))
               _ (ErrorInfo "CME" (Some "3")) eq_refl eq_refl).
Defined.

(** X4.  Whatever happens in the exchange - outcome, error, failed read -
    [execute] writes one line, its command. *)
Theorem execute_writes_command_once cmd ws keep_conn cooldown timeout raise_on_error c :
  tx (snd (execute cmd ws keep_conn cooldown timeout raise_on_error c))
  = (tx c ++ [cmd])%list.
Proof.
  destruct (execute cmd ws keep_conn cooldown timeout raise_on_error c) as [x c'] eqn:E.
  simpl. eapply execute_tx. eassumption.
Qed.

(** *** The accessors: validation and the write path *)

(** X5.  A desired value outside the domain of a setting is refused before
    any write.  After a successful read, [error_config] and
    [gnss_nmea_data_config] raise [ValueError] and [gnss_session] raises
    [TypeError], leaving the connection as the plain read leaves it;
    [sms_format] raises [ValueError] for a mode that is neither [PUD] nor
    [TXT] in any case, and with [force=True] has then written nothing. *)
Theorem accessors_validate_before_write (c : conn) :
  (forall v c1 mode force,
      error_config Py.VNone false c = (Ok v, c1) ->
      mode <> Py.VNone ->
      (forall s, mode = Py.VStr s -> str_in s (values ME_ERROR_MODE_MAP) = false) ->
      error_config mode force c
      = (Raise (Py.ValueError "'mode' argument needs to be one of {}"), c1))
  /\ (forall b c1 status force,
         gnss_session Py.VNone false c = (Ok b, c1) ->
         status <> Py.VNone ->
         (forall x, status <> Py.VBool x) ->
         gnss_session status force c
         = (Raise (Py.TypeError "'status' parameter needs to be of type 'bool'"), c1))
  /\ (forall cfg c1 mode a1 a2 a3 a4 a5 a6 force,
         gnss_nmea_data_config Py.VNone a1 a2 a3 a4 a5 a6 false c = (Ok cfg, c1) ->
         mode <> Py.VNone ->
         (forall s, mode = Py.VStr s -> str_in s (values NMEA_MODE_MAP) = false) ->
         gnss_nmea_data_config mode a1 a2 a3 a4 a5 a6 force c
         = (Raise (Py.ValueError "'mode' argument needs to be one of {}"), c1))
  /\ (forall cfg c1 s a1 a2 a3 a4 a5 a6 force,
         gnss_nmea_data_config Py.VNone a1 a2 a3 a4 a5 a6 false c = (Ok cfg, c1) ->
         str_in s (values NMEA_MODE_MAP) = true ->
         (exists a, In a [a1; a2; a3; a4; a5; a6] /\ as_bool a = None) ->
         gnss_nmea_data_config (Py.VStr s) a1 a2 a3 a4 a5 a6 force c
         = (Raise (Py.ValueError
              "'gga', 'gll', 'gsa', 'gsv', 'rmc' and 'vtg' parameters all need to be of type 'bool'"),
            c1))
  /\ (forall v c1 s,
         sms_format Py.VNone false c = (Ok v, c1) ->
         str_in (Py.upper s) (values SMS_FORMAT_MODES) = false ->
         sms_format (Py.VStr s) false c = (Raise (Py.ValueError "Unsupported mode"), c1))
  /\ (forall s,
         str_in (Py.upper s) (values SMS_FORMAT_MODES) = false ->
         sms_format (Py.VStr s) true c = (Raise (Py.ValueError "Unsupported mode"), c)).
Proof.
  split; [|split; [|split; [|split; [|split]]]].
  - intros v c1 mode force H Hn Hs. unfold error_config in *.
    step H. unfold bind at 1. rewrite E.
    step H. unfold bind at 1. rewrite E0.
    destruct a0 as [m|]; [|unfold bind, log, raise in H; discriminate H].
    step H. unfold bind at 1. rewrite E1.
    step H. unfold bind at 1. rewrite E2.
    unfold ret in H. inversion H; subst.
    destruct mode as [|b|n|s]; try reflexivity; [congruence|].
    rewrite (Hs s eq_refl). reflexivity.
  - intros b c1 status force H Hn Hb. unfold gnss_session in *.
    step H. unfold bind at 1. rewrite E.
    step H. unfold bind at 1. rewrite E0.
    destruct a0 as [m|]; [|unfold bind, log, raise in H; discriminate H].
    step H. unfold bind at 1. rewrite E1.
    unfold ret in H. inversion H; subst.
    destruct status as [|x|n|s]; try reflexivity; [congruence|].
    exfalso. exact (Hb x eq_refl).
  - intros cfg c1 mode a1 a2 a3 a4 a5 a6 force H Hn Hs.
    unfold gnss_nmea_data_config in *.
    step H. unfold bind at 1. rewrite E.
    step H. unfold bind at 1. rewrite E0.
    destruct a0 as [m|]; [|unfold bind, log, raise in H; discriminate H].
    step H. unfold bind at 1. rewrite E1.
    unfold ret in H. inversion H; subst.
    destruct mode as [|b|n|s]; try reflexivity; [congruence|].
    rewrite (Hs s eq_refl). reflexivity.
  - intros cfg c1 s a1 a2 a3 a4 a5 a6 force H Hs [bad [Hin Ha]].
    unfold gnss_nmea_data_config in *.
    step H. unfold bind at 1. rewrite E.
    step H. unfold bind at 1. rewrite E0.
    destruct a0 as [m|]; [|unfold bind, log, raise in H; discriminate H].
    step H. unfold bind at 1. rewrite E1.
    unfold ret in H. inversion H; subst.
    rewrite Hs. cbn [negb].
    simpl in Hin.
    destruct Hin as [<-|[<-|[<-|[<-|[<-|[<-|[]]]]]]]; rewrite Ha;
      repeat match goal with
             | |- context [match as_bool ?x with _ => _ end] =>
                 destruct (as_bool x)
             end; reflexivity.
  - intros v c1 s H Hs. unfold sms_format in *. cbn [negb] in *.
    step H. unfold bind at 1. rewrite E.
    unfold ret in H. inversion H; subst.
    cbv zeta. rewrite Hs. reflexivity.
  - intros s Hs. unfold sms_format. cbn [negb Py.is_none].
    unfold bind, ret. cbv zeta. rewrite Hs. reflexivity.
Qed.

(** Runs of X5: an unknown error mode, a session status that is no
    [bool], and an unknown SMS format under [force]. *)
Lemma accessors_validate_before_write_witness :
  error_config (Py.VStr "loud") true (fresh ["+CMEE: 1"; "OK"])
  = (Raise (Py.ValueError "'mode' argument needs to be one of {}"),
     snd (error_config Py.VNone false (fresh ["+CMEE: 1"; "OK"])))
  /\ tx (snd (error_config (Py.VStr "loud") true (fresh ["+CMEE: 1"; "OK"])))
     = ["AT+CMEE?"]
  /\ fst (gnss_session (Py.VInt 1) false (fresh ["$GPSP: 0"; "OK"]))
     = Raise (Py.TypeError "'status' parameter needs to be of type 'bool'")
  /\ sms_format (Py.VStr "pdu") true (fresh ["OK"])
     = (Raise (Py.ValueError "Unsupported mode"), fresh ["OK"]).
Proof.
  pose proof (accessors_validate_before_write (fresh ["+CMEE: 1"; "OK"])) as [H1 _].
  pose proof (accessors_validate_before_write (fresh ["$GPSP: 0"; "OK"]))
    as [_ [H2 _]].
  pose proof (accessors_validate_before_write (fresh ["OK"]))
    as [_ [_ [_ [_ [_ H6]]]]].
  assert (E1 : error_config (Py.VStr "loud") true (fresh ["+CMEE: 1"; "OK"])
               = (Raise (Py.ValueError "'mode' argument needs to be one of {}"),
                  snd (error_config Py.VNone false (fresh ["+CMEE: 1"; "OK"])))).
  { apply (H1 "numeric").
    - reflexivity.
    - discriminate.
    - intros s Hs. inversion Hs; subst. reflexivity. }
  split; [exact E1|]. split; [rewrite E1; reflexivity|]. split.
  - rewrite (H2 false (snd (gnss_session Py.VNone false (fresh ["$GPSP: 0"; "OK"])))
               (Py.VInt 1) false eq_refl).
    + reflexivity.
    + discriminate.
    + intros x Hx. discriminate Hx.
  - apply H6. reflexivity.
Defined.

Lemma str_in_error_modes u :
  str_in u (values ME_ERROR_MODE_MAP) = true ->
  u = "disabled" \/ u = "numeric" \/ u = "verbose".
Proof.
  unfold str_in, values, ME_ERROR_MODE_MAP. cbn [map snd existsb].
  rewrite !orb_true_iff, !String.eqb_eq. intros [H|[H|[H|H]]]; auto. discriminate.
Qed.

Lemma str_in_nmea_modes u :
  str_in u (values NMEA_MODE_MAP) = true ->
  u = "disabled" \/ u = "first_format" \/ u = "second_format" \/ u = "port_lock".
Proof.
  unfold str_in, values, NMEA_MODE_MAP. cbn [map snd existsb].
  rewrite !orb_true_iff, !String.eqb_eq. intros [H|[H|[H|[H|H]]]]; auto.
  discriminate.
Qed.

Lemma nmea_differs_neq a b : a <> b -> nmea_differs a b = true.
Proof.
  intros Hne. destruct (nmea_differs a b) eqn:Hd; [reflexivity|].
  exfalso. apply Hne. unfold nmea_differs in Hd.
  repeat (apply orb_false_iff in Hd; destruct Hd as [Hd ?]).
  repeat match goal with
         | H : negb _ = false |- _ => apply negb_false_iff in H
         end.
  destruct a, b; simpl in *.
  apply String.eqb_eq in Hd.
  repeat match goal with
         | H : Bool.eqb _ _ = true |- _ => apply Bool.eqb_prop in H
         end.
  subst. reflexivity.
Qed.

(** X6.  The write path of [error_config], [gnss_session] and [sms_format].
    After a successful read, a valid desired value that differs from the
    value read, or any valid desired value under [force], is written with
    the setting's write command - the numeric code of the mode, [1] or [0]
    for the session - and, when the modem acknowledges it, the desired
    value is returned as written, without a second read. *)
Theorem accessors_write (c : conn) :
  (forall v c1 mode force,
      error_config Py.VNone false c = (Ok v, c1) ->
      str_in mode (values ME_ERROR_MODE_MAP) = true ->
      v <> mode \/ force = true ->
      exists n,
        dict_get ME_ERROR_MODE_MAP n = Some mode
        /\ error_config (Py.VStr mode) force c
           = (match fst (execute_cmd ("AT+CMEE=" ++ Py.format_d n) c1) with
              | Ok _ => Ok mode
              | Raise e => Raise e
              end,
              snd (execute_cmd ("AT+CMEE=" ++ Py.format_d n) c1))
        /\ tx (snd (error_config (Py.VStr mode) force c))
           = (tx c ++ ["AT+CMEE?"; ("AT+CMEE=" ++ Py.format_d n)%string])%list)
  /\ (forall b c1 status force,
         gnss_session Py.VNone false c = (Ok b, c1) ->
         b <> status \/ force = true ->
         let cmd := if status then "AT$GPSP=1" else "AT$GPSP=0" in
         gnss_session (Py.VBool status) force c
         = (match fst (execute_cmd cmd c1) with
            | Ok _ => Ok status
            | Raise e => Raise e
            end,
            snd (execute_cmd cmd c1))
         /\ tx (snd (gnss_session (Py.VBool status) force c))
            = (tx c ++ ["AT$GPSP?"; cmd])%list)
  /\ (forall v c1 s mode,
         sms_format Py.VNone false c = (Ok v, c1) ->
         Py.upper s = mode ->
         str_in mode (values SMS_FORMAT_MODES) = true ->
         v <> Py.VStr mode ->
         let cmd := if String.eqb mode "PUD" then "AT+CMGF=0" else "AT+CMGF=1" in
         sms_format (Py.VStr s) false c
         = (match fst (execute_cmd cmd c1) with
            | Ok _ => Ok (Py.VStr mode)
            | Raise e => Raise e
            end,
            snd (execute_cmd cmd c1))
         /\ tx (snd (sms_format (Py.VStr s) false c))
            = (tx c ++ ["AT+CMGF?"; cmd])%list).
Proof.
  split; [|split].
  - intros v c1 mode force H Hin Hw.
    pose proof (proj2 (error_config_noop _ H)) as Htx.
    assert (Hc : negb (String.eqb v mode) || force = true).
    { destruct Hw as [Hw|Hw]; [|subst; apply orb_true_r].
      destruct (String.eqb_spec v mode); [contradiction|reflexivity]. }
    assert (Hn : exists n, dict_get ME_ERROR_MODE_MAP n = Some mode
                           /\ dict_key_by_value ME_ERROR_MODE_MAP mode = ret n).
    { destruct (str_in_error_modes _ Hin) as [-> | [-> | ->]];
        [exists 0|exists 1|exists 2]; split; reflexivity. }
    destruct Hn as [n [Hg Hk]]. exists n. split; [exact Hg|].
    assert (Heq : error_config (Py.VStr mode) force c
                  = (match fst (execute_cmd ("AT+CMEE=" ++ Py.format_d n) c1) with
                     | Ok _ => Ok mode
                     | Raise e => Raise e
                     end,
                     snd (execute_cmd ("AT+CMEE=" ++ Py.format_d n) c1))).
    { unfold error_config in *.
      step H. unfold bind at 1. rewrite E.
      step H. unfold bind at 1. rewrite E0.
      destruct a0 as [m|]; [|unfold bind, log, raise in H; discriminate H].
      step H. unfold bind at 1. rewrite E1.
      step H. unfold bind at 1. rewrite E2.
      unfold ret in H. inversion H; subst.
      rewrite Hin. cbn [negb]. rewrite Hc, Hk.
      unfold bind at 1. unfold ret at 1. unfold bind.
      destruct (execute_cmd ("AT+CMEE=" ++ Py.format_d n) c1) as [[x|e] cw];
        reflexivity. }
    split; [exact Heq|]. rewrite Heq. cbn [snd].
    rewrite execute_cmd_writes, Htx, <- app_assoc. reflexivity.
  - intros b c1 status force H Hw cmd.
    pose proof (proj2 (gnss_session_noop _ H)) as Htx.
    assert (Hc : negb (Bool.eqb status b) || force = true).
    { destruct Hw as [Hw|Hw]; [|subst; apply orb_true_r].
      destruct status, b; try reflexivity; congruence. }
    assert (Hcmd : "AT$GPSP=" ++ Py.format_d (Py.int_of_bool status) = cmd)
      by (destruct status; reflexivity).
    assert (Heq : gnss_session (Py.VBool status) force c
                  = (match fst (execute_cmd cmd c1) with
                     | Ok _ => Ok status
                     | Raise e => Raise e
                     end,
                     snd (execute_cmd cmd c1))).
    { unfold gnss_session in *.
      step H. unfold bind at 1. rewrite E.
      step H. unfold bind at 1. rewrite E0.
      destruct a0 as [m|]; [|unfold bind, log, raise in H; discriminate H].
      step H. unfold bind at 1. rewrite E1.
      unfold ret in H. inversion H; subst.
      rewrite Hc, Hcmd. unfold bind.
      destruct (execute_cmd cmd c1) as [[x|e] cw]; reflexivity. }
    split; [exact Heq|]. rewrite Heq. cbn [snd].
    rewrite execute_cmd_writes, Htx, <- app_assoc. reflexivity.
  - intros v c1 s mode H Hu Hin Hne cmd.
    assert (Hc : negb (Py.value_eqb (Py.VStr mode) v) = true).
    { destruct v as [|x|x|x]; try reflexivity. simpl.
      destruct (String.eqb_spec mode x); [subst; contradiction|reflexivity]. }
    assert (Hk : exists n, dict_key_by_value SMS_FORMAT_MODES mode = ret n
                           /\ "AT+CMGF=" ++ Py.format_d n = cmd).
    { destruct (str_in_sms_modes _ Hin) as [Hm|Hm]; subst cmd; rewrite Hm;
        [exists 0|exists 1]; split; reflexivity. }
    destruct Hk as [n [Hk Hcmd]].
    assert (Hboth : sms_format (Py.VStr s) false c
                    = (match fst (execute_cmd cmd c1) with
                       | Ok _ => Ok (Py.VStr mode)
                       | Raise e => Raise e
                       end,
                       snd (execute_cmd cmd c1))
                    /\ tx c1 = (tx c ++ ["AT+CMGF?"])%list).
    { unfold sms_format in H |- *. cbn [negb] in *.
      step H. unfold bind at 1. rewrite E.
      unfold ret in H. inversion H; subst a c0. cbv zeta. rewrite Hu, Hin.
      cbn [negb orb]. rewrite Hc, Hk.
      unfold bind at 1. unfold ret at 1. rewrite Hcmd. split.
      - unfold bind. destruct (execute_cmd cmd c1) as [[x|e] cw]; reflexivity.
      - unfold bind in E.
        destruct (execute_cmd "AT+CMGF?" c) as [[res|e] c0] eqn:Ex;
          [|discriminate E].
        apply pure_eq in E; [|apply pure_read_sms_format_mode]. subst.
        eapply execute_cmd_tx; eassumption. }
    destruct Hboth as [Heq Htx].
    split; [exact Heq|]. rewrite Heq. cbn [snd].
    rewrite execute_cmd_writes, Htx, <- app_assoc. reflexivity.
Qed.

(** Runs of X6: a mode that differs is written, and so is a session status
    that is already set when [force] is given. *)
Lemma accessors_write_witness :
  error_config (Py.VStr "verbose") false (fresh ["+CMEE: 1"; "OK"; "OK"])
  = (Ok "verbose",
     snd (execute_cmd "AT+CMEE=2"
            (snd (error_config Py.VNone false (fresh ["+CMEE: 1"; "OK"; "OK"])))))
  /\ tx (snd (gnss_session (Py.VBool true) true (fresh ["$GPSP: 1"; "OK"; "OK"])))
     = ["AT$GPSP?"; "AT$GPSP=1"].
Proof.
  split.
  - destruct (proj1 (accessors_write (fresh ["+CMEE: 1"; "OK"; "OK"]))
                "numeric" _ "verbose" false eq_refl eq_refl)
      as [n [Hg [Heq _]]].
    + left. discriminate.
    + assert (n = 2).
      { unfold ME_ERROR_MODE_MAP in Hg. cbn [dict_get] in Hg.
        destruct (ME_ERROR_MODE_DISABLED =? n); [discriminate Hg|].
        destruct (ME_ERROR_MODE_NUMERIC =? n); [discriminate Hg|].
        destruct (ME_ERROR_MODE_VERBOSE =? n) eqn:E; [|discriminate Hg].
        apply Z.eqb_eq in E. symmetry. exact E. }
      subst n. rewrite Heq. reflexivity.
  - destruct (proj1 (proj2 (accessors_write (fresh ["$GPSP: 1"; "OK"; "OK"])))
                true _ true true eq_refl (or_intror eq_refl)) as [_ Htx].
    exact Htx.
Defined.

Lemma execute_writes_cmd_aux cmd ws keep_conn cooldown timeout raise_on_error c :
  tx (snd (execute cmd ws keep_conn cooldown timeout raise_on_error c))
  = (tx c ++ [cmd])%list.
Proof.
  destruct (execute cmd ws keep_conn cooldown timeout raise_on_error c) as [x c'] eqn:E.
  simpl. eapply execute_tx. eassumption.
Qed.

(** X7.  The write path of [gnss_nmea_data_config].  After a successful
    read, a valid mode with six boolean flags that differs from the
    configuration read in any field, or any such request under [force], is
    written as [AT$GPSNMUN=] followed by the code of the mode and the six
    flags as [0] or [1]; the write waits for [CONNECT] when the mode is
    [port_lock] and for [OK] otherwise, and once it is acknowledged the
    requested configuration is returned without a second read. *)
Theorem gnss_nmea_data_config_write c cfg c1 a1 a2 a3 a4 a5 a6 s f1 f2 f3 f4 f5 f6 force :
  gnss_nmea_data_config Py.VNone a1 a2 a3 a4 a5 a6 false c = (Ok cfg, c1) ->
  str_in s (values NMEA_MODE_MAP) = true ->
  cfg <> NmeaConfig s f1 f2 f3 f4 f5 f6 \/ force = true ->
  exists n,
    dict_get NMEA_MODE_MAP n = Some s
    /\ let wanted := NmeaConfig s f1 f2 f3 f4 f5 f6 in
       let cmd := nmea_write_command n wanted in
       let ready_word := if String.eqb s "port_lock" then "CONNECT" else "OK" in
       gnss_nmea_data_config (Py.VStr s) (Py.VBool f1) (Py.VBool f2) (Py.VBool f3)
         (Py.VBool f4) (Py.VBool f5) (Py.VBool f6) force c
       = (match fst (execute cmd [ready_word] true None None true c1) with
          | Ok _ => Ok wanted
          | Raise e => Raise e
          end,
          snd (execute cmd [ready_word] true None None true c1))
       /\ tx (snd (gnss_nmea_data_config (Py.VStr s) (Py.VBool f1) (Py.VBool f2)
                     (Py.VBool f3) (Py.VBool f4) (Py.VBool f5) (Py.VBool f6) force c))
          = (tx c ++ ["AT$GPSNMUN?"; cmd])%list.
Proof.
  intros H Hin Hw.
  pose proof (proj2 (gnss_nmea_data_config_noop _ _ _ _ _ _ _ H)) as Htx.
  assert (Hc : nmea_differs cfg (NmeaConfig s f1 f2 f3 f4 f5 f6) || force = true).
  { destruct Hw as [Hw|Hw]; [|subst; apply orb_true_r].
    rewrite (nmea_differs_neq Hw). reflexivity. }
  assert (Hn : exists n,
             dict_get NMEA_MODE_MAP n = Some s
             /\ dict_key_by_value NMEA_MODE_MAP s = ret n
             /\ (n =? NMEA_MODE_PORT_LOCK) = String.eqb s "port_lock").
  { destruct (str_in_nmea_modes _ Hin) as [-> | [-> | [-> | ->]]];
      [exists 0|exists 1|exists 2|exists 3]; repeat split; reflexivity. }
  destruct Hn as [n [Hg [Hk Hp]]]. exists n. split; [exact Hg|].
  intros wanted cmd ready_word.
  assert (Heq : gnss_nmea_data_config (Py.VStr s) (Py.VBool f1) (Py.VBool f2)
                  (Py.VBool f3) (Py.VBool f4) (Py.VBool f5) (Py.VBool f6) force c
                = (match fst (execute cmd [ready_word] true None None true c1) with
                   | Ok _ => Ok wanted
                   | Raise e => Raise e
                   end,
                   snd (execute cmd [ready_word] true None None true c1))).
  { unfold gnss_nmea_data_config in *.
    step H. unfold bind at 1. rewrite E.
    step H. unfold bind at 1. rewrite E0.
    destruct a0 as [m|]; [|unfold bind, log, raise in H; discriminate H].
    step H. unfold bind at 1. rewrite E1.
    unfold ret in H. inversion H; subst.
    rewrite Hin. cbn [negb as_bool]. rewrite Hc, Hk.
    unfold bind at 1. unfold ret at 1. unfold bind at 1. unfold ret at 1.
    rewrite Hp. fold wanted. fold cmd. unfold bind.
    subst ready_word. destruct (String.eqb s "port_lock").
    - destruct (execute cmd ["CONNECT"] true None None true c1) as [[x|e] cw];
        reflexivity.
    - unfold execute_cmd.
      destruct (execute cmd ["OK"] true None None true c1) as [[x|e] cw];
        reflexivity. }
  split; [exact Heq|]. rewrite Heq. cbn [snd].
  rewrite execute_writes_cmd_aux, Htx, <- app_assoc. reflexivity.
Qed.

(** A run of X7: entering [port_lock], acknowledged by [CONNECT]. *)
Lemma gnss_nmea_data_config_write_witness :
  let c := fresh ["$GPSNMUN: 2,0,1,0,1,0,1"; "OK"; "CONNECT"] in
  fst (gnss_nmea_data_config (Py.VStr "port_lock") (Py.VBool false) (Py.VBool false)
         (Py.VBool false) (Py.VBool false) (Py.VBool true) (Py.VBool false) false c)
  = Ok (NmeaConfig "port_lock" false false false false true false)
  /\ tx (snd (gnss_nmea_data_config (Py.VStr "port_lock") (Py.VBool false)
                (Py.VBool false) (Py.VBool false) (Py.VBool false) (Py.VBool true)
                (Py.VBool false) false c))
     = ["AT$GPSNMUN?"; "AT$GPSNMUN=3,0,0,0,0,1,0"].
Proof.
  intros c.
  assert (Hread : gnss_nmea_data_config Py.VNone Py.VNone Py.VNone Py.VNone Py.VNone
                    Py.VNone Py.VNone false c
                  = (Ok (NmeaConfig "second_format" false true false true false true),
                     snd (execute_cmd "AT$GPSNMUN?" c))) by reflexivity.
  assert (Hin : str_in "port_lock" (values NMEA_MODE_MAP) = true) by reflexivity.
  assert (Hne : NmeaConfig "second_format" false true false true false true
                <> NmeaConfig "port_lock" false false false false true false)
    by discriminate.
  pose proof (@gnss_nmea_data_config_write c
                (NmeaConfig "second_format" false true false true false true)
                (snd (execute_cmd "AT$GPSNMUN?" c))
                Py.VNone Py.VNone Py.VNone Py.VNone Py.VNone Py.VNone
                "port_lock" false false false false true false false
                Hread Hin (or_introl Hne)) as Hw.
  destruct Hw as [n [Hg [Heq Htx]]].
  assert (n = 3).
  { unfold NMEA_MODE_MAP in Hg. cbn [dict_get] in Hg.
    destruct (NMEA_MODE_DISABLED =? n); [discriminate Hg|].
    destruct (NMEA_MODE_FIRST_FMT =? n); [discriminate Hg|].
    destruct (NMEA_MODE_SECOND_FMT =? n); [discriminate Hg|].
    destruct (NMEA_MODE_PORT_LOCK =? n) eqn:E; [|discriminate Hg].
    apply Z.eqb_eq in E. symmetry. exact E. }
  subst n. split.
  - rewrite Heq. reflexivity.
  - rewrite Htx. reflexivity.
Defined.

(** *** The accessors: what they return *)

(** X8.  What the accessors return lies in the domain of the setting:
    [error_config] returns one of [disabled], [numeric], [verbose];
    [sms_format] returns [PUD] or [TXT]; the mode of the configuration
    [gnss_nmea_data_config] returns is one of its four mode names. *)
Theorem accessors_result_domain (c : conn) :
  (forall mode force v c',
      error_config mode force c = (Ok v, c') ->
      v = "disabled" \/ v = "numeric" \/ v = "verbose")
  /\ (forall mode force v c',
         sms_format mode force c = (Ok v, c') ->
         v = Py.VStr "PUD" \/ v = Py.VStr "TXT")
  /\ (forall mode a1 a2 a3 a4 a5 a6 force cfg c',
         gnss_nmea_data_config mode a1 a2 a3 a4 a5 a6 force c = (Ok cfg, c') ->
         nmea_mode cfg = "disabled" \/ nmea_mode cfg = "first_format"
         \/ nmea_mode cfg = "second_format" \/ nmea_mode cfg = "port_lock").
Proof.
  split; [|split].
  - intros mode force v c' H. apply str_in_error_modes.
    unfold error_config in H. step H. step H.
    destruct a0 as [m|]; [|unfold bind, log, raise in H; discriminate H].
    step H. step H.
    apply dict_item_ok in E2. destruct E2 as [Hg _].
    pose proof (dict_get_in_values _ _ Hg) as Hv.
    destruct mode as [|b|n|s]; try discriminate H.
    + unfold ret in H. inversion H; subst. exact Hv.
    + destruct (str_in s (values ME_ERROR_MODE_MAP)) eqn:Hs;
        cbn [negb] in H; [|discriminate H].
      match type of H with
      | (if ?b then _ else _) _ = _ => destruct b
      end.
      * step H. step H. unfold ret in H. inversion H; subst. exact Hs.
      * unfold ret in H. inversion H; subst. exact Hv.
  - intros mode force v c' H. unfold sms_format in H.
    destruct force; cbn [negb] in H.
    + destruct mode as [|b|n|s]; cbn [Py.is_none] in H;
        unfold bind, raise, ret in H; try discriminate H.
      cbv zeta in H.
      destruct (str_in (Py.upper s) (values SMS_FORMAT_MODES)) eqn:Hs;
        cbn [negb orb] in H; [|discriminate H].
      destruct (dict_key_by_value SMS_FORMAT_MODES (Py.upper s) c) as [[n|e] c0];
        [|discriminate H].
      destruct (execute_cmd ("AT+CMGF=" ++ Py.format_d n) c0) as [[x|e] c3];
        [|discriminate H].
      inversion H; subst.
      destruct (str_in_sms_modes _ Hs) as [-> | ->]; auto.
    + step H. unfold bind in E.
      destruct (execute_cmd "AT+CMGF?" c) as [[res|e] c1]; [|discriminate E].
      apply read_sms_format_mode_domain in E.
      destruct mode as [|b|n|s]; try discriminate H.
      * unfold ret in H. inversion H; subst. exact E.
      * cbv zeta in H.
        destruct (str_in (Py.upper s) (values SMS_FORMAT_MODES)) eqn:Hs;
          cbn [negb orb] in H; [|discriminate H].
        match type of H with
        | (if ?b then _ else _) _ = _ => destruct b
        end.
        -- step H. step H. unfold ret in H. inversion H; subst.
           destruct (str_in_sms_modes _ Hs) as [-> | ->]; auto.
        -- unfold ret in H. inversion H; subst. exact E.
  - intros mode a1 a2 a3 a4 a5 a6 force cfg c' H. apply str_in_nmea_modes.
    unfold gnss_nmea_data_config in H. step H. step H.
    destruct a0 as [m|]; [|unfold bind, log, raise in H; discriminate H].
    step H. pose proof (nmea_decode_mode _ _ E1) as Hv.
    destruct mode as [|b|n|s]; try discriminate H.
    + unfold ret in H. inversion H; subst. exact Hv.
    + destruct (str_in s (values NMEA_MODE_MAP)) eqn:Hs;
        cbn [negb] in H; [|discriminate H].
      destruct (as_bool a1), (as_bool a2), (as_bool a3), (as_bool a4),
        (as_bool a5), (as_bool a6); try discriminate H.
      match type of H with
      | (if ?b then _ else _) _ = _ => destruct b
      end.
      * step H. step H. step H. unfold ret in H. inversion H; subst. exact Hs.
      * unfold ret in H. inversion H; subst. exact Hv.
Qed.

(** A run of X8. *)
Lemma accessors_result_domain_witness :
  error_config Py.VNone false (fresh ["+CMEE: 2"; "OK"])
  = (Ok "verbose", snd (error_config Py.VNone false (fresh ["+CMEE: 2"; "OK"])))
  /\ ("verbose" = "disabled" \/ "verbose" = "numeric" \/ "verbose" = "verbose").
Proof.
  assert (H : error_config Py.VNone false (fresh ["+CMEE: 2"; "OK"])
              = (Ok "verbose",
                 snd (error_config Py.VNone false (fresh ["+CMEE: 2"; "OK"]))))
    by reflexivity.
  split; [exact H|].
  exact (proj1 (accessors_result_domain (fresh ["+CMEE: 2"; "OK"])) _ _ _ _ H).
Defined.

(** X9.  Reading back what was written.  The value an accessor writes and
    the value it reads are coded the same way: when the modem answers the
    read query with the code that the write command carries - the key of
    the mode, [1] or [0] for the session, the mode and six flags of
    [AT$GPSNMUN=] - the getter returns the value that was written. *)
Theorem accessors_echo_round_trip (c : conn) (rest : list string) :
  (forall n mode,
      dict_get ME_ERROR_MODE_MAP n = Some mode ->
      fst (error_config Py.VNone false
             (set_rx (("+CMEE: " ++ Py.format_d n) :: "OK" :: rest) c))
      = Ok mode)
  /\ (forall status,
         fst (gnss_session Py.VNone false
                (set_rx (("$GPSP: " ++ Py.format_d (Py.int_of_bool status))
                           :: "OK" :: rest) c))
         = Ok status)
  /\ (forall n mode,
         dict_get SMS_FORMAT_MODES n = Some mode ->
         fst (sms_format Py.VNone false
                (set_rx (("+CMGF: " ++ Py.format_d n) :: "OK" :: rest) c))
         = Ok (Py.VStr mode))
  /\ (forall n s f1 f2 f3 f4 f5 f6,
         dict_get NMEA_MODE_MAP n = Some s ->
         exists payload,
           nmea_write_command n (NmeaConfig s f1 f2 f3 f4 f5 f6)
           = "AT$GPSNMUN=" ++ payload
           /\ fst (gnss_nmea_data_config Py.VNone Py.VNone Py.VNone Py.VNone
                     Py.VNone Py.VNone Py.VNone false
                     (set_rx (("$GPSNMUN: " ++ payload) :: "OK" :: rest) c))
              = Ok (NmeaConfig s f1 f2 f3 f4 f5 f6)).
Proof.
  split; [|split; [|split]].
  - intros n mode H. unfold ME_ERROR_MODE_MAP in H. cbn [dict_get] in H.
    repeat match type of H with
           | (if ?k =? n then _ else _) = _ =>
               let E := fresh "E" in
               destruct (k =? n) eqn:E;
               [apply Z.eqb_eq in E; subst n; inversion H; subst mode;
                vm_compute; reflexivity|]
           end.
    discriminate H.
  - intros [|]; vm_compute; reflexivity.
  - intros n mode H. unfold SMS_FORMAT_MODES in H. cbn [dict_get] in H.
    repeat match type of H with
           | (if ?k =? n then _ else _) = _ =>
               let E := fresh "E" in
               destruct (k =? n) eqn:E;
               [apply Z.eqb_eq in E; subst n; inversion H; subst mode;
                vm_compute; reflexivity|]
           end.
    discriminate H.
  - intros n s f1 f2 f3 f4 f5 f6 H. unfold NMEA_MODE_MAP in H. cbn [dict_get] in H.
    repeat match type of H with
           | (if ?k =? n then _ else _) = _ =>
               let E := fresh "E" in
               destruct (k =? n) eqn:E;
               [apply Z.eqb_eq in E; subst n; inversion H; subst s;
                destruct f1, f2, f3, f4, f5, f6;
                (eexists; split; [reflexivity|vm_compute; reflexivity])|]
           end.
    discriminate H.
Qed.

(** A run of X9: the port-lock configuration with three flags set. *)
Lemma accessors_echo_round_trip_witness :
  dict_get NMEA_MODE_MAP 3 = Some "port_lock"
  /\ nmea_write_command 3 (NmeaConfig "port_lock" true false true false true false)
     = "AT$GPSNMUN=3,1,0,1,0,1,0"
  /\ exists payload,
      nmea_write_command 3 (NmeaConfig "port_lock" true false true false true false)
      = "AT$GPSNMUN=" ++ payload
      /\ fst (gnss_nmea_data_config Py.VNone Py.VNone Py.VNone Py.VNone Py.VNone
                Py.VNone Py.VNone false
                (set_rx (("$GPSNMUN: " ++ payload) :: "OK" :: []) (fresh [])))
         = Ok (NmeaConfig "port_lock" true false true false true false).
Proof.
  split; [reflexivity|]. split; [reflexivity|].
  exact (proj2 (proj2 (proj2 (accessors_echo_round_trip (fresh []) [])))
               3 "port_lock" true false true false true false eq_refl).
Defined.

(** *** SMS: storage query and listing *)

(** X10.  [sms_storage] matches the pattern of the format query against
    the answer to the storage query: for every answer line that begins
    with [+CPMS] it fails with an [AttributeError], and it returns only
    for an answer of the shape [+CMGF: 0] or [+CMGF: 1]. *)
Theorem sms_storage_fails_on_storage_answer c o c1 :
  execute_cmd "AT+CPMS?" c = (Ok (Some o), c1) ->
  (forall t,
      o_data o = Some (Line ("+CPMS" ++ t)) ->
      sms_storage c
      = (Raise (Py.AttributeError "'NoneType' object has no attribute 'group'"), c1))
  /\ (forall c',
         sms_storage c = (Ok tt, c') ->
         exists s m, o_data o = Some (Line s) /\ rmatch CMGF_regex s = Some m).
Proof.
  intros E. split.
  - intros t Hd. unfold sms_storage. unfold bind at 1. rewrite E.
    unfold bind at 1. unfold match_data at 1. rewrite Hd. unfold ret at 1.
    unfold bind at 1. unfold read_sms_format_mode. unfold bind at 1.
    unfold match_data. rewrite Hd. reflexivity.
  - intros c' H. unfold sms_storage in H. unfold bind at 1 in H. rewrite E in H.
    step H. step H. unfold read_sms_format_mode in E1. step E1.
    destruct a1 as [m|].
    + apply match_data_some in E2; [|reflexivity].
      destruct E2 as [o' [s [Ho [Hd Hm]]]]. inversion Ho; subst o'. eauto.
    + unfold bind, group_of, raise in E1. discriminate E1.
Qed.

(** A run of X10 on an answer as the modem gives it. *)
Lemma sms_storage_fails_on_storage_answer_witness :
  let c := fresh ["+CPMS: 3,30"; "OK"] in
  execute_cmd "AT+CPMS?" c
  = (Ok (Some (Outcome None (Some (Line "+CPMS: 3,30")))),
     snd (execute_cmd "AT+CPMS?" c))
  /\ fst (sms_storage c)
     = Raise (Py.AttributeError "'NoneType' object has no attribute 'group'").
Proof.
  intros c.
  assert (E : execute_cmd "AT+CPMS?" c
              = (Ok (Some (Outcome None (Some (Line "+CPMS: 3,30")))),
                 snd (execute_cmd "AT+CPMS?" c))) by reflexivity.
  split; [exact E|].
  rewrite (proj1 (sms_storage_fails_on_storage_answer c E) ": 3,30" eq_refl).
  reflexivity.
Defined.





Lemma decode_sms_entries_pairs n :
  forall es msgs,
    (List.length es <= n)%nat ->
    decode_sms_entries es = inr msgs ->
    map sms_data msgs = bodies es
    /\ List.length es = (2 * List.length msgs)%nat
    /\ Forall2 (fun meta msg => exists body, decode_sms meta body = inr msg)
               (metas es) msgs.
Proof.
  induction n as [|n IH]; intros es msgs Hlen H;
    destruct es as [|meta [|body rest]]; simpl in H, Hlen;
    try (inversion H; subst; simpl; auto; fail); try discriminate H; try lia.
  destruct (decode_sms meta body) as [e|m1] eqn:E; [discriminate H|].
  destruct (decode_sms_entries rest) as [e|ms] eqn:Er; [discriminate H|].
  inversion H; subst msgs.
  destruct (IH rest ms ltac:(lia) Er) as [Hb [Hl Hf]].
  assert (Hdata : sms_data m1 = body).
  { unfold decode_sms in E.
    destruct (sms_fields meta) as [|f1 [|f2 [|f3 [|f4 [|f5 [|f6 [|f7 l]]]]]]];
      try discriminate E.
    destruct (Py.int_of (Some (Py.slice (Some (-2)) None f6))); [discriminate E|].
    destruct (Dt.strptime (f5 ++ "T" ++ Py.slice None (Some (-3)) f6));
      [|discriminate E].
    destruct (String.eqb (Py.slice (Some (-3)) (Some (-2)) f6) "+").
    - destruct (Dt.sub_minutes d (15 * z)); [|discriminate E].
      destruct (Py.int_of (Some f1)); [discriminate E|].
      inversion E; reflexivity.
    - destruct (String.eqb (Py.slice (Some (-3)) (Some (-2)) f6) "-");
        [|discriminate E].
      destruct (Dt.add_minutes d (15 * z)); [|discriminate E].
      destruct (Py.int_of (Some f1)); [discriminate E|].
      inversion E; reflexivity. }
  simpl. rewrite Hdata, Hb. split; [reflexivity|]. split; [lia|].
  constructor; [eauto|assumption].
Qed.

(** X12.  A listing is read two lines at a time.  When the [try] block of
    [sms_list] returns, the answer had data of an even number of lines,
    twice as many as there are messages; the messages come in the order
    of the lines, each decoded from the metadata line at an even place,
    its text being the line that follows, unchanged. *)
Theorem sms_list_pairs status c msgs c' :
  sms_list_body status c = (Ok msgs, c') ->
  exists o d,
    execute_cmd ("AT+CMGL=" ++ String "034" (status ++ String "034" EmptyString)) c
    = (Ok (Some o), c')
    /\ o_data o = Some d
    /\ map sms_data msgs = bodies (items d)
    /\ List.length (items d) = (2 * List.length msgs)%nat
    /\ Forall2 (fun meta msg => exists body, decode_sms meta body = inr msg)
               (metas (items d)) msgs.
Proof.
  intros H. unfold sms_list_body in H. step H. step H.
  apply lift_ok in H. destruct H as [H ->].
  unfold data_item in E0. destruct a as [o|]; [|discriminate E0].
  unfold from_option in E0. destruct (o_data o) as [d|] eqn:Hd; [|discriminate E0].
  unfold ret in E0. inversion E0; subst.
  exists o, a0. split; [reflexivity|]. split; [exact Hd|].
  eapply decode_sms_entries_pairs; [apply le_n|exact H].
Qed.

(** A run of X12: one message, two lines. *)
Lemma sms_list_pairs_witness :
  let c := fresh [example_meta; "hello"; "OK"] in
  sms_list_body "ALL" c
  = (Ok [SmsMessage 1 "REC READ" "+4512345678" "2021-11-16T13:10:00" "hello"],
     snd (sms_list_body "ALL" c))
  /\ exists o d,
      o_data o = Some d
      /\ map sms_data
           [SmsMessage 1 "REC READ" "+4512345678" "2021-11-16T13:10:00" "hello"]
         = bodies (items d)
      /\ List.length (items d) = 2%nat.
Proof.
  intros c.
  assert (H : sms_list_body "ALL" c
              = (Ok [SmsMessage 1 "REC READ" "+4512345678" "2021-11-16T13:10:00"
                       "hello"],
                 snd (sms_list_body "ALL" c))) by (vm_compute; reflexivity).
  split; [exact H|].
  destruct (sms_list_pairs _ _ H) as [o [d [_ [Hd [Hb [Hl _]]]]]].
  exists o, d. split; [exact Hd|]. split; [exact Hb|exact Hl].
Defined.

(** X13.  The metadata line must have six fields.  A line whose part after
    the seven-character prefix does not split at its commas into exactly
    six fields fails with [ValueError] (a comma inside a quoted field
    counts); and a message that is decoded has the integer of the first
    field as its index and the second and third fields, stripped of their
    quotes, as its status and sender. *)
Theorem decode_sms_six_fields meta body :
  (List.length (sms_fields meta) <> 6%nat ->
   exists msg, decode_sms meta body = inl (Py.ValueError msg))
  /\ (forall msg,
         decode_sms meta body = inr msg ->
         exists index other date time,
           sms_fields meta
           = [index; sms_status msg; sms_sender msg; other; date; time]
           /\ Py.int_of_string index = Some (sms_index msg)
           /\ sms_data msg = body).
Proof.
  unfold decode_sms.
  destruct (sms_fields meta) as [|f1 [|f2 [|f3 [|f4 [|f5 [|f6 [|f7 l]]]]]]];
    (split; [intros Hl; try (eexists; reflexivity); simpl in Hl; congruence
            |intros msg H; try discriminate H]).
  destruct (Py.int_of (Some (Py.slice (Some (-2)) None f6))); [discriminate H|].
  destruct (Dt.strptime (f5 ++ "T" ++ Py.slice None (Some (-3)) f6));
    [|discriminate H].
  assert (Hi : forall i, Py.int_of (Some f1) = inr i -> Py.int_of_string f1 = Some i).
  { unfold Py.int_of. intros i Hi. destruct (Py.int_of_string f1); [|discriminate Hi].
    inversion Hi; reflexivity. }
  destruct (String.eqb (Py.slice (Some (-3)) (Some (-2)) f6) "+").
  - destruct (Dt.sub_minutes d (15 * z)); [|discriminate H].
    destruct (Py.int_of (Some f1)) eqn:E1; [discriminate H|].
    inversion H; subst msg. simpl. exists f1, f4, f5, f6. auto.
  - destruct (String.eqb (Py.slice (Some (-3)) (Some (-2)) f6) "-");
      [|discriminate H].
    destruct (Dt.add_minutes d (15 * z)); [|discriminate H].
    destruct (Py.int_of (Some f1)) eqn:E1; [discriminate H|].
    inversion H; subst msg. simpl. exists f1, f4, f5, f6. auto.
Qed.

(** A run of X13: a comma in the sender's name gives seven fields. *)
Lemma decode_sms_six_fields_witness :
  let meta := "+CMGL: 1," ++ dq ++ "REC READ" ++ dq ++ "," ++ dq ++ "Doe, John" ++ dq
              ++ "," ++ dq ++ dq ++ "," ++ dq ++ "21/11/16,14:10:00+04" ++ dq in
  List.length (sms_fields meta) = 7%nat
  /\ exists msg, decode_sms meta "hello" = inl (Py.ValueError msg).
Proof.
  intros meta. split; [reflexivity|].
  apply (proj1 (decode_sms_six_fields meta "hello")).
  vm_compute. discriminate.
Defined.

(** *** GNSS location: completeness and hemispheres *)

Lemma subscriptable_ok x c t c' :
  subscriptable x c = (Ok t, c') -> x = Some t.
Proof.
  unfold subscriptable, from_option. destruct x; intros H; inversion H; reflexivity.
Qed.

Lemma float_of_ok x c f c' :
  lift (Py.float_of x) c = (Ok f, c') -> exists t, x = Some t.
Proof.
  intros H. apply lift_ok in H. destruct H as [H _].
  destruct x as [t|]; [eauto|discriminate H].
Qed.

Lemma int_of_ok x c n c' :
  lift (Py.int_of x) c = (Ok n, c') -> exists t, x = Some t.
Proof.
  intros H. apply lift_ok in H. destruct H as [H _].
  destruct x as [t|]; [eauto|discriminate H].
Qed.

Lemma gnss_location_parse_complete m decimal_degrees c loc c' :
  gnss_location_parse m decimal_degrees c = (Ok loc, c') ->
  (forall name,
      In name ["utc"; "date"; "hdop"; "altitude"; "cog"; "spkm"; "spkn";
               "nsat_gps"; "nsat_glonass"] ->
      exists t, group m name = Some t)
  /\ (decimal_degrees = true ->
      (exists t, group m "lat" = Some t) /\ (exists t, group m "lon" = Some t)).
Proof.
  unfold gnss_location_parse. intros H.
  step H. apply subscriptable_ok in E.
  step H. apply subscriptable_ok in E0.
  step H. apply float_of_ok in E1.
  step H. apply float_of_ok in E2.
  step H. step H.
  step H. apply float_of_ok in E5.
  step H. apply float_of_ok in E6.
  step H. apply float_of_ok in E7.
  step H. apply int_of_ok in E8.
  step H. apply int_of_ok in E9.
  split.
  - intros name Hin. simpl in Hin.
    repeat (destruct Hin as [Hin|Hin]; [subst name; eauto|]).
    contradiction.
  - intros ->. step H. apply subscriptable_ok in E10.
    do 2 step H. step H. apply subscriptable_ok in E13. eauto.
Qed.

Lemma gnss_location_parse_pure m decimal_degrees :
  pure (gnss_location_parse m decimal_degrees).
Proof.
  unfold gnss_location_parse.
  repeat (apply pure_bind;
          [first [apply pure_from_option | apply pure_lift | apply pure_dict_item]
          |intros ?]).
  destruct decimal_degrees.
  - repeat (apply pure_bind;
            [first [apply pure_from_option | apply pure_lift]|intros ?]).
    apply pure_ret.
  - apply pure_ret.
Qed.

(** X14.  [gnss_location] returns no partial reading.  A location is
    returned only when the time, the date, the dilution, the altitude, the
    course, both speeds and both satellite counts were all present in the
    answer - and, for decimal degrees, the latitude and longitude too; a
    2D or 3D answer with one of them empty fails with [TypeError]. *)
Theorem gnss_location_complete decimal_degrees c :
  (forall loc c',
      gnss_location decimal_degrees c = (Ok loc, c') ->
      exists o s m,
        execute_cmd "AT$GPSACP" c = (Ok (Some o), c')
        /\ o_data o = Some (Line s)
        /\ rmatch GPSACP_regex s = Some m
        /\ (forall name,
               In name ["utc"; "date"; "hdop"; "altitude"; "cog"; "spkm"; "spkn";
                        "nsat_gps"; "nsat_glonass"] ->
               exists t, group m name = Some t)
        /\ (decimal_degrees = true ->
            (exists t, group m "lat" = Some t) /\ (exists t, group m "lon" = Some t)))
  /\ (forall o c1 s m f,
         execute_cmd "AT$GPSACP" c = (Ok (Some o), c1) ->
         o_data o = Some (Line s) ->
         rmatch GPSACP_regex s = Some m ->
         group m "fix" = Some f ->
         f = "2" \/ f = "3" ->
         group m "utc" = None ->
         gnss_location decimal_degrees c
         = (Raise (Py.TypeError "'NoneType' object is not subscriptable"), c1)).
Proof.
  split.
  - intros loc c' H. unfold gnss_location in H.
    step H. step H. destruct a0 as [m|].
    + step H.
      destruct (z_in a0 [GNSS_LOCATION_FIX_INVALID_FIX; GNSS_LOCATION_FIX_NO_FIX]);
        [discriminate H|].
      pose proof (@pure_eq _ _ _ _ _ (pure_match_data _ _) E0) as Hc0.
      pose proof (@pure_eq _ _ _ _ _ (pure_lift _) E1) as Hc1.
      pose proof (@pure_eq _ _ _ _ _ (gnss_location_parse_pure _ _) H) as Hc2.
      subst c1 c2 c'.
      apply match_data_some in E0; [|reflexivity].
      destruct E0 as [o [s [-> [Hd Hm]]]].
      exists o, s, m. split; [reflexivity|]. split; [exact Hd|].
      split; [exact Hm|]. eapply gnss_location_parse_complete. exact H.
    + unfold bind, log, raise in H. discriminate H.
  - intros o c1 s m f E Hd Hm Hf Hfix Hutc.
    unfold gnss_location. unfold bind at 1. rewrite E.
    unfold bind at 1. unfold match_data. rewrite Hd, Hm. unfold ret at 1.
    unfold bind at 1. rewrite Hf.
    unfold gnss_location_parse, bind, subscriptable, from_option.
    destruct Hfix; subst f; simpl; rewrite Hutc; reflexivity.
Qed.

(** A run of X14: a 2D answer whose other fields are empty. *)
Lemma gnss_location_complete_witness :
  let c := fresh ["$GPSACP: ,,,,,2,,,,,,"; "OK"] in
  execute_cmd "AT$GPSACP" c
  = (Ok (Some (Outcome None (Some (Line "$GPSACP: ,,,,,2,,,,,,")))),
     snd (execute_cmd "AT$GPSACP" c))
  /\ fst (gnss_location false c)
     = Raise (Py.TypeError "'NoneType' object is not subscriptable").
Proof.
  intros c.
  assert (E : execute_cmd "AT$GPSACP" c
              = (Ok (Some (Outcome None (Some (Line "$GPSACP: ,,,,,2,,,,,,")))),
                 snd (execute_cmd "AT$GPSACP" c))) by reflexivity.
  assert (Hm : rmatch GPSACP_regex "$GPSACP: ,,,,,2,,,,,,"
               = Some (MatchObj [("fix", "2")] 21)) by reflexivity.
  split; [exact E|].
  rewrite (proj2 (gnss_location_complete false c) _ _ _ _ "2" E eq_refl Hm eq_refl
             (or_introl eq_refl) eq_refl).
  reflexivity.
Defined.

Lemma substring_app_l b :
  forall n m t,
    (n + m <= String.length b)%nat ->
    substring n m (b ++ t) = substring n m b.
Proof.
  induction b as [|ch b IH]; intros n m t Hl; simpl in Hl.
  - assert (n = 0%nat) by lia. assert (m = 0%nat) by lia. subst.
    simpl. apply substring_0_0.
  - destruct n as [|n]; simpl.
    + destruct m as [|m]; [reflexivity|]. rewrite IH by lia. reflexivity.
    + apply IH. lia.
Qed.

Lemma len_app b t : Py.len (b ++ t) = Py.len b + Py.len t.
Proof.
  unfold Py.len. induction b as [|ch b IH]; simpl String.length.
  - reflexivity.
  - simpl append. simpl String.length. lia.
Qed.

Lemma clamp_inside n i : 0 <= i <= n -> Py.clamp n i = i.
Proof.
  intros H. unfold Py.clamp.
  destruct (Z.ltb_spec i 0); [exfalso; lia|].
  destruct (Z.ltb_spec i 0); [exfalso; lia|].
  destruct (Z.ltb_spec n i); [exfalso; lia|reflexivity].
Qed.

Lemma clamp_minus_one n : 1 <= n -> Py.clamp n (-1) = n - 1.
Proof.
  intros H. unfold Py.clamp. cbn [Z.ltb Z.compare].
  destruct (Z.ltb_spec (-1 + n) 0); [exfalso; lia|].
  destruct (Z.ltb_spec n (-1 + n)); [exfalso; lia|lia].
Qed.

(** [s[lo:-1]] does not see the last character. *)
Lemma slice_drop_last lo b h :
  0 <= lo <= Py.len b ->
  Py.slice (Some lo) (Some (-1)) (b ++ String h EmptyString)
  = Py.slice (Some lo) None b.
Proof.
  intros Hlo. unfold Py.slice. rewrite len_app.
  change (Py.len (String h EmptyString)) with 1.
  rewrite (clamp_inside (n := Py.len b + 1) (i := lo)) by lia.
  rewrite clamp_minus_one by lia.
  rewrite (clamp_inside (n := Py.len b) (i := lo)) by lia.
  replace (Py.len b + 1 - 1) with (Py.len b) by lia.
  destruct (Py.len b <=? lo) eqn:E; [reflexivity|].
  apply Z.leb_gt in E.
  apply substring_app_l. unfold Py.len in *. lia.
Qed.

(** [s[:k]] sees only the first [k] characters. *)
Lemma slice_prefix k b t :
  0 <= k <= Py.len b ->
  Py.slice None (Some k) (b ++ t) = Py.slice None (Some k) b.
Proof.
  intros Hk. unfold Py.slice. rewrite len_app.
  assert (Ht : 0 <= Py.len t) by (unfold Py.len; lia).
  rewrite (clamp_inside (n := Py.len b + Py.len t) (i := k)) by lia.
  rewrite (clamp_inside (n := Py.len b) (i := k)) by lia.
  destruct (k <=? 0) eqn:E; [reflexivity|].
  apply Z.leb_gt in E.
  apply substring_app_l. unfold Py.len in *. lia.
Qed.

Lemma bind_ext {A B} (m : M A) (k1 k2 : A -> M B) c :
  (forall a c', k1 a c' = k2 a c') -> bind m k1 c = bind m k2 c.
Proof.
  intros H. unfold bind. destruct (m c) as [[a|e] c']; [apply H|reflexivity].
Qed.

Lemma bind_ret_l {A B} (x : A) (k : A -> M B) c : bind (ret x) k c = k x c.
Proof. reflexivity. Qed.

(** X15.  Decimal degrees carry no hemisphere.  With [decimal_degrees],
    the decoding of two answers that differ only in the letter that ends
    the latitude and in the letter that ends the longitude gives the same
    result: [lat[2:-1]] and [lon[3:-1]] drop the letter, and nothing else
    reads it. *)
Theorem gnss_location_decimal_ignores_hemisphere m1 m2 blat blon h1 h2 k1 k2 c :
  (forall name, name <> "lat" -> name <> "lon" -> group m1 name = group m2 name) ->
  group m1 "lat" = Some (blat ++ String h1 EmptyString) ->
  group m2 "lat" = Some (blat ++ String h2 EmptyString) ->
  group m1 "lon" = Some (blon ++ String k1 EmptyString) ->
  group m2 "lon" = Some (blon ++ String k2 EmptyString) ->
  2 <= Py.len blat ->
  3 <= Py.len blon ->
  gnss_location_parse m1 true c = gnss_location_parse m2 true c.
Proof.
  intros Hg Hl1 Hl2 Ho1 Ho2 Hlat Hlon.
  unfold gnss_location_parse.
  rewrite (Hg "utc"), (Hg "date"), (Hg "hdop"), (Hg "altitude"), (Hg "fix"),
    (Hg "cog"), (Hg "spkm"), (Hg "spkn"), (Hg "nsat_gps"), (Hg "nsat_glonass")
    by discriminate.
  rewrite Hl1, Hl2, Ho1, Ho2.
  cbn [subscriptable from_option].
  do 11 (apply bind_ext; intros ? ?).
  rewrite !bind_ret_l. cbv beta.
  rewrite !slice_drop_last by lia.
  rewrite !slice_prefix by lia.
  do 2 (apply bind_ext; intros ? ?).
  rewrite !bind_ret_l. cbv beta.
  rewrite !slice_drop_last by lia.
  rewrite !slice_prefix by lia.
  reflexivity.
Qed.

(** A run of X15: the answer of the source's comment, north-east and
    south-west. *)
Lemma gnss_location_decimal_ignores_hemisphere_witness :
  let fields lat lon :=
    [("nsat_glonass", "04"); ("nsat_gps", "04"); ("date", "140622");
     ("spkn", "0.0"); ("spkm", "0.0"); ("cog", "0.0"); ("fix", "3");
     ("altitude", "-30.6"); ("hdop", "1.4"); ("lon", lon); ("lat", lat);
     ("utc", "093446.000")] in
  let m1 := MatchObj (fields "5702.1608N" "00956.1064E") 79 in
  let m2 := MatchObj (fields "5702.1608S" "00956.1064W") 79 in
  rmatch GPSACP_regex
    "$GPSACP: 093446.000,5702.1608N,00956.1064E,1.4,-30.6,3,0.0,0.0,0.0,140622,04,04"
  = Some m1
  /\ rmatch GPSACP_regex
       "$GPSACP: 093446.000,5702.1608S,00956.1064W,1.4,-30.6,3,0.0,0.0,0.0,140622,04,04"
     = Some m2
  /\ gnss_location_parse m1 true (fresh []) = gnss_location_parse m2 true (fresh []).
Proof.
  intros fields m1 m2.
  split; [vm_compute; reflexivity|]. split; [vm_compute; reflexivity|].
  apply (@gnss_location_decimal_ignores_hemisphere m1 m2 "5702.1608" "00956.1064"
           "N" "S" "E" "W" (fresh [])); try reflexivity; try (vm_compute; discriminate).
  intros name Hlat Hlon. unfold group, m1, m2, fields. cbn [m_groups lookup].
  repeat match goal with
         | |- (if String.eqb ?a name then _ else _) = _ =>
             destruct (String.eqb_spec a name) as [?|?];
             [try reflexivity; exfalso; congruence|]
         end.
  reflexivity.
Defined.

(** *** Configuration at connection open *)

(** X16.  [config] on a modem that is already configured as the settings
    ask only reads: when the modem reports the error mode and the session
    status of the settings, [config] writes the two read queries and
    nothing else.  And it stops at the first failure: when [error_config]
    fails, [config] fails the same way and the GNSS session is not
    touched. *)
Theorem config_no_redundant_write (c : conn) :
  (forall v b c1 c2,
      error_config Py.VNone false c = (Ok v, c1) ->
      gnss_session Py.VNone false c1 = (Ok b, c2) ->
      config (Settings false (Some (Py.VStr v)) (Some (Py.VBool b))) c = (Ok tt, c2)
      /\ tx c2 = (tx c ++ ["AT+CMEE?"; "AT$GPSP?"])%list)
  /\ (forall mode status e c1,
         error_config mode false c = (Raise e, c1) ->
         config (Settings false (Some mode) status) c = (Raise e, c1)).
Proof.
  split.
  - intros v b c1 c2 H1 H2.
    destruct (error_config_noop _ H1) as [He Ht1].
    destruct (gnss_session_noop _ H2) as [Hs Ht2].
    split.
    + unfold config. cbn [perform_initial_nmea_escape setting_error_config
                            setting_gnss_session].
      unfold bind at 1. unfold ret at 1.
      unfold bind at 1. unfold bind at 1. rewrite He. unfold ret at 1.
      unfold bind. rewrite Hs. reflexivity.
    + rewrite Ht2, Ht1, <- app_assoc. reflexivity.
  - intros mode status e c1 H.
    unfold config. cbn [perform_initial_nmea_escape setting_error_config
                          setting_gnss_session].
    unfold bind at 1. unfold ret at 1.
    unfold bind at 1. unfold bind at 1. rewrite H. reflexivity.
Qed.

(** A run of X16. *)
Lemma config_no_redundant_write_witness :
  let c := fresh ["+CMEE: 2"; "OK"; "$GPSP: 1"; "OK"] in
  fst (config (Settings false (Some (Py.VStr "verbose")) (Some (Py.VBool true))) c)
  = Ok tt
  /\ tx (snd (config (Settings false (Some (Py.VStr "verbose"))
                     (Some (Py.VBool true))) c))
     = ["AT+CMEE?"; "AT$GPSP?"].
Proof.
  intros c.
  assert (H1 : error_config Py.VNone false c
               = (Ok "verbose", snd (error_config Py.VNone false c))) by reflexivity.
  assert (H2 : gnss_session Py.VNone false (snd (error_config Py.VNone false c))
               = (Ok true,
                  snd (gnss_session Py.VNone false
                         (snd (error_config Py.VNone false c))))) by reflexivity.
  destruct (proj1 (config_no_redundant_write c) _ _ _ _ H1 H2) as [Hc Ht].
  rewrite Hc. split; [reflexivity|exact Ht].
Defined.

Lemma writes_first_only_appends {A} q (m : M A) :
  writes_first q m -> only_appends m.
Proof. intros H c. destruct (H c) as [r Hr]. exists (q :: r). exact Hr. Qed.

Lemma send_nmea_escape_sequence_tx wait timeout c :
  tx (snd (send_nmea_escape_sequence wait timeout c)) = (tx c ++ ["+++"])%list.
Proof.
  unfold send_nmea_escape_sequence, SerialConn.write. unfold bind at 1.
  destruct wait; [|reflexivity].
  unfold bind.
  destruct (read_until "NO CARRIER" error_regex (Some timeout) (add_tx "+++" c))
    as [[o|e] c1] eqn:E; pose proof (read_until_tx _ _ _ _ E) as Ht; exact Ht.
Qed.

(** X17.  With [perform_initial_nmea_escape], [config] sends the escape
    sequence before anything else, and when the wait for [NO CARRIER]
    fails it gives up there: the failure is the result and no AT command
    is written. *)
Theorem config_escape_first s c :
  perform_initial_nmea_escape s = true ->
  (exists rest, tx (snd (config s c)) = (tx c ++ "+++" :: rest)%list)
  /\ (forall e c1,
         read_until "NO CARRIER" error_regex (Some 3) (add_tx "+++" c) = (Raise e, c1) ->
         config s c = (Raise e, c1) /\ tx c1 = (tx c ++ ["+++"])%list).
Proof.
  intros Hp. split.
  - revert c. change (writes_first "+++" (config s)).
    unfold config. rewrite Hp. apply writes_first_bind.
    + intros c. unfold bind at 1.
      pose proof (send_nmea_escape_sequence_tx true 3 c) as Ht.
      destruct (send_nmea_escape_sequence true 3 c) as [[o|e] c1]; exact Ht.
    + intros _. apply only_appends_bind.
      * destruct (setting_error_config s).
        -- apply only_appends_bind; [|intros ?; apply pure_only_appends, pure_ret].
           eapply writes_first_only_appends, error_config_reads_first.
        -- apply pure_only_appends, pure_ret.
      * intros _. destruct (setting_gnss_session s).
        -- apply only_appends_bind; [|intros ?; apply pure_only_appends, pure_ret].
           eapply writes_first_only_appends, gnss_session_reads_first.
        -- apply pure_only_appends, pure_ret.
  - intros e c1 E. pose proof (read_until_tx _ _ _ _ E) as Ht. split.
    + unfold config. rewrite Hp.
      unfold send_nmea_escape_sequence, SerialConn.write.
      unfold bind at 1. unfold bind at 1. unfold bind at 1. unfold bind at 1.
      rewrite E. reflexivity.
    + rewrite Ht. reflexivity.
Qed.

(** A run of X17: the port stays silent after the escape sequence. *)
Lemma config_escape_first_witness :
  let s := Settings true (Some (Py.VStr "verbose")) (Some (Py.VBool true)) in
  let c := fresh ["$GPGGA,1"; "$GPRMC,2"] in
  fst (config s c) = Raise Py.SerialTimeout
  /\ tx (snd (config s c)) = ["+++"].
Proof.
  intros s c.
  destruct (proj2 (@config_escape_first s c eq_refl) Py.SerialTimeout
                  (set_rx [] (add_tx "+++" c)) eq_refl) as [Hc Ht].
  rewrite Hc. split; [reflexivity|exact Ht].
Defined.

(** *** The IMEI *)

(** [[0-9]*] is greedy: on a run of digits followed by something that is
    not a digit it takes the whole run, when the rest of the pattern
    accepts that. *)
Lemma star_digit_greedy {R} (k : nat -> string -> groups -> option R) ds :
  forall rest fuel pos g x,
    all_digits ds = true -> starts_with_digit rest = false ->
    (String.length ds <= fuel)%nat ->
    k (pos + String.length ds)%nat rest g = Some x ->
    (fix star (fuel : nat) (pos : nat) (s : string) (g : groups) : option R :=
       match fuel with
       | O => k pos s g
       | S fuel' =>
           match run digit pos s g
                     (fun pos' s' g' =>
                        if (pos <? pos')%nat then star fuel' pos' s' g' else None) with
           | Some x => Some x
           | None => k pos s g
           end
       end) fuel pos (ds ++ rest) g = Some x.
Proof.
  induction ds as [|d ds IH]; intros rest fuel pos g x Hd Hr Hf Hk.
  - rewrite Nat.add_0_r in Hk. change (EmptyString ++ rest) with rest.
    destruct fuel as [|fuel]; [exact Hk|].
    destruct rest as [|c rest]; [exact Hk|].
    simpl in Hr. unfold digit. cbn [run]. rewrite Hr. exact Hk.
  - destruct fuel as [|fuel]; [simpl in Hf; lia|].
    cbn [all_digits] in Hd. apply andb_prop in Hd. destruct Hd as [Hd1 Hd2].
    change (String d ds ++ rest) with (String d (ds ++ rest)).
    specialize (IH rest fuel (S pos) g x Hd2 Hr).
    set (star := fix star (fuel : nat) (pos : nat) (s : string) (g : groups) : option R :=
       match fuel with
       | O => k pos s g
       | S fuel' =>
           match run digit pos s g
                     (fun pos' s' g' =>
                        if (pos <? pos')%nat then star fuel' pos' s' g' else None) with
           | Some x => Some x
           | None => k pos s g
           end
       end) in *.
    change (match run digit pos (String d (ds ++ rest)) g
                      (fun pos' s' g' =>
                         if (pos <? pos')%nat then star fuel pos' s' g' else None) with
            | Some x => Some x
            | None => k pos (String d (ds ++ rest)) g
            end = Some x).
    unfold digit. cbn [run]. rewrite Hd1.
    assert (Hlt : (pos <? S pos)%nat = true) by (apply Nat.ltb_lt; lia).
    rewrite Hlt. rewrite IH; [reflexivity| |].
    + simpl in Hf. lia.
    + cbn [String.length] in Hk. rewrite <- Hk. f_equal. lia.
Qed.

Lemma length_app_string a b : String.length (a ++ b) = (String.length a + String.length b)%nat.
Proof. induction a; simpl; auto. Qed.

Lemma substring_all s : substring 0 (String.length s) s = s.
Proof. induction s as [|ch s IH]; simpl; [reflexivity|rewrite IH; reflexivity]. Qed.

Lemma GSN_match ds rest :
  ds <> EmptyString -> all_digits ds = true -> starts_with_digit rest = false ->
  rmatch GSN_regex ("+GSN: " ++ ds ++ rest)
  = Some (MatchObj [("value", ds)] (6 + String.length ds)).
Proof.
  intros Hne Hd Hr. destruct ds as [|d ds]; [congruence|].
  cbn [all_digits] in Hd. apply andb_prop in Hd. destruct Hd as [Hd1 Hd2].
  unfold rmatch, GSN_regex, Plus.
  change ("+GSN: " ++ String d ds ++ rest) with
    (String "+" (String "G" (String "S" (String "N" (String ":" (String " "
       (String d (ds ++ rest)))))))).
  cbn [run Lit Ascii.eqb Bool.eqb].
  unfold digit at 1. cbn [run]. rewrite Hd1.
  apply star_digit_greedy; try assumption.
  - rewrite length_app_string. lia.
  - replace (7 + String.length ds - 6)%nat with (S (String.length ds)) by lia.
    cbn [substring]. rewrite substring_app_l by lia. rewrite substring_all.
    reflexivity.
Qed.

(** X18.  [imei] gives the digits that follow [+GSN: ] in the answer: the
    whole run of digits, whatever comes after it, under the key [value].
    When the modem answers without a data line, the pattern is matched
    against the empty string, and [imei] fails with the [AttributeError]
    of [None.groupdict()]. *)
Theorem imei_value c o c1 :
  execute_cmd "AT+GSN=1" c = (Ok (Some o), c1) ->
  (forall ds rest,
      o_data o = Some (Line ("+GSN: " ++ ds ++ rest)) ->
      ds <> EmptyString -> all_digits ds = true -> starts_with_digit rest = false ->
      imei c = (Ok [("value", ds)], c1))
  /\ (o_data o = None ->
      imei c = (Raise (Py.AttributeError
                         "'NoneType' object has no attribute 'groupdict'"), c1)).
Proof.
  intros He. split.
  - intros ds rest Ho Hne Hd Hr.
    unfold imei. unfold bind at 1. rewrite He.
    unfold bind, match_data. rewrite Ho. unfold ret.
    rewrite (@GSN_match ds rest Hne Hd Hr). reflexivity.
  - intros Ho. unfold imei. unfold bind at 1. rewrite He.
    unfold bind, match_data. rewrite Ho. reflexivity.
Qed.

(** A run of X18. *)
Lemma imei_value_witness :
  let c := fresh ["+GSN: 356938035643809"; "OK"] in
  imei c = (Ok [("value", "356938035643809")], snd (imei c)).
Proof.
  intros c.
  assert (He : execute_cmd "AT+GSN=1" c
               = (Ok (Some (Outcome None (Some (Line "+GSN: 356938035643809")))), snd (imei c)))
    by reflexivity.
  assert (Hne : "356938035643809" <> EmptyString) by discriminate.
  assert (Hd : all_digits "356938035643809" = true) by reflexivity.
  assert (Hr : starts_with_digit EmptyString = false) by reflexivity.
  exact (proj1 (@imei_value c _ _ He) "356938035643809" EmptyString eq_refl Hne Hd Hr).
Defined.

(** *** The commands of [sms_list] *)





